(** * Bangladesh disaster-risk simulation: a shallow embedding

    The Python sources are embedded as Rocq functions.  Conventions:

    - Python [float] and [int] values are idealised as exact rationals [Q];
      [int(x)] is truncation toward zero ([py_int]).  Equality of numbers is
      [Qeq] ([==]).  Rounding is not modelled: where an exact value meets a
      bound, the float may fall on the other side of it, and the properties
      of such places are stated for every value close to the exact one.
    - Where the code divides numbers that may be [numpy.float64], the kind
      of each number is recorded ([Py.dtype]) and the quotient is an
      extended float ([Py.float]): a Python number divided by zero raises
      ZeroDivisionError, a numpy one gives [inf] or [nan].
    - A [dict] with string keys is an association list in insertion order.
    - [print] is modelled by a writer: a function that may print returns its
      value together with the lines it wrote.
    - The ambient numpy/scipy generator is an explicit state threaded through
      every sampling call.  [np.random.choice(n, size, replace=False)] takes
      the first [size] entries of [np.random.permutation(n)], which is a
      parameter of the sections that use it.
    - Library functions on floats that have no rational counterpart
      ([np.log], [np.exp], [np.sqrt], [**] with a fractional exponent, which
      is a number for a non-negative base only) are parameters of the
      sections that use them. *)

From Stdlib Require Import ZArith QArith Qabs Qround Qminmax Qpower List String Bool Lia Lqa
  Permutation.
Import ListNotations.

Local Open Scope Q_scope.
Local Open Scope string_scope.

(** ** Python primitives *)

Module Py.

(** [int(x)] on a float: truncation toward zero. *)
Definition py_int (x : Q) : Z := Z.quot (Qnum x) (Zpos (Qden x)).

(** [d.get(k)] on an association list. *)
Fixpoint lookup {A : Type} (k : string) (d : list (string * A)) : option A :=
  match d with
  | [] => None
  | (k', v) :: rest => if String.eqb k k' then Some v else lookup k rest
  end.

(** [d.get(k, default)]. *)
Definition get {A : Type} (d : list (string * A)) (k : string) (default : A) : A :=
  match lookup k d with
  | Some v => v
  | None => default
  end.

(** [k in d]. *)
Definition contains {A : Type} (k : string) (d : list (string * A)) : bool :=
  match lookup k d with
  | Some _ => true
  | None => false
  end.

(** [d[k] = v]: overwrite in place, or append a new key. *)
Fixpoint set {A : Type} (k : string) (v : A) (d : list (string * A)) : list (string * A) :=
  match d with
  | [] => [(k, v)]
  | (k', v') :: rest =>
      if String.eqb k k' then (k', v) :: rest else (k', v') :: set k v rest
  end.

(** [sub in s] for strings. *)
Fixpoint prefixb (p s : string) : bool :=
  match p, s with
  | EmptyString, _ => true
  | String a p', String b s' => if Ascii.eqb a b then prefixb p' s' else false
  | String _ _, EmptyString => false
  end.

Fixpoint substring_in (sub s : string) : bool :=
  if prefixb sub s then true
  else match s with
       | EmptyString => false
       | String _ s' => substring_in sub s'
       end.

(** [sum(xs)] on numbers. *)
Definition sumQ (xs : list Q) : Q := fold_left Qplus xs 0.
Definition sumZ (xs : list Z) : Z := fold_left Z.add xs 0%Z.

(** Exceptions the modelled code can raise. *)
Inductive exn : Type :=
| ZeroDivisionError
| KeyError (key : string)
| IndexError
| TypeError
| ValueError
| OverflowError
| AttributeError.

Inductive result (A : Type) : Type :=
| Ok (a : A)
| Raise (e : exn).
Arguments Ok {A} a.
Arguments Raise {A} e.

Definition bind {A B : Type} (m : result A) (f : A -> result B) : result B :=
  match m with
  | Ok a => f a
  | Raise e => Raise e
  end.

(** [x / y] on Python floats. *)
Definition div (x y : Q) : result Q :=
  if Qeq_bool y 0 then Raise ZeroDivisionError else Ok (x / y).

(** [x ** n] on a Python float and an [int]: a zero base cannot be raised
    to a negative power. *)
Definition pow (x : Q) (n : Z) : result Q :=
  if Qeq_bool x 0 && (n <? 0)%Z then Raise ZeroDivisionError else Ok (Qpower x n).

(** The two kinds of number the code computes with: Python's own [int] and
    [float], and [numpy.float64], the type of what [np.log], [np.sum] and
    the numpy samplers return.  Arithmetic between the two kinds gives a
    [numpy.float64]. *)
Inductive dtype : Type := python | float64.

Definition coerce (a b : dtype) : dtype :=
  match a, b with
  | python, python => python
  | _, _ => float64
  end.

(** A float that may be infinite or not a number. *)
Inductive float : Type :=
| finite (q : Q)
| inf
| neg_inf
| nan.

(** [x / y] on numbers of the given kinds.  Python numbers raise on a zero
    divisor; when an operand is a [numpy.float64], numpy warns and the
    quotient is [inf], [-inf] or [nan]. *)
Definition truediv (dx : dtype) (x : Q) (dy : dtype) (y : Q) : result float :=
  if Qeq_bool y 0 then
    match coerce dx dy with
    | python => Raise ZeroDivisionError
    | float64 =>
        Ok (if Qlt_le_dec 0 x then inf else if Qlt_le_dec x 0 then neg_inf else nan)
    end
  else Ok (finite (x / y)).

(** [x < c]: false when [x] is [inf] or [nan]. *)
Definition float_lt (x : float) (c : Q) : bool :=
  match x with
  | finite q => if Qlt_le_dec q c then true else false
  | neg_inf => true
  | inf | nan => false
  end.

(** [int(x)]: [inf] and [nan] have no integer value. *)
Definition int_of (x : float) : result Z :=
  match x with
  | finite q => Ok (py_int q)
  | inf | neg_inf => Raise OverflowError
  | nan => Raise ValueError
  end.

(** [d[k]]. *)
Definition item {A : Type} (d : list (string * A)) (k : string) : result A :=
  match lookup k d with
  | Some v => Ok v
  | None => Raise (KeyError k)
  end.

(** A computation that may [print]: its value and the lines written. *)
Definition printing (A : Type) : Type := (A * list string)%type.
Definition silent {A : Type} (a : A) : printing A := (a, []).
Definition print (line : string) : printing unit := (tt, [line]).
Definition then_ {A B : Type} (m : printing A) (f : A -> printing B) : printing B :=
  let '(a, out1) := m in
  let '(b, out2) := f a in
  (b, (out1 ++ out2)%list).
Definition value {A : Type} (m : printing A) : A := fst m.
Definition printed {A : Type} (m : printing A) : list string := snd m.

End Py.

Notation "x <- m ;; k" := (Py.bind m (fun x => k))
  (at level 61, m at next level, right associativity).

(** ** src/models/climate_change_model.py *)

Module ClimateChangeModel.

Inductive Decade : Type := D2030 | D2040 | D2050.

(** A table keyed by the decades 2030, 2040, 2050. *)
Record by_decade (A : Type) : Type := mk_by_decade
  { at2030 : A; at2040 : A; at2050 : A }.
Arguments mk_by_decade {A}.
Arguments at2030 {A}.
Arguments at2040 {A}.
Arguments at2050 {A}.

Definition at_decade {A : Type} (t : by_decade A) (d : Decade) : A :=
  match d with
  | D2030 => at2030 t
  | D2040 => at2040 t
  | D2050 => at2050 t
  end.

Record Scenario : Type := mk_scenario
  { temperature_increase : by_decade Q;
    precipitation_change : by_decade (list Q);
    sea_level_rise : by_decade Q;
    cyclone_intensity_factor : by_decade Q;
    drought_frequency_factor : by_decade Q;
    extreme_rainfall_factor : by_decade Q }.

Definition RCP45 : Scenario :=
  {| temperature_increase := mk_by_decade 0.8 1.1 1.4;
     precipitation_change :=
       mk_by_decade [0.05; 0.08; 0.04; -0.02]
                    [0.08; 0.12; 0.06; -0.03]
                    [0.10; 0.15; 0.08; -0.05];
     sea_level_rise := mk_by_decade 0.12 0.22 0.32;
     cyclone_intensity_factor := mk_by_decade 0.05 0.08 0.12;
     drought_frequency_factor := mk_by_decade 0.10 0.15 0.20;
     extreme_rainfall_factor := mk_by_decade 0.07 0.12 0.18 |}.

Definition RCP85 : Scenario :=
  {| temperature_increase := mk_by_decade 1.0 1.6 2.2;
     precipitation_change :=
       mk_by_decade [0.07; 0.11; 0.06; -0.04]
                    [0.12; 0.18; 0.09; -0.08]
                    [0.18; 0.25; 0.12; -0.12];
     sea_level_rise := mk_by_decade 0.15 0.30 0.45;
     cyclone_intensity_factor := mk_by_decade 0.08 0.15 0.25;
     drought_frequency_factor := mk_by_decade 0.15 0.25 0.35;
     extreme_rainfall_factor := mk_by_decade 0.10 0.20 0.30 |}.

Definition RCP26 : Scenario :=
  {| temperature_increase := mk_by_decade 0.6 0.8 0.9;
     precipitation_change :=
       mk_by_decade [0.03; 0.05; 0.02; -0.01]
                    [0.05; 0.07; 0.03; -0.02]
                    [0.06; 0.08; 0.04; -0.02];
     sea_level_rise := mk_by_decade 0.10 0.18 0.24;
     cyclone_intensity_factor := mk_by_decade 0.03 0.05 0.07;
     drought_frequency_factor := mk_by_decade 0.05 0.08 0.10;
     extreme_rainfall_factor := mk_by_decade 0.05 0.07 0.09 |}.

(** [self.scenarios] *)
Definition scenarios : list (string * Scenario) :=
  [("RCP4.5", RCP45); ("RCP8.5", RCP85); ("RCP2.6", RCP26)].

(** [self.scenarios[scenario]] after the fallback
    [if scenario not in self.scenarios: scenario = 'RCP4.5']. *)
Definition resolve (scenario : string) : Scenario :=
  let scenario := if Py.contains scenario scenarios then scenario else "RCP4.5" in
  Py.get scenarios scenario RCP45.

(** [self.regional_sensitivity] *)
Definition regional_sensitivity : list (string * list (string * Q)) :=
  [("coastal",
    [("sea_level_rise", 1.0); ("cyclone", 1.0); ("salinity", 1.0);
     ("flood", 0.7); ("drought", 0.5)]);
   ("floodplain",
    [("sea_level_rise", 0.3); ("cyclone", 0.6); ("salinity", 0.5);
     ("flood", 1.0); ("drought", 0.7)]);
   ("haor_basin",
    [("sea_level_rise", 0.1); ("cyclone", 0.4); ("salinity", 0.2);
     ("flood", 0.9); ("drought", 0.5)]);
   ("barind_tract",
    [("sea_level_rise", 0.0); ("cyclone", 0.2); ("salinity", 0.1);
     ("flood", 0.3); ("drought", 1.0)]);
   ("hill_tracts",
    [("sea_level_rise", 0.0); ("cyclone", 0.3); ("salinity", 0.0);
     ("flood", 0.4); ("drought", 0.7)]);
   ("urban",
    [("sea_level_rise", 0.5); ("cyclone", 0.7); ("salinity", 0.3);
     ("flood", 0.8); ("drought", 0.6)])].

Definition floodplain_factors : list (string * Q) :=
  Py.get regional_sensitivity "floodplain" [].

(** The result dictionary of [get_annual_climate_parameters]. *)
Record ClimateParameters : Type := mk_params
  { p_temperature_increase : Q;
    p_sea_level_rise : Q;
    p_precipitation_change : list Q;
    p_cyclone_intensity_factor : Q;
    p_drought_frequency_factor : Q;
    p_extreme_rainfall_factor : Q }.

(** [a + (b - a) * f] *)
Definition interpolate (a b f : Q) : Q := a + (b - a) * f.

(** The decade, the previous decade (none below 2030) and the
    interpolation factor chosen for a year. *)
Definition decade_of (year : Z) : Decade * option Decade * Q :=
  if (year <=? 2030)%Z then
    (D2030, None, inject_Z (year - 2025) / 5)
  else if (year <=? 2040)%Z then
    (D2040, Some D2030, inject_Z (year - 2030) / 10)
  else
    (D2050, Some D2040, inject_Z (year - 2040) / 10).

(** One scalar parameter: [if decade == 2030: base 0 ... else: prev ...]. *)
Definition scalar (t : by_decade Q) (decade : Decade) (prev : option Decade) (f : Q) : Q :=
  match prev with
  | None => interpolate 0 (at_decade t decade) f
  | Some prev_decade => interpolate (at_decade t prev_decade) (at_decade t decade) f
  end.

(** [zip] of two lists under a binary function. *)
Fixpoint zip_with (g : Q -> Q -> Q) (xs ys : list Q) : list Q :=
  match xs, ys with
  | x :: xs', y :: ys' => g x y :: zip_with g xs' ys'
  | _, _ => []
  end.

Definition seasonal (t : by_decade (list Q)) (decade : Decade) (prev : option Decade) (f : Q)
  : list Q :=
  match prev with
  | None => zip_with (fun base dec => interpolate base dec f) [0; 0; 0; 0] (at_decade t decade)
  | Some prev_decade =>
      zip_with (fun prv dec => interpolate prv dec f)
               (at_decade t prev_decade) (at_decade t decade)
  end.

(** [get_annual_climate_parameters(self, year, scenario)].  The body has
    no [print] or logging call, so nothing is written. *)
Definition get_annual_climate_parameters (year : Z) (scenario : string)
  : Py.printing ClimateParameters :=
  let '(decade, prev_decade, interpolation_factor) := decade_of year in
  let s := resolve scenario in
  Py.silent
    {| p_temperature_increase :=
         scalar (temperature_increase s) decade prev_decade interpolation_factor;
       p_sea_level_rise :=
         scalar (sea_level_rise s) decade prev_decade interpolation_factor;
       p_precipitation_change :=
         seasonal (precipitation_change s) decade prev_decade interpolation_factor;
       p_cyclone_intensity_factor :=
         scalar (cyclone_intensity_factor s) decade prev_decade interpolation_factor;
       p_drought_frequency_factor :=
         scalar (drought_frequency_factor s) decade prev_decade interpolation_factor;
       p_extreme_rainfall_factor :=
         scalar (extreme_rainfall_factor s) decade prev_decade interpolation_factor |}.


(** The decade chosen by [apply_climate_scenarios]: a step function. *)
Definition step_decade (year : Z) : Decade :=
  if (year <=? 2030)%Z then D2030
  else if (year <=? 2040)%Z then D2040
  else D2050.

(** [region in [...]] *)
Definition region_in (region : string) (regions : list string) : bool :=
  existsb (String.eqb region) regions.

(** [effects[k] += v] *)
Definition add_to (k : string) (v : Q) (effects : list (string * Q)) : list (string * Q) :=
  Py.set k (Py.get effects k 0 + v) effects.

(** [apply_climate_scenarios(self, year, scenario, region, hazard_type)]:
    the [effects] dictionary.  The body has no [print] or logging call. *)
Definition apply_climate_scenarios (year : Z) (scenario region hazard_type : string)
  : Py.printing (list (string * Q)) :=
  let decade := step_decade year in
  let s := resolve scenario in
  let region_factors := Py.get regional_sensitivity region floodplain_factors in
  let precip := at_decade (precipitation_change s) decade in
  Py.silent
    (if hazard_type =? "flood" then
       let monsoon_change := nth 1 precip 0 in
       let slr := at_decade (sea_level_rise s) decade in
       let flood_sensitivity := Py.get region_factors "flood" 0.5 in
       let effects := [("intensity_change", monsoon_change * flood_sensitivity)] in
       let effects :=
         if region =? "coastal" then add_to "intensity_change" (slr * 0.5) effects
         else effects in
       let effects :=
         Py.set "frequency_change"
                (at_decade (extreme_rainfall_factor s) decade * flood_sensitivity) effects in
       Py.set "duration_change" (monsoon_change * 0.3) effects
     else if hazard_type =? "cyclone" then
       let cyclone_sensitivity := Py.get region_factors "cyclone" 0.5 in
       let factor := at_decade (cyclone_intensity_factor s) decade in
       let effects := [("intensity_change", factor * cyclone_sensitivity)] in
       let effects :=
         Py.set "frequency_change" (factor * 0.5 * cyclone_sensitivity) effects in
       if region =? "coastal" then
         Py.set "surge_amplification" (at_decade (sea_level_rise s) decade * 1.5) effects
       else effects
     else if hazard_type =? "drought" then
       let temp_increase := at_decade (temperature_increase s) decade in
       let winter_precip_change := nth 3 precip 0 in
       let drought_sensitivity := Py.get region_factors "drought" 0.5 in
       let effects := [("intensity_change", temp_increase * 0.2 * drought_sensitivity)] in
       let effects :=
         if Qlt_le_dec winter_precip_change 0
         then add_to "intensity_change" (- (winter_precip_change * drought_sensitivity)) effects
         else effects in
       Py.set "frequency_change"
              (at_decade (drought_frequency_factor s) decade * drought_sensitivity) effects
     else if hazard_type =? "landslide" then
       let rainfall := at_decade (extreme_rainfall_factor s) decade in
       if region =? "hill_tracts" then
         [("intensity_change", rainfall * 0.8); ("frequency_change", rainfall * 1.2)]
       else
         [("intensity_change", 0); ("frequency_change", 0)]
     else if hazard_type =? "salinity" then
       let slr := at_decade (sea_level_rise s) decade in
       let salinity_sensitivity := Py.get region_factors "salinity" 0.5 in
       if region_in region ["coastal"; "floodplain"] then
         [("intensity_change", slr * 0.7 * salinity_sensitivity);
          ("inland_intrusion_km", slr * 5)]
       else
         [("intensity_change", 0); ("inland_intrusion_km", 0)]
     else if hazard_type =? "erosion" then
       let monsoon_change := nth 1 precip 0 in
       let rainfall := at_decade (extreme_rainfall_factor s) decade in
       if region_in region ["floodplain"; "coastal"; "haor_basin"] then
         [("intensity_change", (monsoon_change + rainfall) * 0.5);
          ("frequency_change", rainfall * 0.3)]
       else
         [("intensity_change", 0); ("frequency_change", 0)]
     else
       let temp_increase := at_decade (temperature_increase s) decade in
       [("intensity_change", temp_increase * 0.1);
        ("frequency_change", temp_increase * 0.05)]).

End ClimateChangeModel.

(** ** bangladesh_disaster_simulation.py: class ClimateChangeModel

    The single-file version carries the same [scenarios] table; its
    [apply_climate_scenarios] differs. *)

Module Monolith_ClimateChangeModel.

Import ClimateChangeModel.

(** A hazard's effects dictionary; [affected_parameters] is its nested
    dictionary. *)
Record Effects : Type := mk_effects
  { entries : list (string * Q);
    affected_parameters : list (string * Q) }.

(** [climate_params]: the table values of one decade. *)
Record DecadeParams : Type := mk_decade_params
  { c_temperature_increase : Q;
    c_precipitation_change : list Q;
    c_sea_level_rise : Q;
    c_cyclone_intensity_factor : Q;
    c_drought_frequency_factor : Q;
    c_extreme_rainfall_factor : Q }.

(** [(year // 10) * 10], then limited to the table's keys. *)
Definition decade_marker (year : Z) : Decade :=
  let decade := ((year / 10) * 10)%Z in
  if (decade <? 2030)%Z then D2030
  else if (decade >? 2050)%Z then D2050
  else if (decade =? 2030)%Z then D2030
  else if (decade =? 2040)%Z then D2040
  else D2050.

Definition _apply_flood_climate_impacts (cp : DecadeParams) : Effects :=
  let pre_monsoon_change := nth 0 (c_precipitation_change cp) 0 in
  let monsoon_change := nth 1 (c_precipitation_change cp) 0 in
  let precip_change_factor := 0.3 * pre_monsoon_change + 0.7 * monsoon_change in
  let rainfall_intensity_factor := c_extreme_rainfall_factor cp in
  let drainage_impact := 0.5 * c_sea_level_rise cp in
  let snowmelt_factor := 0.1 * c_temperature_increase cp in
  let intensity_change :=
    precip_change_factor + rainfall_intensity_factor + drainage_impact + snowmelt_factor in
  let frequency_change := 0.7 * rainfall_intensity_factor + 0.3 * precip_change_factor in
  {| entries :=
       [("intensity_change", intensity_change);
        ("frequency_change", frequency_change);
        ("duration_change", 0.5 * intensity_change)];
     affected_parameters :=
       [("precipitation", precip_change_factor);
        ("extreme_rainfall", rainfall_intensity_factor);
        ("drainage", drainage_impact);
        ("snowmelt", snowmelt_factor)] |}.

Definition _apply_cyclone_climate_impacts (cp : DecadeParams) : Effects :=
  let intensity_factor := c_cyclone_intensity_factor cp in
  let sst_impact := 0.8 * c_temperature_increase cp / 2.0 in
  let surge_amplification := c_sea_level_rise cp in
  let intensity_change := intensity_factor + sst_impact in
  let frequency_change := -0.05 + 0.1 * sst_impact in
  {| entries :=
       [("intensity_change", intensity_change);
        ("frequency_change", frequency_change);
        ("storm_surge_amplification", surge_amplification);
        ("rainfall_intensity_increase", 0.3 + intensity_change)];
     affected_parameters :=
       [("wind_speed", intensity_change);
        ("sea_surface_temperature", sst_impact);
        ("storm_surge", surge_amplification)] |}.

Definition _apply_drought_climate_impacts (cp : DecadeParams) : Effects :=
  let winter_change := nth 3 (c_precipitation_change cp) 0 in
  let pre_monsoon_change := nth 0 (c_precipitation_change cp) 0 in
  let evapotranspiration_factor := 0.15 * c_temperature_increase cp in
  let intensity_change :=
    -1.0 * winter_change + evapotranspiration_factor - 0.5 * pre_monsoon_change in
  let frequency_change := c_drought_frequency_factor cp in
  {| entries :=
       [("intensity_change", intensity_change);
        ("frequency_change", frequency_change);
        ("duration_change", 0.7 * intensity_change)];
     affected_parameters :=
       [("winter_precipitation", winter_change);
        ("evapotranspiration", evapotranspiration_factor);
        ("soil_moisture", -0.8 * intensity_change)] |}.

Definition _apply_slr_climate_impacts (cp : DecadeParams) : Effects :=
  let slr := c_sea_level_rise cp in
  {| entries :=
       [("sea_level_rise_m", slr);
        ("salinity_intrusion_km", 2.0 * slr);
        ("coastal_erosion_amplification", 5.0 * slr);
        ("permanent_inundation_km2", 500 * slr)];
     affected_parameters :=
       [("inundation_depth", slr);
        ("groundwater_salinity", 0.5 * slr);
        ("coastal_flooding_frequency", 2.0 * slr)] |}.

(** [self.hazard_climate_models] *)
Definition hazard_climate_models : list (string * (DecadeParams -> Effects)) :=
  [("flood", _apply_flood_climate_impacts);
   ("cyclone", _apply_cyclone_climate_impacts);
   ("drought", _apply_drought_climate_impacts);
   ("sea_level_rise", _apply_slr_climate_impacts)].

Definition generic_effects : Effects :=
  {| entries := [("intensity_change", 0.05); ("frequency_change", 0.05)];
     affected_parameters := [] |}.

Definition unknown_scenario_warning (scenario : string) : string :=
  "Warning: Unknown climate scenario '" ++ scenario ++ "'. Using RCP4.5 as default.".

(** [apply_climate_scenarios(self, hazards, year, scenario)]; [hazards] is
    given by its keys, the hazard models themselves are not read. *)
Definition apply_climate_scenarios (hazards : list string) (year : Z) (scenario : string)
  : Py.printing (list (string * Effects)) :=
  Py.then_
    (if Py.contains scenario scenarios then Py.silent scenario
     else Py.then_ (Py.print (unknown_scenario_warning scenario))
                   (fun _ => Py.silent "RCP4.5"))
    (fun scenario =>
       let s := Py.get scenarios scenario RCP45 in
       let decade := decade_marker year in
       let climate_params :=
         {| c_temperature_increase := at_decade (temperature_increase s) decade;
            c_precipitation_change := at_decade (precipitation_change s) decade;
            c_sea_level_rise := at_decade (sea_level_rise s) decade;
            c_cyclone_intensity_factor := at_decade (cyclone_intensity_factor s) decade;
            c_drought_frequency_factor := at_decade (drought_frequency_factor s) decade;
            c_extreme_rainfall_factor := at_decade (extreme_rainfall_factor s) decade |} in
       Py.silent
         (map (fun hazard_type =>
                 (hazard_type,
                  match Py.lookup hazard_type hazard_climate_models with
                  | Some impact => impact climate_params
                  | None => generic_effects
                  end))
              hazards)).

End Monolith_ClimateChangeModel.

(** ** The ambient random generator

    [np.random] and [scipy.stats] draw from one process-wide generator.  Its
    state is the sequence of uniform variates it will hand out and the
    position reached.  No modelled function reseeds it. *)

Module Generator.

Record state : Type := mk_state
  { draws : nat -> Q;
    pos : nat }.

(** The next uniform variate in [0, 1). *)
Definition next (g : state) : Q * state :=
  (draws g (pos g), {| draws := draws g; pos := S (pos g) |}).

(** Every variate the generator hands out lies in [0, 1). *)
Definition unit_interval (g : state) : Prop :=
  forall n, 0 <= draws g n /\ draws g n < 1.

(** A generator that replays a finite list, then a constant. *)
Definition replay (xs : list Q) (rest : Q) : state :=
  {| draws := fun n => nth n xs rest; pos := 0 |}.

(** [np.allclose(s, 1)] with numpy's default tolerances:
    [|s - 1| <= 1e-8 + 1e-5 * |1|]. *)
Definition allclose_one (s : Q) : bool :=
  Qle_bool (Qabs (s - 1)) (0.00000001 + 0.00001 * 1).

(** The first value whose cumulative probability reaches the variate, if
    there is one. *)
Fixpoint inverse_cdf {A : Type} (values : list (A * Q)) (acc u : Q) : option A :=
  match values with
  | [] => None
  | (x, p) :: rest =>
      if Qle_bool u (acc + p) then Some x else inverse_cdf rest (acc + p) u
  end.

(** [stats.rv_discrete(values=(xs, ps)).rvs()], for values listed in
    increasing order.  The constructor raises ValueError when a probability
    is negative or when the probabilities do not sum to 1
    ([np.allclose(np.sum(pk), 1)]); [rvs] then inverts the cumulative sums
    on a uniform variate, [xk[argmax(cumsum(pk) >= u)]], which is the first
    value of all when no cumulative sum reaches the variate.  The cumulative
    sums are exact here; those of floating-point arithmetic can differ from
    them in the last place, which moves a variate that falls on a boundary
    to the neighbouring value. *)
Definition rv_discrete {A : Type} (values : list (A * Q)) (g : state)
  : Py.result (A * state) :=
  match values with
  | [] => Py.Raise Py.ValueError
  | (first, _) :: _ =>
      if existsb (fun v => negb (Qle_bool 0 (snd v))) values then Py.Raise Py.ValueError
      else if negb (allclose_one (Py.sumQ (map snd values))) then Py.Raise Py.ValueError
      else
        let '(u, g') := next g in
        Py.Ok (match inverse_cdf values 0 u with
               | Some x => x
               | None => first
               end, g')
  end.

End Generator.

(** ** src/models/hazard_model.py  (identical in the single-file version) *)

Module HazardModel.

Import Generator.

Inductive attr : Type :=
| Num (q : Q)
| Str (s : string)
| Names (l : list string).

(** An event dictionary: the six keys every event has, then the
    hazard-specific ones in insertion order. *)
Record Event : Type := mk_event
  { ev_type : string;
    ev_year : Z;
    ev_month : Z;
    ev_return_period : Q;
    ev_intensity : Q;
    ev_spatial_footprint : list (string * attr);
    ev_attributes : list (string * attr) }.

Record t : Type := mk
  { hazard_type : string;
    return_periods : list Q;
    intensity_scales : list (string * string);
    spatial_patterns : string;
    seasonal_profile : string;
    climate_sensitivity : list (string * Q) }.

(** [self.configs['cyclone']] entries that the methods read. *)
Definition surge_amplification_factor : Q := 1.2.
Definition track_probability : list (string * Q) :=
  [("west", 0.40); ("northwest", 0.35); ("north", 0.25)].

Definition monsoon_profile : list Q :=
  [0.01; 0.01; 0.02; 0.05; 0.10; 0.20; 0.25; 0.20; 0.10; 0.04; 0.01; 0.01].
Definition cyclone_profile : list Q :=
  [0.02; 0.03; 0.07; 0.09; 0.14; 0.05; 0.01; 0.01; 0.03; 0.10; 0.12; 0.04].
Definition uniform_profile : list Q := repeat (1 / 12) 12.

(** [range(1, 13)] *)
Definition months : list Z := [1; 2; 3; 4; 5; 6; 7; 8; 9; 10; 11; 12]%Z.

Definition _sample_month_from_profile (self : t) (g : state) : Py.result (Z * state) :=
  let probabilities :=
    if hazard_type self =? "flood" then
      if seasonal_profile self =? "monsoon" then monsoon_profile else uniform_profile
    else if hazard_type self =? "cyclone" then cyclone_profile
    else uniform_profile in
  rv_discrete (combine months probabilities) g.

Definition _sample_from_dict (probability_dict : list (string * Q)) (g : state)
  : Py.result (string * state) :=
  rv_discrete probability_dict g.

Definition _generate_spatial_footprint (self : t) (intensity : Q) : list (string * attr) :=
  if spatial_patterns self =? "riverine" then
    [("type", Str "riverine");
     ("affected_rivers", Names ["brahmaputra"; "ganges"; "meghna"])]
  else if spatial_patterns self =? "coastal" then
    [("type", Str "coastal");
     ("affected_coast", Names ["chittagong"; "khulna"; "barisal"])]
  else
    [("type", Str "generic"); ("coverage", Str "national")].

(** [1 + climate_effects.get(key, 0)] when [climate_effects] is a non-empty
    dictionary, [1] otherwise. *)
Definition multiplier (climate_effects : option (list (string * Q))) (key : string) : Q :=
  match climate_effects with
  | Some ((_ :: _) as effects) => 1.0 + Py.get effects key 0
  | _ => 1.0
  end.

Definition intensity_multiplier (climate_effects : option (list (string * Q))) : Q :=
  multiplier climate_effects "intensity_change".

Definition frequency_multiplier (climate_effects : option (list (string * Q))) : Q :=
  multiplier climate_effects "frequency_change".

(** [annual_prob = 1.0 / return_period * frequency_multiplier] *)
Definition annual_prob (return_period frequency_multiplier : Q) : Py.result Q :=
  q <- Py.div 1.0 return_period ;;
  Py.Ok (q * frequency_multiplier).

Section Sampling.

(** [np.log] *)
Variable np_log : Q -> Q.
(** [stats.gamma.rvs(a, scale=s)] as the quantile of a uniform variate. *)
Variable gamma_ppf : Q -> Q -> Q -> Q.

Definition gamma_rvs (a scale : Q) (g : state) : Q * state :=
  let '(u, g') := next g in
  (gamma_ppf a scale u, g').

Definition _intensity_from_return_period (self : t) (return_period : Q) : Q :=
  if hazard_type self =? "flood" then 0.8 * np_log return_period + 1.0
  else if hazard_type self =? "cyclone" then 15 * np_log return_period + 120
  else 0.5 * np_log return_period + 1.0.

(** [month in [6, 7, 8, 9]] *)
Definition in_monsoon (month : Z) : bool :=
  existsb (Z.eqb month) [6; 7; 8; 9]%Z.

(** The keys added to an event.  Under [hazard_type == 'geophysical'] the
    source tests [event['type']] against ['earthquake'] and
    ['landslide']; [event['type']] is [hazard_type], so neither test
    holds and nothing is added. *)
Definition _add_hazard_specific_attributes (self : t) (month : Z) (intensity : Q)
  (g : state) : Py.result (list (string * attr) * state) :=
  if hazard_type self =? "flood" then
    let flood_type := if in_monsoon month then "riverine" else "flash" in
    let '(duration, g1) :=
      if flood_type =? "riverine" then gamma_rvs 5 3 g else gamma_rvs 2 1 g in
    Py.Ok ([("flood_type", Str flood_type);
            ("duration", Num duration);
            ("depth", Num intensity)], g1)
  else if hazard_type self =? "cyclone" then
    let wind_speed := intensity in
    let storm_surge := 0.05 * wind_speed * surge_amplification_factor in
    r <- _sample_from_dict track_probability g ;;
    let '(track_direction, g1) := r in
    let rainfall_intensity := 10 * np_log wind_speed - 40 in
    let '(duration, g2) := gamma_rvs 2 12 g1 in
    Py.Ok ([("wind_speed", Num wind_speed);
            ("storm_surge", Num storm_surge);
            ("track_direction", Str track_direction);
            ("rainfall_intensity", Num rainfall_intensity);
            ("duration", Num duration)], g2)
  else
    Py.Ok ([], g).

(** One iteration of [for return_period in self.return_periods]. *)
Definition generate_event (self : t) (year : Z)
  (climate_effects : option (list (string * Q))) (return_period : Q) (g : state)
  : Py.result (option Event * state) :=
  p <- annual_prob return_period (frequency_multiplier climate_effects) ;;
  let '(u, g1) := next g in
  if Qlt_le_dec u p then
    r <- _sample_month_from_profile self g1 ;;
    let '(month, g2) := r in
    let base_intensity := _intensity_from_return_period self return_period in
    let adjusted_intensity := base_intensity * intensity_multiplier climate_effects in
    a <- _add_hazard_specific_attributes self month adjusted_intensity g2 ;;
    let '(attributes, g3) := a in
    Py.Ok (Some {| ev_type := hazard_type self;
                   ev_year := year;
                   ev_month := month;
                   ev_return_period := return_period;
                   ev_intensity := adjusted_intensity;
                   ev_spatial_footprint :=
                     _generate_spatial_footprint self adjusted_intensity;
                   ev_attributes := attributes |}, g3)
  else Py.Ok (None, g1).

Fixpoint generate_loop (self : t) (year : Z)
  (climate_effects : option (list (string * Q))) (rps : list Q)
  (events : list Event) (g : state) : Py.result (list Event * state) :=
  match rps with
  | [] => Py.Ok (events, g)
  | return_period :: rest =>
      r <- generate_event self year climate_effects return_period g ;;
      let '(ev, g') := r in
      let events' :=
        match ev with
        | Some e => (events ++ [e])%list
        | None => events
        end in
      generate_loop self year climate_effects rest events' g'
  end.

(** [generate_events(self, year, climate_effects=None)] *)
Definition generate_events (self : t) (year : Z)
  (climate_effects : option (list (string * Q))) (g : state)
  : Py.result (list Event * state) :=
  generate_loop self year climate_effects (return_periods self) [] g.

End Sampling.

End HazardModel.

(** ** src/models/exposure_model.py *)

Module ExposureModel.

Import Generator.

(** The placeholder GeoDataFrame: [num_units] and the per-unit attribute
    arrays that [get_exposed_elements] reads. *)
Record GeoDataFrame : Type := mk_gdf
  { num_units : nat;
    population : list Q;
    building_count : list Q }.

Record t : Type := mk
  { admin_level : string;
    total_population : Q;
    population_growth_rate : Q;
    urban_population_pct : Q;
    building_types : list (string * Q);
    critical_facilities : list (string * Q);
    economic_sectors : list (string * Q);
    agricultural_data : list (string * Q);
    admin_boundaries : list (string * GeoDataFrame) }.

(** The attribute values [__init__] assigns; the placeholder spatial data
    it samples is given. *)
Definition init (admin_level : string) (admin_boundaries : list (string * GeoDataFrame)) : t :=
  {| admin_level := admin_level;
     total_population := 169000000;
     population_growth_rate := 0.01;
     urban_population_pct := 0.39;
     building_types :=
       [("RCC", 0.15); ("semi_pucca", 0.25); ("kutcha", 0.50); ("jhupri", 0.10)];
     critical_facilities :=
       [("hospitals", 620); ("primary_schools", 65000); ("secondary_schools", 20300);
        ("power_plants", 143); ("bridges", 4700); ("embankments_km", 12000);
        ("cyclone_shelters", 2500); ("telecom_towers", 35000)];
     economic_sectors :=
       [("agriculture", 0.12); ("industry", 0.33); ("services", 0.55)];
     agricultural_data :=
       [("rice_area_ha", 11000000); ("wheat_area_ha", 350000); ("jute_area_ha", 700000);
        ("vegetable_area_ha", 900000); ("aquaculture_area_ha", 830000)];
     admin_boundaries := admin_boundaries |}.

(** [hazard_footprint.get('type', 'generic')] *)
Definition footprint_type (hazard_footprint : list (string * HazardModel.attr)) : string :=
  match Py.lookup "type" hazard_footprint with
  | Some (HazardModel.Str s) => s
  | _ => "generic"
  end.

(** [len(hazard_footprint.get(key, []))] *)
Definition affected_count (hazard_footprint : list (string * HazardModel.attr)) (key : string)
  : nat :=
  match Py.lookup key hazard_footprint with
  | Some (HazardModel.Names l) => List.length l
  | _ => 0%nat
  end.

(** [min(max(x, lo), hi)] *)
Definition clamp (x lo hi : Q) : Q := Qmin (Qmax x lo) hi.

Definition exposure_ratio_of (hazard_footprint : list (string * HazardModel.attr)) : Q :=
  let hazard_type := footprint_type hazard_footprint in
  if hazard_type =? "riverine" then
    clamp (inject_Z (Z.of_nat (affected_count hazard_footprint "affected_rivers")) / 3) 0.1 0.5
  else if hazard_type =? "coastal" then
    clamp (inject_Z (Z.of_nat (affected_count hazard_footprint "affected_coast")) / 3) 0.1 0.4
  else 0.1.

(** [np.sum(values[indices])] *)
Definition sum_at (values : list Q) (indices : list nat) : Q :=
  Py.sumQ (map (fun i => nth i values 0) indices).

(** [{k: int(f(k, v)) for k, v in d.items()}] *)
Definition map_items (f : string -> Q -> Q) (d : list (string * Q)) : list (string * Z) :=
  map (fun kv => (fst kv, Py.py_int (f (fst kv) (snd kv)))) d.

Definition crop_exposure (exposure_ratio : Q) (crop_type : string) : Q :=
  if Py.substring_in "rice" crop_type then exposure_ratio * 1.2
  else if Py.substring_in "aquaculture" crop_type then exposure_ratio * 1.5
  else exposure_ratio * 0.9.

(** The dictionary returned by [get_exposed_elements]. *)
Record Exposed : Type := mk_exposed
  { x_population : Q;
    x_buildings : list (string * Z);
    x_infrastructure : list (string * Z);
    x_agriculture : list (string * Z);
    x_exposure_ratio : Q }.

Section Sampling.

(** [np.random.permutation(n)]: the indices [0 .. n-1] in a random order,
    and the generator it leaves. *)
Variable permutation : nat -> state -> list nat * state.

(** [np.random.choice(n, size=k, replace=False)]: the first [k] entries of a
    random permutation of [0 .. n-1].  A negative size and a sample larger
    than the population raise ValueError. *)
Definition random_choice (n : nat) (size : Z) (g : state)
  : Py.result (list nat * state) :=
  if (size <? 0)%Z || (Z.of_nat n <? size)%Z
  then Py.Raise Py.ValueError
  else
    let '(indices, g') := permutation n g in
    Py.Ok (firstn (Z.to_nat size) indices, g').

(** [get_exposed_elements(self, hazard_footprint)] *)
Definition get_exposed_elements (self : t)
  (hazard_footprint : list (string * HazardModel.attr)) (g : state)
  : Py.result (Exposed * state) :=
  admin_gdf <- Py.item (admin_boundaries self) (admin_level self) ;;
  let exposure_ratio := exposure_ratio_of hazard_footprint in
  let num_exposed_units :=
    Py.py_int (inject_Z (Z.of_nat (num_units admin_gdf)) * exposure_ratio) in
  r <- random_choice (num_units admin_gdf) num_exposed_units g ;;
  let '(exposed_indices, g') := r in
  let exposed_population := sum_at (population admin_gdf) exposed_indices in
  let total_exposed_buildings := sum_at (building_count admin_gdf) exposed_indices in
  Py.Ok
    ({| x_population := exposed_population;
        x_buildings :=
          map_items (fun _ ratio => total_exposed_buildings * ratio) (building_types self);
        x_infrastructure :=
          map_items (fun _ count => count * exposure_ratio * 0.8) (critical_facilities self);
        x_agriculture :=
          map_items (fun crop_type area => area * crop_exposure exposure_ratio crop_type)
                    (agricultural_data self);
        x_exposure_ratio := exposure_ratio |}, g').

End Sampling.

End ExposureModel.

(** ** bangladesh_disaster_simulation.py: class ExposureModel

    The constructor and placeholder data are those of the module version;
    [get_exposed_elements] differs and [update_exposure] exists only here. *)

Module Monolith_ExposureModel.

Import Generator.
Import ExposureModel.

(** [np.random.uniform(low, high)] *)
Definition uniform (low high : Q) (g : state) : Q * state :=
  let '(u, g') := next g in
  (low + (high - low) * u, g').

(** [for facility_type, count in self.critical_facilities.items()], one
    uniform draw per facility type. *)
Fixpoint exposed_critical (exposure_ratio : Q) (facilities : list (string * Q)) (g : state)
  : list (string * Z) * state :=
  match facilities with
  | [] => ([], g)
  | (facility_type, count) :: rest =>
      let '(factor, g1) := uniform 0.8 1.2 g in
      let '(others, g2) := exposed_critical exposure_ratio rest g1 in
      ((facility_type, Py.py_int (count * exposure_ratio * factor)) :: others, g2)
  end.

Definition crop_exposure_ratio (hazard_type : string) (exposure_ratio : Q) (crop_type : string)
  : Q :=
  let ratio :=
    if (hazard_type =? "riverine") && Py.substring_in "rice" crop_type
    then exposure_ratio * 1.5
    else exposure_ratio in
  Qmin ratio 0.9.

Record Exposed : Type := mk_exposed
  { x_population : Q;
    x_buildings : list (string * Z);
    x_critical_infrastructure : list (string * Z);
    x_agriculture : list (string * Z);
    x_admin_units : list nat;
    x_exposure_ratio : Q }.

Section Sampling.

(** [np.random.permutation(n)] *)
Variable permutation : nat -> state -> list nat * state.

(** [get_exposed_elements(self, hazard_footprint)] *)
Definition get_exposed_elements (self : t)
  (hazard_footprint : list (string * HazardModel.attr)) (g : state)
  : Py.result (Exposed * state) :=
  admin_gdf <- Py.item (admin_boundaries self) (admin_level self) ;;
  let hazard_type := footprint_type hazard_footprint in
  let exposure_ratio := exposure_ratio_of hazard_footprint in
  let num_exposed_units :=
    Py.py_int (inject_Z (Z.of_nat (num_units admin_gdf)) * exposure_ratio) in
  r <- random_choice permutation (num_units admin_gdf) num_exposed_units g ;;
  let '(exposed_indices, g1) := r in
  let exposed_population := sum_at (population admin_gdf) exposed_indices in
  let total_exposed_buildings := sum_at (building_count admin_gdf) exposed_indices in
  let '(critical, g2) := exposed_critical exposure_ratio (critical_facilities self) g1 in
  Py.Ok
    ({| x_population := exposed_population;
        x_buildings :=
          map_items (fun _ ratio => total_exposed_buildings * ratio) (building_types self);
        x_critical_infrastructure := critical;
        x_agriculture :=
          map_items
            (fun crop_type area => area * crop_exposure_ratio hazard_type exposure_ratio crop_type)
            (agricultural_data self);
        x_admin_units := exposed_indices;
        x_exposure_ratio := exposure_ratio |}, g2).

End Sampling.

(** [d[k] = f(d[k])] *)
Definition modify (k : string) (f : Q -> Q) (d : list (string * Q))
  : Py.result (list (string * Q)) :=
  v <- Py.item d k ;;
  Py.Ok (Py.set k (f v) d).

(** [update_exposure(self, year)].  The bases [1 - reduction_rate] of the
    crop areas are the non-zero constants 0.998 and 0.999, whose powers
    never raise. *)
Definition update_exposure (self : t) (year : Z) : Py.result t :=
  let years_passed := (year - 2025)%Z in
  let yp := inject_Z years_passed in
  growth <- Py.pow (1 + population_growth_rate self) years_passed ;;
  let total_population' := total_population self * growth in
  let urban_population_increase := yp * 0.005 in
  let urban_population_pct' :=
    Qmin (urban_population_pct self + urban_population_increase) 0.65 in
  let agricultural_data' :=
    map (fun kv =>
           let reduction_rate :=
             if fst kv =? "rice_area_ha" then 0.002 else 0.001 in
           (fst kv, snd kv * Qpower (1 - reduction_rate) years_passed))
        (agricultural_data self) in
  let rcc_increase := yp * 0.003 in
  bt <- modify "RCC" (fun v => Qmin (v + rcc_increase) 0.35) (building_types self) ;;
  bt <- modify "kutcha" (fun v => v - rcc_increase / 2) bt ;;
  bt <- modify "semi_pucca" (fun v => v - rcc_increase / 2) bt ;;
  cf <- modify "cyclone_shelters" (fun v => v + 50 * yp) (critical_facilities self) ;;
  cf <- modify "hospitals" (fun v => v + 10 * yp) cf ;;
  cf <- modify "telecom_towers" (fun v => v + 1000 * yp) cf ;;
  let service_increase := yp * 0.002 in
  es <- modify "services" (fun v => Qmin (v + service_increase) 0.65) (economic_sectors self) ;;
  es <- modify "agriculture" (fun v => v - service_increase / 2) es ;;
  es <- modify "industry" (fun v => v - service_increase / 2) es ;;
  Py.Ok {| admin_level := admin_level self;
           total_population := total_population';
           population_growth_rate := population_growth_rate self;
           urban_population_pct := urban_population_pct';
           building_types := bt;
           critical_facilities := cf;
           economic_sectors := es;
           agricultural_data := agricultural_data';
           admin_boundaries := admin_boundaries self |}.

(** Successive annual calls [update_exposure(y)] for the years of a list. *)
Fixpoint update_years (self : t) (years : list Z) : Py.result t :=
  match years with
  | [] => Py.Ok self
  | y :: rest =>
      self' <- update_exposure self y ;;
      update_years self' rest
  end.

(** The sum of the building-type fractions. *)
Definition building_fraction_sum (self : t) : Q :=
  Py.sumQ (map snd (building_types self)).

End Monolith_ExposureModel.

(** ** bangladesh_disaster_simulation.py: class VulnerabilityModel *)

Module VulnerabilityModel.

Import Generator.

Record BuildingDamage : Type := mk_building_damage
  { b_count : Z;
    b_damage_ratio : Q;
    b_damaged_count : Z }.

Record Casualties : Type := mk_casualties
  { deaths : Z;
    injuries : Z;
    displaced : Z }.

Record Disruption : Type := mk_disruption
  { mean_disruption_days : Q;
    total_service_days_lost : Z }.

Record Economic : Type := mk_economic
  { direct_losses : Q;
    indirect_losses : Q }.

(** The [damages] dictionary. *)
Record Damages : Type := mk_damages
  { d_buildings : list (string * BuildingDamage);
    d_casualties : Casualties;
    d_infrastructure : list (string * BuildingDamage);
    d_agriculture : list (string * BuildingDamage);
    d_economic : Economic;
    d_functional_disruption : list (string * Disruption) }.

(** [hazard_event[key]] for a numeric key. *)
Definition event_item (ev : HazardModel.Event) (key : string) : Py.result Q :=
  if key =? "intensity" then Py.Ok (HazardModel.ev_intensity ev)
  else if key =? "return_period" then Py.Ok (HazardModel.ev_return_period ev)
  else
    match Py.lookup key (HazardModel.ev_attributes ev) with
    | Some (HazardModel.Num q) => Py.Ok q
    | Some _ => Py.Raise Py.TypeError
    | None => Py.Raise (Py.KeyError key)
    end.

(** [hazard_event.get(key, default)] for a numeric key. *)
Definition event_get (ev : HazardModel.Event) (key : string) (default : Q) : Q :=
  match event_item ev key with
  | Py.Ok q => q
  | Py.Raise _ => default
  end.

(** [key in hazard_event] for a hazard-specific key. *)
Definition event_has (ev : HazardModel.Event) (key : string) : bool :=
  Py.contains key (HazardModel.ev_attributes ev).

(** [min(hi, max(0, x))] *)
Definition cap (hi x : Q) : Q := Qmin hi (Qmax 0 x).

(** [x ** 2] *)
Definition sq (x : Q) : Q := x * x.

(** [c * (x - t) ** 2 if x > t else 0] *)
Definition above (c t x : Q) : Q :=
  if Qlt_le_dec t x then c * sq (x - t) else 0.

(** [c * x - d if x > t else 0] *)
Definition linear_above (c d t x : Q) : Q :=
  if Qlt_le_dec t x then c * x - d else 0.

(** [self.functional_disruption]: the gamma shape and scale of each damage
    tier (low, medium, high). *)
Definition functional_disruption : list (string * ((Q * Q) * (Q * Q) * (Q * Q))) :=
  [("hospitals", ((2.0, 2.0), (5.0, 6.0), (10.0, 15.0)));
   ("schools", ((3.0, 5.0), (7.0, 7.0), (12.0, 15.0)));
   ("power", ((1.0, 1.0), (3.0, 2.0), (7.0, 5.0)));
   ("water", ((2.0, 1.5), (5.0, 3.0), (10.0, 6.0)));
   ("transport", ((1.0, 2.0), (4.0, 5.0), (8.0, 10.0)));
   ("telecom", ((1.0, 1.0), (2.0, 2.0), (5.0, 3.0)))].

Definition building_values : list (string * Q) :=
  [("RCC", 5000000); ("semi_pucca", 1500000); ("kutcha", 500000); ("jhupri", 100000)].

Definition infrastructure_values : list (string * Q) :=
  [("hospitals", 100000000); ("primary_schools", 10000000);
   ("secondary_schools", 20000000); ("power_plants", 5000000000);
   ("bridges", 50000000); ("embankments_km", 10000000);
   ("cyclone_shelters", 20000000); ("telecom_towers", 5000000)].

Definition agriculture_values : list (string * Q) :=
  [("rice_area_ha", 150000); ("wheat_area_ha", 120000); ("jute_area_ha", 200000);
   ("vegetable_area_ha", 300000); ("aquaculture_area_ha", 500000)].

Definition loss_of (avg_value : Q) (damage : BuildingDamage) : Q :=
  inject_Z (b_damaged_count damage) * avg_value * b_damage_ratio damage.

Definition _calculate_building_losses (building_damages : list (string * BuildingDamage)) : Q :=
  fold_left
    (fun total_loss kv =>
       match Py.lookup (fst kv) building_values with
       | Some avg_value => total_loss + loss_of avg_value (snd kv)
       | None => total_loss
       end)
    building_damages 0.

(** [next((key for key in infrastructure_values.keys() if key in infra_type), None)] *)
Definition value_key (infra_type : string) : option (string * Q) :=
  find (fun kv => Py.substring_in (fst kv) infra_type) infrastructure_values.

Definition _calculate_infrastructure_losses
  (infrastructure_damages : list (string * BuildingDamage)) : Q :=
  fold_left
    (fun total_loss kv =>
       match value_key (fst kv) with
       | Some (_, avg_value) => total_loss + loss_of avg_value (snd kv)
       | None => total_loss
       end)
    infrastructure_damages 0.

Definition _calculate_agriculture_losses
  (agriculture_damages : list (string * BuildingDamage)) : Q :=
  fold_left
    (fun total_loss kv =>
       match Py.lookup (fst kv) agriculture_values with
       | Some avg_value => total_loss + loss_of avg_value (snd kv)
       | None => total_loss
       end)
    agriculture_damages 0.

(** The vulnerability category of an infrastructure type. *)
Definition infrastructure_key (infra_type : string) : option string :=
  if Py.substring_in "hospital" infra_type then Some "hospitals"
  else if Py.substring_in "school" infra_type then Some "schools"
  else if Py.substring_in "bridge" infra_type then Some "bridges"
  else if Py.substring_in "embankment" infra_type then Some "embankments"
  else if Py.substring_in "power" infra_type then Some "power_infrastructure"
  else if Py.substring_in "telecom" infra_type then Some "telecom"
  else None.

Definition crop_key (crop_type : string) : string :=
  if Py.substring_in "rice" crop_type then "rice"
  else if Py.substring_in "wheat" crop_type then "wheat"
  else if Py.substring_in "jute" crop_type then "jute"
  else if Py.substring_in "vegetable" crop_type then "vegetables"
  else if Py.substring_in "aquaculture" crop_type then "aquaculture"
  else "rice".

(** The crop coefficients: flood [(a, b)] for [a * depth + b * duration],
    cyclone [(c, d, t)] for [c * wind - d if wind > t else 0], drought [s]
    for [s * severity]. *)
Definition agricultural_vulnerability
  : list (string * ((Q * Q) * (Q * Q * Q) * Q)) :=
  [("rice", ((0.2, 0.05), (0.003, 0.15, 50), 0.8));
   ("wheat", ((0.3, 0.07), (0.0025, 0.1, 40), 0.7));
   ("jute", ((0.15, 0.04), (0.0035, 0.12, 45), 0.9));
   ("vegetables", ((0.35, 0.08), (0.004, 0.1, 35), 0.85));
   ("aquaculture", ((0.1, 0.02), (0.0015, 0.05, 60), 0.95))].

Section Damage.

(** [x ** y] for a fractional exponent [y] and a base [x >= 0]; for a
    negative base the float power is [nan] (or a complex number), which
    this parameter does not represent. *)
Variable fpow : Q -> Q -> Q.
(** [np.random.gamma(shape, scale)] as the quantile of a uniform variate. *)
Variable gamma_ppf : Q -> Q -> Q -> Q.

(** [self.building_vulnerability[hazard_type][building_type]['damage_function']] *)
Definition building_vulnerability (hazard_type building_type : string) : option (Q -> Q) :=
  if hazard_type =? "flood" then
    if building_type =? "RCC" then Some (fun depth => cap 0.9 (0.1 * fpow depth 1.25))
    else if building_type =? "semi_pucca" then
      Some (fun depth => cap 0.95 (0.2 * fpow depth 1.5))
    else if building_type =? "kutcha" then
      Some (fun depth => cap 1.0 (0.3 * fpow depth 1.7))
    else if building_type =? "jhupri" then
      Some (fun depth => cap 1.0 (0.5 * fpow depth 2.0))
    else None
  else if hazard_type =? "cyclone" then
    if building_type =? "RCC" then Some (fun wind => cap 0.9 (above 0.0001 80 wind))
    else if building_type =? "semi_pucca" then
      Some (fun wind => cap 0.95 (above 0.0002 60 wind))
    else if building_type =? "kutcha" then
      Some (fun wind => cap 1.0 (above 0.0004 40 wind))
    else if building_type =? "jhupri" then
      Some (fun wind => cap 1.0 (above 0.0008 30 wind))
    else None
  else if hazard_type =? "earthquake" then
    if building_type =? "RCC" then Some (fun pga => cap 0.9 (1.5 * fpow pga 1.8))
    else if building_type =? "semi_pucca" then
      Some (fun pga => cap 0.95 (2.0 * fpow pga 1.5))
    else if building_type =? "kutcha" then
      Some (fun pga => cap 1.0 (2.5 * fpow pga 1.3))
    else if building_type =? "jhupri" then
      Some (fun pga => cap 1.0 (3.0 * fpow pga 1.2))
    else None
  else None.

(** [self.infrastructure_vulnerability[vulnerability_key][hazard_type]] *)
Definition infrastructure_vulnerability (vulnerability_key hazard_type : string)
  : option (Q -> Q) :=
  let pick (flood cyclone earthquake : Q -> Q) : option (Q -> Q) :=
    if hazard_type =? "flood" then Some flood
    else if hazard_type =? "cyclone" then Some cyclone
    else if hazard_type =? "earthquake" then Some earthquake
    else None in
  if vulnerability_key =? "hospitals" then
    pick (fun depth => cap 0.8 (0.15 * fpow depth 1.3))
         (fun wind => cap 0.7 (above 0.00007 100 wind))
         (fun pga => cap 0.9 (1.3 * fpow pga 1.7))
  else if vulnerability_key =? "schools" then
    pick (fun depth => cap 0.9 (0.2 * fpow depth 1.5))
         (fun wind => cap 0.8 (above 0.00009 80 wind))
         (fun pga => cap 0.95 (1.8 * fpow pga 1.5))
  else if vulnerability_key =? "bridges" then
    pick (fun depth => cap 0.7 (0.05 * fpow depth 2.5))
         (fun wind => cap 0.4 (above 0.00003 120 wind))
         (fun pga => cap 0.85 (1.2 * fpow pga 1.8))
  else if vulnerability_key =? "embankments" then
    pick (fun depth => cap 1.0 (0.1 * fpow depth 2.2))
         (fun wind => cap 0.6 (0.00004 * fpow wind 1.5))
         (fun pga => cap 0.7 (1.0 * fpow pga 1.6))
  else if vulnerability_key =? "power_infrastructure" then
    pick (fun depth => cap 0.95 (0.25 * fpow depth 1.2))
         (fun wind => cap 0.9 (above 0.0001 60 wind))
         (fun pga => cap 0.8 (1.3 * fpow pga 1.4))
  else if vulnerability_key =? "telecom" then
    pick (fun depth => cap 0.9 (0.2 * fpow depth 1.3))
         (fun wind => cap 0.95 (above 0.00015 70 wind))
         (fun pga => cap 0.75 (1.1 * fpow pga 1.5))
  else None.

(** The hazard intensity read from the event. *)
Definition intensity_of (hazard_type : string) (hazard_event : HazardModel.Event)
  : Py.result Q :=
  if hazard_type =? "flood" then event_item hazard_event "depth"
  else if hazard_type =? "cyclone" then event_item hazard_event "wind_speed"
  else if hazard_type =? "earthquake" then
    m <- event_item hazard_event "magnitude" ;;
    Py.Ok (m / 10)
  else event_item hazard_event "intensity".

(** Step 1: building damages. *)
Definition building_damages (hazard_type : string) (intensity : Q)
  (buildings : list (string * Z)) : list (string * BuildingDamage) :=
  fold_left
    (fun damages kv =>
       match building_vulnerability hazard_type (fst kv) with
       | Some damage_function =>
           let damage_ratio := damage_function intensity in
           Py.set (fst kv)
                  {| b_count := snd kv;
                     b_damage_ratio := damage_ratio;
                     b_damaged_count := Py.py_int (inject_Z (snd kv) * damage_ratio) |}
                  damages
       | None => damages
       end)
    buildings [].

(** The fatality, injury and displacement rates of step 2. *)
Definition casualty_rates (hazard_type : string) (hazard_event : HazardModel.Event)
  (intensity overall_damage_ratio : Q) : Py.result (Q * Q * Q) :=
  if hazard_type =? "flood" then
    Py.Ok (0.0001 + 0.001 * sq intensity,
           0.001 + 0.005 * fpow intensity 1.5,
           0.01 + 0.1 * intensity)
  else if hazard_type =? "cyclone" then
    fatality_rate <-
      (if event_has hazard_event "storm_surge" then
         surge <- event_item hazard_event "storm_surge" ;;
         Py.Ok (0.0001 * sq (intensity / 100) + 0.001 * sq surge)
       else Py.Ok (0.0001 * sq (intensity / 100))) ;;
    Py.Ok (fatality_rate,
           0.001 * fpow (intensity / 80) 1.8,
           0.005 * fpow (intensity / 60) 1.5)
  else if hazard_type =? "earthquake" then
    Py.Ok (0.001 * fpow intensity 2.5 * overall_damage_ratio,
           0.01 * sq intensity * overall_damage_ratio,
           0.05 * fpow intensity 1.5 * overall_damage_ratio)
  else
    Py.Ok (0.0001 * intensity * overall_damage_ratio,
           0.001 * intensity * overall_damage_ratio,
           0.01 * intensity * overall_damage_ratio).

(** Step 2: casualties. *)
Definition casualties_of (hazard_type : string) (hazard_event : HazardModel.Event)
  (intensity : Q) (exposed : Monolith_ExposureModel.Exposed)
  (damages : list (string * BuildingDamage)) : Py.result Casualties :=
  let total_damaged_buildings := Py.sumZ (map (fun kv => b_damaged_count (snd kv)) damages) in
  let total_buildings := Py.sumZ (map snd (Monolith_ExposureModel.x_buildings exposed)) in
  if (0 <? total_buildings)%Z then
    let overall_damage_ratio :=
      inject_Z total_damaged_buildings / inject_Z total_buildings in
    rates <- casualty_rates hazard_type hazard_event intensity overall_damage_ratio ;;
    let '(fatality_rate, injury_rate, displacement_rate) := rates in
    let population := Monolith_ExposureModel.x_population exposed in
    Py.Ok {| deaths := Py.py_int (population * fatality_rate);
             injuries := Py.py_int (population * injury_rate);
             displaced := Py.py_int (population * displacement_rate) |}
  else Py.Ok {| deaths := 0; injuries := 0; displaced := 0 |}.

(** [max(0, np.random.gamma(shape=a, scale=s))] *)
Definition disruption_days (a scale : Q) (g : state) : Q * state :=
  let '(u, g') := next g in
  (Qmax 0 (gamma_ppf a scale u), g').

(** Step 3: infrastructure damages and functional disruption. *)
Fixpoint infrastructure_damages (hazard_type : string) (intensity : Q)
  (infrastructure : list (string * Z))
  (damages : list (string * BuildingDamage)) (disruption : list (string * Disruption))
  (g : state)
  : list (string * BuildingDamage) * list (string * Disruption) * state :=
  match infrastructure with
  | [] => (damages, disruption, g)
  | (infra_type, count) :: rest =>
      match infrastructure_key infra_type with
      | Some vulnerability_key =>
          match infrastructure_vulnerability vulnerability_key hazard_type with
          | Some damage_function =>
              let damage_ratio := damage_function intensity in
              let damages' :=
                Py.set infra_type
                       {| b_count := count;
                          b_damage_ratio := damage_ratio;
                          b_damaged_count := Py.py_int (inject_Z count * damage_ratio) |}
                       damages in
              match Py.lookup vulnerability_key functional_disruption with
              | Some (low, medium, high) =>
                  let '(a, scale) :=
                    if Qlt_le_dec damage_ratio 0.2 then low
                    else if Qlt_le_dec damage_ratio 0.5 then medium
                    else high in
                  let '(days, g') := disruption_days a scale g in
                  let disruption' :=
                    Py.set infra_type
                           {| mean_disruption_days := days;
                              total_service_days_lost :=
                                Py.py_int (inject_Z count * damage_ratio * days) |}
                           disruption in
                  infrastructure_damages hazard_type intensity rest damages' disruption' g'
              | None =>
                  infrastructure_damages hazard_type intensity rest damages' disruption g
              end
          | None => infrastructure_damages hazard_type intensity rest damages disruption g
          end
      | None => infrastructure_damages hazard_type intensity rest damages disruption g
      end
  end.

(** Step 4: agricultural damages. *)
Definition agriculture_damages (hazard_type : string) (hazard_event : HazardModel.Event)
  (intensity : Q) (agriculture : list (string * Z)) : list (string * BuildingDamage) :=
  fold_left
    (fun damages kv =>
       match Py.lookup (crop_key (fst kv)) agricultural_vulnerability with
       | Some (flood, cyclone, drought) =>
           let damage_ratio :=
             if hazard_type =? "flood" then
               cap 1.0 (fst flood * intensity
                        + snd flood * event_get hazard_event "duration" 3)
             else if hazard_type =? "cyclone" then
               let '(c, d, t) := cyclone in
               cap 1.0 (linear_above c d t intensity)
             else if hazard_type =? "drought" then
               cap 1.0 (drought * intensity)
             else cap 0.9 (0.2 * intensity) in
           Py.set (fst kv)
                  {| b_count := snd kv;
                     b_damage_ratio := damage_ratio;
                     b_damaged_count := Py.py_int (inject_Z (snd kv) * damage_ratio) |}
                  damages
       | None => damages
       end)
    agriculture [].

(** [calculate_damages(self, exposed_elements, hazard_event)] *)
Definition calculate_damages (exposed_elements : Monolith_ExposureModel.Exposed)
  (hazard_event : HazardModel.Event) (g : state) : Py.result (Damages * state) :=
  let hazard_type := HazardModel.ev_type hazard_event in
  intensity <- intensity_of hazard_type hazard_event ;;
  let buildings :=
    building_damages hazard_type intensity
                     (Monolith_ExposureModel.x_buildings exposed_elements) in
  casualties <- casualties_of hazard_type hazard_event intensity exposed_elements buildings ;;
  let '(infrastructure, disruption, g') :=
    infrastructure_damages hazard_type intensity
      (Monolith_ExposureModel.x_critical_infrastructure exposed_elements) [] [] g in
  let agriculture :=
    agriculture_damages hazard_type hazard_event intensity
                        (Monolith_ExposureModel.x_agriculture exposed_elements) in
  let direct :=
    _calculate_building_losses buildings
    + _calculate_infrastructure_losses infrastructure
    + _calculate_agriculture_losses agriculture in
  let disruption_factor :=
    inject_Z (Py.sumZ (map (fun kv => total_service_days_lost (snd kv)) disruption)) / 100 in
  let indirect_loss_multiplier := Qmin 3.0 (Qmax 0.2 (0.5 + 0.1 * disruption_factor)) in
  Py.Ok ({| d_buildings := buildings;
            d_casualties := casualties;
            d_infrastructure := infrastructure;
            d_agriculture := agriculture;
            d_economic :=
              {| direct_losses := direct;
                 indirect_losses := direct * indirect_loss_multiplier |};
            d_functional_disruption := disruption |}, g').

End Damage.

End VulnerabilityModel.

(** ** src/models/recovery_model.py *)

Module RecoveryModel.

(** [disaster_impacts]; a key that is absent reads as the empty dictionary,
    as [disaster_impacts.get(key, {})] does.  The damaged counts and the
    casualties are Python integers ([calculate_damages] makes them with
    [int]); the losses under ['economic'] are Python numbers or
    [numpy.float64] values, which is what [calculate_damages] computes from
    an event whose intensity came out of [np.log]: [economic_dtype] says
    which. *)
Record Impacts : Type := mk_impacts
  { buildings : list (string * list (string * Q));
    infrastructure : list (string * list (string * Q));
    economic : list (string * Q);
    economic_dtype : Py.dtype;
    casualties : list (string * Q);
    region_type : option string }.

(** [funding_availability]; [total_funding_dtype] is the kind of number
    under ['total_funding']. *)
Record Funding : Type := mk_funding
  { total_funding : option Q;
    total_funding_dtype : Py.dtype;
    bbb_policy_strength : option string;
    bbb_funding_allocation : option string;
    bbb_technical_capacity : option string }.

(** [self.recovery_rates] *)
Definition housing_rates : list (string * Q) :=
  [("RCC", 0.10); ("semi_pucca", 0.08); ("kutcha", 0.15); ("jhupri", 0.20)].
Definition infrastructure_rates : list (string * Q) :=
  [("roads", 0.12); ("bridges", 0.05); ("electricity", 0.15); ("water_supply", 0.10);
   ("schools", 0.08); ("hospitals", 0.07); ("embankments", 0.06)].

(** [self.economic_recovery_multipliers['funding_level']] *)
Definition funding_level_multipliers : list (string * Q) :=
  [("very_low", 0.6); ("low", 0.8); ("medium", 1.0); ("high", 1.2); ("very_high", 1.3)].

(** [self.governance_recovery_factors] *)
Definition coordination_factors : list (string * Q) :=
  [("poor", 0.7); ("fair", 0.9); ("good", 1.1); ("excellent", 1.3)].
Definition planning_capacity_factors : list (string * Q) :=
  [("low", 0.8); ("medium", 1.0); ("high", 1.2)].
Definition corruption_level_factors : list (string * Q) :=
  [("high", 0.7); ("medium", 0.9); ("low", 1.1)].
Definition community_engagement_factors : list (string * Q) :=
  [("low", 0.8); ("medium", 1.0); ("high", 1.2)].

(** [self.regional_recovery_factors] *)
Definition regional_recovery_factors : list (string * Q) :=
  [("coastal", 0.9); ("urban", 1.1); ("flood_plain", 0.9); ("haor_basin", 0.8);
   ("hill_tracts", 0.8); ("char_lands", 0.7)].

(** [self.seasonal_recovery_factors], keyed by month 1..12. *)
Definition seasonal_recovery_factors : list Q :=
  [0.9; 1.0; 1.1; 1.0; 0.9; 0.7; 0.6; 0.6; 0.7; 0.9; 1.0; 0.9].

Definition seasonal_factor (month_idx : nat) : Q :=
  nth (month_idx - 1) seasonal_recovery_factors 1.

(** [self.build_back_better_effectiveness] *)
Definition policy_strength : list (string * Q) :=
  [("weak", 0.1); ("moderate", 0.2); ("strong", 0.3)].
Definition funding_allocation : list (string * Q) :=
  [("low", 0.1); ("medium", 0.2); ("high", 0.3)].
Definition technical_capacity : list (string * Q) :=
  [("limited", 0.6); ("adequate", 1.0); ("strong", 1.3)].

(** [s.lower()] *)
Definition lower_ascii (c : Ascii.ascii) : Ascii.ascii :=
  let n := Ascii.nat_of_ascii c in
  if (65 <=? n)%nat && (n <=? 90)%nat then Ascii.ascii_of_nat (n + 32) else c.

Fixpoint lower (s : string) : string :=
  match s with
  | EmptyString => EmptyString
  | String c s' => String (lower_ascii c) (lower s')
  end.

(** The recovery-rate key of an infrastructure type. *)
Definition mapped_type (infra_type : string) : string :=
  let l := lower infra_type in
  if Py.substring_in "road" l then "roads"
  else if Py.substring_in "bridge" l then "bridges"
  else if Py.substring_in "electric" l || Py.substring_in "power" l then "electricity"
  else if Py.substring_in "water" l then "water_supply"
  else if Py.substring_in "school" l then "schools"
  else if Py.substring_in "hospital" l || Py.substring_in "clinic" l then "hospitals"
  else if Py.substring_in "embankment" l || Py.substring_in "levee" l then "embankments"
  else "roads".

(** [damage.get('damaged_count', 0)] *)
Definition damaged_count (damage : list (string * Q)) : Q :=
  Py.get damage "damaged_count" 0.

(** [min(cap, int(1.0 / rate))] *)
Definition horizon_from_rate (cap : Z) (rate : Q) : Py.result Z :=
  q <- Py.div 1.0 rate ;;
  Py.Ok (Z.min cap (Py.py_int q)).

Definition housing_horizon (housing_damages : list (string * list (string * Q)))
  : Py.result Z :=
  match housing_damages with
  | [] => Py.Ok 0%Z
  | _ =>
      let total_damaged := Py.sumQ (map (fun kv => damaged_count (snd kv)) housing_damages) in
      let weighted_rate :=
        fold_left
          (fun acc kv =>
             match Py.lookup (fst kv) housing_rates with
             | Some rate => acc + damaged_count (snd kv) * rate
             | None => acc
             end)
          housing_damages 0 in
      if Qlt_le_dec 0 total_damaged
      then horizon_from_rate 60 (weighted_rate / total_damaged)
      else Py.Ok 0%Z
  end.

Definition infrastructure_horizon (infra_damages : list (string * list (string * Q)))
  : Py.result Z :=
  match infra_damages with
  | [] => Py.Ok 0%Z
  | _ =>
      let total_damaged := Py.sumQ (map (fun kv => damaged_count (snd kv)) infra_damages) in
      let weighted_rate :=
        fold_left
          (fun acc kv =>
             acc + damaged_count (snd kv)
                   * Py.get infrastructure_rates (mapped_type (fst kv)) 0)
          infra_damages 0 in
      if Qlt_le_dec 0 total_damaged
      then horizon_from_rate 72 (weighted_rate / total_damaged)
      else Py.Ok 0%Z
  end.

(** [min(cap, int(1.0 / rate))] for a rate of the given kind: for a
    [numpy.float64] zero, [1.0 / rate] is [inf], which [int] rejects. *)
Definition horizon_from_rate_of (dtype : Py.dtype) (cap : Z) (rate : Q) : Py.result Z :=
  q <- Py.truediv Py.python 1.0 dtype rate ;;
  n <- Py.int_of q ;;
  Py.Ok (Z.min cap n).

Definition livelihoods_horizon (dtype : Py.dtype) (econ_damages : list (string * Q))
  : Py.result Z :=
  match econ_damages with
  | [] => Py.Ok 0%Z
  | _ =>
      let direct_losses := Py.get econ_damages "direct_losses" 0 in
      let indirect_losses := Py.get econ_damages "indirect_losses" 0 in
      let direct_recovery_rate := 0.12 in
      let indirect_recovery_rate := 0.08 in
      if Qlt_le_dec 0 (direct_losses + indirect_losses) then
        horizon_from_rate_of dtype 60
          ((direct_losses * direct_recovery_rate + indirect_losses * indirect_recovery_rate)
           / (direct_losses + indirect_losses))
      else Py.Ok 0%Z
  end.

Definition social_horizon (casualties : list (string * Q)) : Z :=
  match casualties with
  | [] => 0%Z
  | _ =>
      let displaced := Py.get casualties "displaced" 0 in
      let deaths := Py.get casualties "deaths" 0 in
      let injuries := Py.get casualties "injuries" 0 in
      if Qlt_le_dec 0 (deaths + injuries + displaced) then
        let social_impact := deaths * 5 + injuries * 1 + displaced * 0.5 in
        Z.min 84 (Py.py_int (social_impact / 1000))
      else 0%Z
  end.

(** [_calculate_recovery_horizons(self, affected_sectors)]: the horizons
    dictionary, in insertion order. *)
Definition _calculate_recovery_horizons (impacts : Impacts) : Py.result (list (string * Z)) :=
  h <- housing_horizon (buildings impacts) ;;
  i <- infrastructure_horizon (infrastructure impacts) ;;
  l <- livelihoods_horizon (economic_dtype impacts) (economic impacts) ;;
  Py.Ok [("housing", h); ("infrastructure", i); ("livelihoods", l);
         ("social", social_horizon (casualties impacts))].

(** [_estimate_funding_needs(self, disaster_impacts)] *)
Definition _estimate_funding_needs (impacts : Impacts) : Q :=
  let direct_losses := Py.get (economic impacts) "direct_losses" 0 in
  let indirect_losses := Py.get (economic impacts) "indirect_losses" 0 in
  direct_losses * 1.5 + indirect_losses * 0.5.

(** [available_funding]: the caller's [total_funding], or 70% of needs. *)
Definition available_funding_of (impacts : Impacts) (funding_availability : Funding) : Q :=
  match total_funding funding_availability with
  | Some v => v
  | None => _estimate_funding_needs impacts * 0.7
  end.

(** The kind of number [funding_needs] is: that of the losses when the
    dictionary holds one, a Python float when both are the default [0]. *)
Definition funding_needs_dtype (impacts : Impacts) : Py.dtype :=
  if Py.contains "direct_losses" (economic impacts)
     || Py.contains "indirect_losses" (economic impacts)
  then economic_dtype impacts
  else Py.python.

Definition available_funding_dtype (impacts : Impacts) (funding_availability : Funding)
  : Py.dtype :=
  match total_funding funding_availability with
  | Some _ => total_funding_dtype funding_availability
  | None => funding_needs_dtype impacts
  end.

(** [funding_ratio = available_funding / funding_needs] *)
Definition funding_ratio_of (impacts : Impacts) (funding_availability : Funding)
  : Py.result Py.float :=
  Py.truediv (available_funding_dtype impacts funding_availability)
             (available_funding_of impacts funding_availability)
             (funding_needs_dtype impacts)
             (_estimate_funding_needs impacts).

Definition funding_level_of (funding_ratio : Py.float) : string :=
  if Py.float_lt funding_ratio 0.2 then "very_low"
  else if Py.float_lt funding_ratio 0.5 then "low"
  else if Py.float_lt funding_ratio 0.8 then "medium"
  else if Py.float_lt funding_ratio 1.0 then "high"
  else "very_high".

Definition governance_multiplier_of (governance_quality : list (string * string))
  : Py.result Q :=
  c <- Py.item coordination_factors (Py.get governance_quality "coordination" "fair") ;;
  p <- Py.item planning_capacity_factors
               (Py.get governance_quality "planning_capacity" "medium") ;;
  k <- Py.item corruption_level_factors
               (Py.get governance_quality "corruption_level" "medium") ;;
  e <- Py.item community_engagement_factors
               (Py.get governance_quality "community_engagement" "medium") ;;
  Py.Ok (c * 0.3 + p * 0.3 + k * 0.2 + e * 0.2).

Definition regional_multiplier_of (impacts : Impacts) : Q :=
  let region := match region_type impacts with Some r => r | None => "flood_plain" end in
  Py.get regional_recovery_factors region 1.0.

Definition or_default (o : option string) (default : string) : string :=
  match o with
  | Some s => s
  | None => default
  end.

Definition bbb_improvement_of (funding_availability : Funding) : Py.result Q :=
  p <- Py.item policy_strength
               (or_default (bbb_policy_strength funding_availability) "moderate") ;;
  f <- Py.item funding_allocation
               (or_default (bbb_funding_allocation funding_availability) "medium") ;;
  c <- Py.item technical_capacity
               (or_default (bbb_technical_capacity funding_availability) "adequate") ;;
  Py.Ok (p * f * c).

(** [xs[-1]] *)
Definition last_item (xs : list Q) : Py.result Q :=
  match xs with
  | [] => Py.Raise Py.IndexError
  | _ => Py.Ok (last xs 0)
  end.

(** The first index whose value reaches a threshold. *)
Fixpoint first_reaching (threshold : Q) (month : nat) (trajectory : list Q) : option nat :=
  match trajectory with
  | [] => None
  | value :: rest =>
      if Qle_bool threshold value then Some month
      else first_reaching threshold (S month) rest
  end.

(** [_calculate_recovery_milestones]: per sector, the months to reach 30,
    50, 70 and 90 percent. *)
Definition _calculate_recovery_milestones (recovery_trajectories : list (string * list Q))
  : list (string * list (string * option nat)) :=
  map (fun kv =>
         (fst kv,
          map (fun th => (fst th, first_reaching (snd th) 0 (snd kv)))
              [("30%_recovery", 0.3); ("50%_recovery", 0.5);
               ("70%_recovery", 0.7); ("90%_recovery", 0.9)]))
      recovery_trajectories.

Record Quality : Type := mk_quality
  { speed : Q;
    completeness : Q;
    quality : Q;
    overall_score : Q }.

Definition sector_quality (bbb_improvement : Q) (trajectory : list Q) : Py.result Quality :=
  let speed_score :=
    match first_reaching 0.5 0 trajectory with
    | Some halfway_point =>
        Qmin 1.0 (12 / inject_Z (Z.max 1 (Z.of_nat halfway_point)))
    | None => 0
    end in
  completeness <- last_item trajectory ;;
  let quality := Qmin 1.0 (completeness * (1 + bbb_improvement)) in
  Py.Ok {| speed := speed_score;
           completeness := completeness;
           quality := quality;
           overall_score := speed_score * 0.3 + completeness * 0.3 + quality * 0.4 |}.

Fixpoint sector_qualities (bbb_improvement : Q) (recovery_trajectories : list (string * list Q))
  : Py.result (list (string * Quality)) :=
  match recovery_trajectories with
  | [] => Py.Ok []
  | (sector, trajectory) :: rest =>
      q <- sector_quality bbb_improvement trajectory ;;
      qs <- sector_qualities bbb_improvement rest ;;
      Py.Ok ((sector, q) :: qs)
  end.

(** [_assess_recovery_quality]: the per-sector metrics and the aggregate
    overall score (absent when there is no sector). *)
Definition _assess_recovery_quality (recovery_trajectories : list (string * list Q))
  (bbb_improvement : Q) : Py.result (list (string * Quality) * option Q) :=
  qs <- sector_qualities bbb_improvement recovery_trajectories ;;
  match qs with
  | [] => Py.Ok (qs, None)
  | _ =>
      let overall_scores := map (fun kv => overall_score (snd kv)) qs in
      Py.Ok (qs, Some (Py.sumQ overall_scores
                       / inject_Z (Z.of_nat (List.length overall_scores))))
  end.

(** The dictionary returned by [simulate_recovery]. *)
Record Recovery : Type := mk_recovery
  { recovery_trajectories : list (string * list Q);
    recovery_horizon_months : list (string * Z);
    recovery_milestones : list (string * list (string * option nat));
    recovery_quality : list (string * Quality) * option Q;
    funding_ratio : Py.float;
    bbb_improvement : Q;
    total_funding_needs : Q;
    available_funding : Q }.

Section Trajectories.

(** [np.sqrt] and [np.exp] *)
Variable np_sqrt : Q -> Q.
Variable np_exp : Q -> Q.

(** [self.recovery_patterns] *)
Definition linear (t max_t : Q) : Q := t / max_t.
Definition early_rapid (t max_t : Q) : Q := np_sqrt (t / max_t).
Definition late_rapid (t max_t : Q) : Q := (t / max_t) * (t / max_t).
Definition s_shaped (t max_t : Q) : Q := 1 / (1 + np_exp (-10 * (t / max_t - 0.5))).

Definition pattern_func (sector : string) : Q -> Q -> Q :=
  if sector =? "housing" then early_rapid
  else if sector =? "infrastructure" then s_shaped
  else if sector =? "livelihoods" then s_shaped
  else if sector =? "social" then late_rapid
  else linear.

(** [np.arange(0, horizon + 1)] *)
Definition timesteps (horizon : Z) : list Z :=
  map Z.of_nat (seq 0 (Z.to_nat (horizon + 1))).

(** One iteration of [for t_idx, recovery_level in enumerate(base_trajectory)]. *)
Definition trajectory_step (base_trajectory : list Q)
  (funding_multiplier governance_multiplier regional_multiplier : Q)
  (adjusted_trajectory : list Q) (t_idx : nat) : list Q :=
  let current_month := 1%nat in
  let month_idx := ((current_month + t_idx - 1) mod 12 + 1)%nat in
  let seasonal := seasonal_factor month_idx in
  let adjusted_recovery :=
    if (t_idx =? 0)%nat then 0
    else
      let increment := nth t_idx base_trajectory 0 - nth (t_idx - 1) base_trajectory 0 in
      let adjusted_increment :=
        increment * funding_multiplier * governance_multiplier * regional_multiplier
        * seasonal in
      Qmin 1.0 (last adjusted_trajectory 0 + adjusted_increment) in
  (adjusted_trajectory ++ [adjusted_recovery])%list.

(** [_generate_sector_trajectory(self, sector, horizon, ...)] *)
Definition _generate_sector_trajectory (sector : string) (horizon : Z)
  (funding_multiplier governance_multiplier regional_multiplier : Q) : list Q :=
  if (horizon =? 0)%Z then [1.0]
  else
    let base_trajectory :=
      map (fun t => pattern_func sector (inject_Z t) (inject_Z horizon))
          (timesteps horizon) in
    fold_left
      (trajectory_step base_trajectory funding_multiplier governance_multiplier
                       regional_multiplier)
      (seq 0 (List.length base_trajectory)) [].

(** The body of [for sector, horizon in recovery_horizons.items()]. *)
Definition sector_trajectory (sector : string) (horizon : Z)
  (funding_multiplier governance_multiplier regional_multiplier bbb_improvement : Q)
  : Py.result (list Q) :=
  let base_trajectory :=
    _generate_sector_trajectory sector horizon funding_multiplier governance_multiplier
                                regional_multiplier in
  if Qlt_le_dec 0 bbb_improvement then
    final <- last_item base_trajectory ;;
    let final_state := final * (1 + bbb_improvement) in
    Py.Ok (map (fun val => Qmin val final_state) base_trajectory)
  else Py.Ok base_trajectory.

Fixpoint sector_trajectories (horizons : list (string * Z))
  (funding_multiplier governance_multiplier regional_multiplier bbb_improvement : Q)
  : Py.result (list (string * list Q)) :=
  match horizons with
  | [] => Py.Ok []
  | (sector, horizon) :: rest =>
      tr <- sector_trajectory sector horizon funding_multiplier governance_multiplier
                              regional_multiplier bbb_improvement ;;
      trs <- sector_trajectories rest funding_multiplier governance_multiplier
                                 regional_multiplier bbb_improvement ;;
      Py.Ok ((sector, tr) :: trs)
  end.

(** [simulate_recovery(self, disaster_impacts, governance_quality, funding_availability)] *)
Definition simulate_recovery (disaster_impacts : Impacts)
  (governance_quality : list (string * string)) (funding_availability : Funding)
  : Py.result Recovery :=
  recovery_horizons <- _calculate_recovery_horizons disaster_impacts ;;
  let funding_needs := _estimate_funding_needs disaster_impacts in
  let available := available_funding_of disaster_impacts funding_availability in
  ratio <- funding_ratio_of disaster_impacts funding_availability ;;
  let funding_multiplier :=
    Py.get funding_level_multipliers (funding_level_of ratio) 1.0 in
  governance_multiplier <- governance_multiplier_of governance_quality ;;
  let regional_multiplier := regional_multiplier_of disaster_impacts in
  bbb <- bbb_improvement_of funding_availability ;;
  trajectories <- sector_trajectories recovery_horizons funding_multiplier
                    governance_multiplier regional_multiplier bbb ;;
  let milestones := _calculate_recovery_milestones trajectories in
  quality <- _assess_recovery_quality trajectories bbb ;;
  Py.Ok {| recovery_trajectories := trajectories;
           recovery_horizon_months := recovery_horizons;
           recovery_milestones := milestones;
           recovery_quality := quality;
           funding_ratio := ratio;
           bbb_improvement := bbb;
           total_funding_needs := funding_needs;
           available_funding := available |}.

End Trajectories.

End RecoveryModel.

(** ** src/simulation_runner.py: configuration, construction and the hazard stub

    The file holds the only mention of a random seed, the entry
    ['random_seed': 42] of the default configuration.  Modelled are
    [_load_configuration], the attribute reads and the model set-up of
    [__init__], the two argument builders of [run_simulation] and the hazard
    stub.  Logging and the results table are left out.  [run_simulation]
    itself is not modelled: it passes the year loop to [_run_time_series],
    which calls [self._generate_sample_data], a method no source defines. *)

Module SimulationRunner.

Import Generator.

(** A configuration value. *)
#[warnings="-register-all"]
Inductive value : Type :=
| Num (q : Q)
| Str (s : string)
| Flag (b : bool)
| Strs (l : list string)
| Dict (d : list (string * value)).

Definition model_entry : value := Dict [("enabled", Flag true); ("parameters", Dict [])].

(** [default_config] of [_load_configuration]. *)
Definition default_config : list (string * value) :=
  [("simulation",
    Dict [("start_year", Num 2025); ("end_year", Num 2050); ("time_step", Num 1);
          ("scenarios", Strs ["baseline"; "rcp45"; "rcp85"]);
          ("random_seed", Num 42); ("monte_carlo_runs", Num 1)]);
   ("spatial",
    Dict [("regions", Strs ["national"]); ("admin_level", Str "division");
          ("resolution", Str "medium")]);
   ("hazards",
    Dict [("types", Strs ["flood"; "cyclone"; "drought"]);
          ("thresholds",
           Dict [("flood", Num 0.5); ("cyclone", Num 0.4); ("drought", Num 0.6)])]);
   ("climate",
    Dict [("baseline_period", Str "1986-2015"); ("projection_method", Str "delta");
          ("scenarios",
           Dict [("baseline", Dict [("temp_change", Num 0); ("precip_change", Num 0)]);
                 ("rcp45", Dict [("temp_change", Num 1.5); ("precip_change", Num 0.05)]);
                 ("rcp85", Dict [("temp_change", Num 3.0); ("precip_change", Num 0.1)])])]);
   ("models",
    Dict [("hazard", model_entry); ("exposure", model_entry);
          ("vulnerability", model_entry); ("climate_change", model_entry);
          ("early_warning", model_entry); ("emergency_response", model_entry);
          ("recovery", model_entry); ("transboundary", model_entry);
          ("resilience", model_entry); ("governance", model_entry);
          ("socioeconomic", model_entry); ("technology", model_entry)]);
   ("output",
    Dict [("formats", Strs ["csv"; "json"]);
          ("metrics", Strs ["aal"; "vulnerability_index"; "resilience_score"]);
          ("visualization", Flag true)])].

(** [d.update(v)] *)
Definition update (d v : list (string * value)) : list (string * value) :=
  fold_left (fun d kv => Py.set (fst kv) (snd kv) d) v d.

(** [_load_configuration(self, config)] for [config] a dictionary or
    [None] (a path is first read into a dictionary): the user's entries are
    merged into the defaults, one level deep. *)
Definition _load_configuration (config : option (list (string * value)))
  : list (string * value) :=
  match config with
  | None => default_config
  | Some user_config =>
      fold_left
        (fun default_config kv =>
           match Py.lookup (fst kv) default_config, snd kv with
           | Some (Dict d), Dict v => Py.set (fst kv) (Dict (update d v)) default_config
           | _, _ => Py.set (fst kv) (snd kv) default_config
           end)
        user_config default_config
  end.

(** [config.get(name, {})], then ready for [.get]: a value that is not a
    dictionary has no such method. *)
Definition block (config : list (string * value)) (name : string)
  : Py.result (list (string * value)) :=
  match Py.lookup name config with
  | None => Py.Ok []
  | Some (Dict d) => Py.Ok d
  | Some _ => Py.Raise Py.AttributeError
  end.

(** [v[k]]: subscripting a number, a string or a list with a string key is
    a TypeError. *)
Definition subscript (v : value) (k : string) : Py.result value :=
  match v with
  | Dict d => Py.item d k
  | _ => Py.Raise Py.TypeError
  end.

(** The truth value of [if v:]. *)
Definition truthy (v : value) : bool :=
  match v with
  | Num q => negb (Qeq_bool q 0)
  | Str s => negb (s =? "")
  | Flag b => b
  | Strs l => match l with [] => false | _ => true end
  | Dict d => match d with [] => false | _ => true end
  end.

(** [self.config['models'][name]['enabled']] *)
Definition enabled (config : list (string * value)) (name : string) : Py.result bool :=
  m <- Py.item config "models" ;;
  e <- subscript m name ;;
  v <- subscript e "enabled" ;;
  Py.Ok (truthy v).

(** [_initialize_models]: whether the models end up as the stubs.  The
    first constructor calls are [HazardModel()] and [ExposureModel()], both
    without the arguments the classes require: either raises TypeError,
    which the [except TypeError] turns into the stubs, as it does a
    TypeError from the look-up.  With both models disabled the remaining
    constructors take no argument and build the tables of their classes. *)
Definition _initialize_models (config : list (string * value)) : Py.result bool :=
  let attempt (name : string) (otherwise : Py.result bool) : Py.result bool :=
    match enabled config name with
    | Py.Ok true => Py.Ok true
    | Py.Ok false => otherwise
    | Py.Raise Py.TypeError => Py.Ok true
    | Py.Raise e => Py.Raise e
    end in
  attempt "hazard" (attempt "exposure" (Py.Ok false)).

(** The attributes [__init__] sets. *)
Record t : Type := mk
  { config : list (string * value);
    start_year : value;
    end_year : value;
    time_step : value;
    scenarios : value;
    regions : value;
    admin_level : value;
    stubs : bool }.

(** [__init__(self, config=None)], with the ambient generator it runs
    under and leaves.  No statement of it, nor of the functions it calls,
    seeds the generator or draws from it, and the configuration's
    ['random_seed'] is not among the entries read. *)
Definition __init__ (user_config : option (list (string * value))) (g : state)
  : Py.result (t * state) :=
  let config := _load_configuration user_config in
  simulation <- block config "simulation" ;;
  spatial <- block config "spatial" ;;
  stubs <- _initialize_models config ;;
  Py.Ok ({| config := config;
            start_year := Py.get simulation "start_year" (Num 2025);
            end_year := Py.get simulation "end_year" (Num 2050);
            time_step := Py.get simulation "time_step" (Num 1);
            scenarios := Py.get simulation "scenarios" (Strs ["baseline"; "rcp45"; "rcp85"]);
            regions := Py.get spatial "regions" (Strs ["national"]);
            admin_level := Py.get spatial "admin_level" (Str "division");
            stubs := stubs |}, g).

(** A configuration value used as a number. *)
Definition number (v : value) : Py.result Q :=
  match v with
  | Num q => Py.Ok q
  | Flag b => Py.Ok (if b then 1 else 0)
  | _ => Py.Raise Py.TypeError
  end.

(** [climate_config.get(key, 0)] as a number. *)
Definition setting (climate_config : value) (key : string) : Py.result Q :=
  match climate_config with
  | Dict d => number (Py.get d key (Num 0))
  | _ => Py.Raise Py.AttributeError
  end.

(** [_initialize_climate_scenario(self, scenario)]: the three numeric
    climate factors. *)
Definition _initialize_climate_scenario (self : t) (scenario : string)
  : Py.result (list (string * Q)) :=
  climate <- Py.item (config self) "climate" ;;
  known <- subscript climate "scenarios" ;;
  climate_config <-
    (match known with
     | Dict d => if Py.contains scenario d then Py.item d scenario else Py.item d "baseline"
     | _ => Py.Raise Py.TypeError
     end) ;;
  temp_change <- setting climate_config "temp_change" ;;
  precip_change <- setting climate_config "precip_change" ;;
  slr <- setting climate_config "slr" ;;
  Py.Ok [("temperature_factor", 1.0 + temp_change / 10);
         ("precipitation_factor", 1.0 + precip_change);
         ("sea_level_rise_m", slr)].

(** [_initialize_region_parameters(self, region)]: the numeric entries. *)
Definition _initialize_region_parameters (region : string) : list (string * Q) :=
  [("population", 1000000); ("area_sqkm", 1000)].

(** What the hazard stub returns for one hazard. *)
Record Hazard : Type := mk_hazard
  { magnitude : Q;
    affected_area_sqkm : Q }.

(** One entry of the stub's dictionary:
    [{'magnitude': np.random.random() * climate_factors[factor],
      'affected_area_sqkm': region_params['area_sqkm'] * share}]. *)
Definition stub_hazard (climate_factors region_params : list (string * Q))
  (factor : string) (share : Q) (g : state) : Py.result (Hazard * state) :=
  let '(u, g') := next g in
  f <- Py.item climate_factors factor ;;
  area <- Py.item region_params "area_sqkm" ;;
  Py.Ok ({| magnitude := u * f; affected_area_sqkm := area * share |}, g').

(** [generate_events] of the class [_create_hazard_model_stub] builds:
    [region] and [year] are not used. *)
Definition stub_generate_events (region : string) (year : Z)
  (climate_factors region_params : list (string * Q)) (g : state)
  : Py.result (list (string * Hazard) * state) :=
  r <- stub_hazard climate_factors region_params "precipitation_factor" 0.2 g ;;
  let '(flood, g1) := r in
  r <- stub_hazard climate_factors region_params "temperature_factor" 0.1 g1 ;;
  let '(cyclone, g2) := r in
  r <- stub_hazard climate_factors region_params "temperature_factor" 0.3 g2 ;;
  let '(drought, g3) := r in
  Py.Ok ([("flood", flood); ("cyclone", cyclone); ("drought", drought)], g3).

End SimulationRunner.

(** ** Stand-ins for the float library and the samplers

    Fixed-point approximations of [np.sqrt], [np.exp], [np.log], [**], and
    simple instances of a gamma quantile and of a random permutation.  The
    theorems below hold for whatever functions are supplied (under the
    stated laws); these stand-ins serve to run the model on concrete
    inputs. *)

Module Fixed.

Definition digits : positive := 1000000000000000000000000000000.
Definition one : Z := Zpos digits.

(** [x] to thirty decimals, rounded down, as an integer. *)
Definition to_fixed (x : Q) : Z := Qfloor (x * inject_Z one).
Definition of_fixed (n : Z) : Q := n # digits.

(** Square root: the integer square root at sixty decimals. *)
Definition sqrt (x : Q) : Q :=
  of_fixed (Z.sqrt (Qfloor (x * inject_Z (one * one)))).

(** Exponential: [(1 + x / 2^40) ^ (2^40)] by forty squarings. *)
Definition halvings : nat := 40.

Definition square (y : Z) : Z := (y * y / one)%Z.

Definition exp_fixed (x : Q) : Z :=
  Nat.iter halvings square
           (Z.max 0 (one + Qfloor (x * inject_Z one / inject_Z (2 ^ Z.of_nat halvings)))).

Definition exp (x : Q) : Q := of_fixed (Z.max 1 (exp_fixed x)).

(** Natural logarithm: [x = y * 2^m] with [y] near 1, then the series of
    [2 * atanh ((y - 1) / (y + 1))]. *)
Definition ln2 : Z := 693147180559945309417232121458.

Fixpoint atanh_series (n : nat) (k : Z) (power z2 acc : Z) : Z :=
  match n with
  | O => acc
  | S n' =>
      atanh_series n' (k + 2) (power * z2 / one) z2 (acc + power / k)
  end.

Definition log (x : Q) : Q :=
  if Qle_bool x 0 then 0
  else
    let m := (Z.log2 (Qnum x) - Z.log2 (Zpos (Qden x)))%Z in
    let y := x / Qpower 2 m in
    let z := to_fixed ((y - 1) / (y + 1)) in
    let series := atanh_series 60 1 z (z * z / one) 0 in
    of_fixed (m * ln2 + 2 * series).

(** [x ** y] as [exp (y * log x)]. *)
Definition pow (x y : Q) : Q :=
  if Qle_bool x 0 then 0 else exp (y * Qred (log x)).

(** A stand-in for the gamma quantile: linear in the variate, with the
    distribution's mean [a * scale] at one half. *)
Definition gamma_ppf (a scale u : Q) : Q := 2 * a * scale * u.

(** A stand-in for [np.random.permutation]: the indices from the last to
    the first, for one variate. *)
Definition permutation (n : nat) (g : Generator.state) : list nat * Generator.state :=
  (rev (seq 0 n), snd (Generator.next g)).

End Fixed.

(** * Specification vocabulary *)

Module ClimateSpec.

Import ClimateChangeModel.

(** The pathway names the scenario table knows. *)
Definition known_pathway (scenario : string) : Prop :=
  Py.contains scenario scenarios = true.

(** The table values of one decade, as a parameter set. *)
Definition anchor (s : Scenario) (d : Decade) : ClimateParameters :=
  {| p_temperature_increase := at_decade (temperature_increase s) d;
     p_sea_level_rise := at_decade (sea_level_rise s) d;
     p_precipitation_change := at_decade (precipitation_change s) d;
     p_cyclone_intensity_factor := at_decade (cyclone_intensity_factor s) d;
     p_drought_frequency_factor := at_decade (drought_frequency_factor s) d;
     p_extreme_rainfall_factor := at_decade (extreme_rainfall_factor s) d |}.

(** The zero-valued 2025 baseline. *)
Definition baseline : ClimateParameters :=
  {| p_temperature_increase := 0;
     p_sea_level_rise := 0;
     p_precipitation_change := [0; 0; 0; 0];
     p_cyclone_intensity_factor := 0;
     p_drought_frequency_factor := 0;
     p_extreme_rainfall_factor := 0 |}.

(** Pointwise relations between parameter sets. *)
Fixpoint all2 (R : Q -> Q -> Prop) (xs ys : list Q) : Prop :=
  match xs, ys with
  | [], [] => True
  | x :: xs', y :: ys' => R x y /\ all2 R xs' ys'
  | _, _ => False
  end.

Fixpoint all3 (R : Q -> Q -> Q -> Prop) (xs ys zs : list Q) : Prop :=
  match xs, ys, zs with
  | [], [], [] => True
  | x :: xs', y :: ys', z :: zs' => R x y z /\ all3 R xs' ys' zs'
  | _, _, _ => False
  end.

Definition params2 (R : Q -> Q -> Prop) (a b : ClimateParameters) : Prop :=
  R (p_temperature_increase a) (p_temperature_increase b)
  /\ R (p_sea_level_rise a) (p_sea_level_rise b)
  /\ all2 R (p_precipitation_change a) (p_precipitation_change b)
  /\ R (p_cyclone_intensity_factor a) (p_cyclone_intensity_factor b)
  /\ R (p_drought_frequency_factor a) (p_drought_frequency_factor b)
  /\ R (p_extreme_rainfall_factor a) (p_extreme_rainfall_factor b).

Definition params3 (R : Q -> Q -> Q -> Prop) (a b c : ClimateParameters) : Prop :=
  R (p_temperature_increase a) (p_temperature_increase b) (p_temperature_increase c)
  /\ R (p_sea_level_rise a) (p_sea_level_rise b) (p_sea_level_rise c)
  /\ all3 R (p_precipitation_change a) (p_precipitation_change b) (p_precipitation_change c)
  /\ R (p_cyclone_intensity_factor a) (p_cyclone_intensity_factor b)
       (p_cyclone_intensity_factor c)
  /\ R (p_drought_frequency_factor a) (p_drought_frequency_factor b)
       (p_drought_frequency_factor c)
  /\ R (p_extreme_rainfall_factor a) (p_extreme_rainfall_factor b)
       (p_extreme_rainfall_factor c).

(** Equal as numbers, parameter by parameter. *)
Definition same_parameters : ClimateParameters -> ClimateParameters -> Prop := params2 Qeq.

(** [v] lies strictly between [a] and [b] when the two differ. *)
Definition strictly_between (a b v : Q) : Prop :=
  ~ a == b -> (a < v /\ v < b) \/ (b < v /\ v < a).

(** [v] is the point of the line from [a] to [b] at fraction [f]. *)
Definition on_line (f : Q) (a b v : Q) : Prop := v == a + (b - a) * f.

End ClimateSpec.

(** ** bangladesh_disaster_simulation.py: the example configuration of [__main__] *)

Module ExampleConfig.

Definition flood : HazardModel.t :=
  {| HazardModel.hazard_type := "flood";
     HazardModel.return_periods := [10; 20; 50; 100];
     HazardModel.intensity_scales := [("depth", "meters"); ("velocity", "m/s")];
     HazardModel.spatial_patterns := "riverine";
     HazardModel.seasonal_profile := "monsoon";
     HazardModel.climate_sensitivity := [("rainfall", 0.1); ("sea_level_rise", 0.2)] |}.

Definition cyclone : HazardModel.t :=
  {| HazardModel.hazard_type := "cyclone";
     HazardModel.return_periods := [5; 10; 20; 50];
     HazardModel.intensity_scales := [("wind_speed", "km/h"); ("storm_surge", "meters")];
     HazardModel.spatial_patterns := "coastal";
     HazardModel.seasonal_profile := "pre_monsoon_post_monsoon";
     HazardModel.climate_sensitivity := [("sea_surface_temperature", 0.15)] |}.

(** The flood configuration with the single return period 1. *)
Definition yearly_flood : HazardModel.t :=
  {| HazardModel.hazard_type := "flood";
     HazardModel.return_periods := [1];
     HazardModel.intensity_scales := [("depth", "meters"); ("velocity", "m/s")];
     HazardModel.spatial_patterns := "riverine";
     HazardModel.seasonal_profile := "monsoon";
     HazardModel.climate_sensitivity := [("rainfall", 0.1); ("sea_level_rise", 0.2)] |}.

(** The cyclone configuration with the single return period 1. *)
Definition yearly_cyclone : HazardModel.t :=
  {| HazardModel.hazard_type := "cyclone";
     HazardModel.return_periods := [1];
     HazardModel.intensity_scales := [("wind_speed", "km/h"); ("storm_surge", "meters")];
     HazardModel.spatial_patterns := "coastal";
     HazardModel.seasonal_profile := "pre_monsoon_post_monsoon";
     HazardModel.climate_sensitivity := [("sea_surface_temperature", 0.15)] |}.

End ExampleConfig.

Module HazardSpec.

(** The event list of a call that returned. *)
Definition events_of (r : Py.result (list HazardModel.Event * Generator.state))
  : option (list HazardModel.Event) :=
  match r with
  | Py.Ok (events, _) => Some events
  | Py.Raise _ => None
  end.

End HazardSpec.

Module RunnerSpec.

Import Generator SimulationRunner.

(** A user configuration that sets the random seed and nothing else. *)
Definition seeded (seed : Z) : option (list (string * value)) :=
  Some [("simulation", Dict [("random_seed", Num (inject_Z seed))])].

(** The random seed a runner's configuration holds. *)
Definition seed_of (runner : t) : option value :=
  match Py.lookup "simulation" (config runner) with
  | Some (Dict d) => Py.lookup "random_seed" d
  | _ => None
  end.

(** One process from its start: the runner is constructed under the
    ambient generator, then the hazard stub it installed generates the
    hazards of a year, with the climate factors and region parameters
    [run_simulation] prepares for a scenario and a region. *)
Definition first_hazards (user_config : option (list (string * value)))
  (scenario region : string) (year : Z) (g : state)
  : Py.result (list (string * Hazard)) :=
  r <- __init__ user_config g ;;
  let '(runner, g1) := r in
  climate_baseline <- _initialize_climate_scenario runner scenario ;;
  let region_params := _initialize_region_parameters region in
  h <- stub_generate_events region year climate_baseline region_params g1 ;;
  Py.Ok (fst h).

Section Events.

Variable np_log : Q -> Q.
Variable gamma_ppf : Q -> Q -> Q -> Q.

(** One process from its start: the runner is constructed, then
    [HazardModel.generate_events] of hazard_model.py is called. *)
Definition first_events (user_config : option (list (string * value)))
  (hazard : HazardModel.t) (year : Z) (g : state)
  : Py.result (list HazardModel.Event) :=
  r <- __init__ user_config g ;;
  let '(_, g1) := r in
  e <- HazardModel.generate_events np_log gamma_ppf hazard year None g1 ;;
  Py.Ok (fst e).

End Events.

End RunnerSpec.

Module ExposureSpec.
(** [range(first, last + 1)] *)
Definition year_range (first last : Z) : list Z :=
  map (fun n => (first + Z.of_nat n)%Z) (seq 0 (Z.to_nat (last - first + 1))).

(** The state a fresh [ExposureModel] starts from. *)
Definition fresh : ExposureModel.t := ExposureModel.init "upazila" [].

Import ExposureModel.

(** The range the exposure ratio of a footprint type must lie in. *)
Definition ratio_in_range (hazard_footprint : list (string * HazardModel.attr)) (ratio : Q)
  : Prop :=
  if footprint_type hazard_footprint =? "riverine" then 0.1 <= ratio /\ ratio <= 0.5
  else if footprint_type hazard_footprint =? "coastal" then 0.1 <= ratio /\ ratio <= 0.4
  else ratio == 0.1.

(** Key by key, an exposed count does not exceed the stock quantity. *)
Definition within (exposed : list (string * Z)) (stock : list (string * Q)) : Prop :=
  Forall2 (fun e s => fst e = fst s /\ inject_Z (snd e) <= snd s) exposed stock.

Definition nonneg_values (d : list (string * Q)) : Prop :=
  Forall (fun kv => 0 <= snd kv) d.

(** The stock of a model and of the administrative units it reads holds no
    negative quantity, and the unit arrays have one entry per unit. *)
Record plausible_stock (self : t) (gdf : GeoDataFrame) : Prop := mk_plausible
  { population_size : List.length (population gdf) = num_units gdf;
    building_count_size : List.length (building_count gdf) = num_units gdf;
    population_nonneg : Forall (Qle 0) (population gdf);
    building_count_nonneg : Forall (Qle 0) (building_count gdf);
    building_types_nonneg : nonneg_values (building_types self);
    critical_facilities_nonneg : nonneg_values (critical_facilities self);
    agricultural_data_nonneg : nonneg_values (agricultural_data self) }.

(** The building stock by type: the units' total count times the type's
    fraction. *)
Definition building_stock (self : t) (gdf : GeoDataFrame) : list (string * Q) :=
  map (fun kv => (fst kv, Py.sumQ (building_count gdf) * snd kv)) (building_types self).

(** What [np.random.permutation] promises: a rearrangement of the indices
    [0 .. n-1], and a generator whose variates still lie in [0, 1). *)
Record shuffles (permutation : nat -> Generator.state -> list nat * Generator.state)
  : Prop := mk_shuffles
  { rearranges : forall n g, Permutation (fst (permutation n g)) (seq 0 n);
    keeps_unit_interval :
      forall n g, Generator.unit_interval g -> Generator.unit_interval (snd (permutation n g)) }.

End ExposureSpec.

(** ** A small concrete exposure model *)

Module ExposureExample.
(** Eight divisions with placeholder attributes. *)
Definition divisions : ExposureModel.GeoDataFrame :=
  {| ExposureModel.num_units := 8;
     ExposureModel.population :=
       [250000; 180000; 320000; 90000; 410000; 150000; 275000; 60000];
     ExposureModel.building_count :=
       [50000; 36000; 64000; 18000; 82000; 30000; 55000; 12000] |}.

Definition model : ExposureModel.t :=
  ExposureModel.init "division" [("division", divisions)].

Definition riverine_footprint : list (string * HazardModel.attr) :=
  HazardModel._generate_spatial_footprint ExampleConfig.flood 4.

Definition generator : Generator.state :=
  Generator.replay [0.3; 0.9; 0.1; 0.6; 0.25; 0.75; 0.5; 0.05] 0.5.

(** The years of the annual updates up to 2043. *)
Definition years_to_2043 : list Z := ExposureSpec.year_range 2026 2043.
End ExposureExample.

(** ** A small concrete damage assessment *)

Module DamageExample.

(** A thousand people and a thousand buildings exposed. *)
Definition exposed : Monolith_ExposureModel.Exposed :=
  {| Monolith_ExposureModel.x_population := 1000;
     Monolith_ExposureModel.x_buildings :=
       [("RCC", 150%Z); ("semi_pucca", 250%Z); ("kutcha", 500%Z); ("jhupri", 100%Z)];
     Monolith_ExposureModel.x_critical_infrastructure :=
       [("hospitals", 4%Z); ("bridges", 10%Z)];
     Monolith_ExposureModel.x_agriculture := [("rice_area_ha", 5000%Z)];
     Monolith_ExposureModel.x_admin_units := [0%nat; 1%nat];
     Monolith_ExposureModel.x_exposure_ratio := 0.1 |}.

(** A riverine flood event of a given depth, as [generate_events] builds it. *)
Definition flood (depth : Q) : HazardModel.Event :=
  {| HazardModel.ev_type := "flood";
     HazardModel.ev_year := 2030;
     HazardModel.ev_month := 7;
     HazardModel.ev_return_period := 100;
     HazardModel.ev_intensity := depth;
     HazardModel.ev_spatial_footprint :=
       HazardModel._generate_spatial_footprint ExampleConfig.flood depth;
     HazardModel.ev_attributes :=
       [("flood_type", HazardModel.Str "riverine");
        ("duration", HazardModel.Num 15);
        ("depth", HazardModel.Num depth)] |}.

Definition generator : Generator.state := Generator.replay [] 0.5.

End DamageExample.

Module DamageSpec.
Import VulnerabilityModel.

(** [deaths + injuries + displaced] *)
Definition casualty_total (c : Casualties) : Z := (deaths c + injuries c + displaced c)%Z.

(** The exposed building count. *)
Definition exposed_building_count (exposed : Monolith_ExposureModel.Exposed) : Z :=
  Py.sumZ (map snd (Monolith_ExposureModel.x_buildings exposed)).

End DamageSpec.

(** ** Concrete disaster impacts *)

Module RecoveryExample.
Import RecoveryModel.

(** No damage at all: every loss is zero. *)
Definition no_losses : Impacts :=
  {| buildings := [];
     infrastructure := [];
     economic := [("direct_losses", 0); ("indirect_losses", 0)];
     economic_dtype := Py.python;
     casualties := [("deaths", 0); ("injuries", 0); ("displaced", 0)];
     region_type := None |}.

(** The same with [numpy.float64] zeros, as [calculate_damages] computes
    them when an event damages nothing. *)
Definition no_losses_float64 : Impacts :=
  {| buildings := [];
     infrastructure := [];
     economic := [("direct_losses", 0); ("indirect_losses", 0)];
     economic_dtype := Py.float64;
     casualties := [("deaths", 0); ("injuries", 0); ("displaced", 0)];
     region_type := None |}.

(** Economic losses only: no building, facility or person is affected. *)
Definition economic_only : Impacts :=
  {| buildings := [];
     infrastructure := [];
     economic := [("direct_losses", 100); ("indirect_losses", 50)];
     economic_dtype := Py.python;
     casualties := [];
     region_type := None |}.

(** Damaged housing and bridges, casualties and losses. *)
Definition flood_impacts : Impacts :=
  {| buildings :=
       [("RCC", [("count", 150); ("damage_ratio", 0.2); ("damaged_count", 35)]);
        ("kutcha", [("count", 500); ("damage_ratio", 0.9); ("damaged_count", 487)])];
     infrastructure :=
       [("bridges", [("count", 10); ("damage_ratio", 0.3); ("damaged_count", 2)])];
     economic := [("direct_losses", 1200000000); ("indirect_losses", 600000000)];
     economic_dtype := Py.float64;
     casualties := [("deaths", 400); ("injuries", 1500); ("displaced", 21000)];
     region_type := Some "coastal" |}.

Definition explicit_funding : Funding :=
  {| total_funding := Some 1000000;
     total_funding_dtype := Py.python;
     bbb_policy_strength := None;
     bbb_funding_allocation := None;
     bbb_technical_capacity := None |}.

Definition default_funding : Funding :=
  {| total_funding := None;
     total_funding_dtype := Py.python;
     bbb_policy_strength := None;
     bbb_funding_allocation := None;
     bbb_technical_capacity := None |}.

End RecoveryExample.

Module RecoverySpec.

(** An evaluation that returns, or stops on a division by zero. *)
Definition returns_or_divides_by_zero {A : Type} (r : Py.result A) : Prop :=
  (exists a, r = Py.Ok a) \/ r = Py.Raise Py.ZeroDivisionError.

End RecoverySpec.

(** ** Definitions used by the further properties *)

Module TrajectorySpec.

(** Each element is at most the next one. *)
Fixpoint nondecreasing_from (x : Q) (l : list Q) : Prop :=
  match l with
  | [] => True
  | y :: l' => x <= y /\ nondecreasing_from y l'
  end.

Definition nondecreasing (l : list Q) : Prop :=
  match l with
  | [] => True
  | x :: l' => nondecreasing_from x l'
  end.

(** Every element lies in [0, 1]. *)
Definition within_unit (l : list Q) : Prop := Forall (fun v => 0 <= v /\ v <= 1) l.

(** The laws assumed of [np.sqrt] and [np.exp]. *)
Definition sqrt_monotone (f : Q -> Q) : Prop :=
  forall x y, 0 <= x -> x <= y -> f x <= f y.
Definition exp_positive (f : Q -> Q) : Prop := forall x, 0 < f x.
Definition exp_monotone (f : Q -> Q) : Prop := forall x y, x <= y -> f x <= f y.

End TrajectorySpec.

Module RecoveryShape.
Import TrajectorySpec.

(** What a sector's returned trajectory looks like for its horizon. *)
Definition trajectory_shape (horizon : Z) (trajectory : list Q) : Prop :=
  (0 <= horizon)%Z
  /\ (horizon = 0%Z -> exists v, trajectory = [v] /\ v == 1)
  /\ ((0 < horizon)%Z ->
      List.length trajectory = Z.to_nat (horizon + 1)
      /\ hd 1 trajectory == 0
      /\ within_unit trajectory
      /\ nondecreasing trajectory).

(** The horizons and the trajectories list the same sectors in the same
    order, each trajectory shaped by its horizon. *)
Definition shaped_by (horizons : list (string * Z)) (trajectories : list (string * list Q))
  : Prop :=
  Forall2 (fun h t => fst t = fst h /\ trajectory_shape (snd h) (snd t))
          horizons trajectories.

End RecoveryShape.

Module HorizonSpec.
Import RecoveryModel.

(** No damage dictionary reports a negative [damaged_count]. *)
Definition nonneg_damage (damages : list (string * list (string * Q))) : Prop :=
  Forall (fun kv => 0 <= damaged_count (snd kv)) damages.

(** [sum(damage.get('damaged_count', 0) for damage in damages.values())] *)
Definition total_damaged (damages : list (string * list (string * Q))) : Q :=
  Py.sumQ (map (fun kv => damaged_count (snd kv)) damages).

(** Every building type has a housing recovery rate / none has. *)
Definition known_building_types (damages : list (string * list (string * Q))) : Prop :=
  Forall (fun kv => Py.contains (fst kv) housing_rates = true) damages.
Definition unknown_building_types (damages : list (string * list (string * Q))) : Prop :=
  Forall (fun kv => Py.contains (fst kv) housing_rates = false) damages.

(** The average recovery rates of the three sectors, in exact arithmetic. *)
Definition housing_average_rate (damages : list (string * list (string * Q))) : Q :=
  fold_left
    (fun acc kv =>
       match Py.lookup (fst kv) housing_rates with
       | Some rate => acc + damaged_count (snd kv) * rate
       | None => acc
       end)
    damages 0
  / total_damaged damages.

Definition infrastructure_average_rate (damages : list (string * list (string * Q))) : Q :=
  fold_left
    (fun acc kv =>
       acc + damaged_count (snd kv) * Py.get infrastructure_rates (mapped_type (fst kv)) 0)
    damages 0
  / total_damaged damages.

Definition livelihoods_average_rate (econ_damages : list (string * Q)) : Q :=
  (Py.get econ_damages "direct_losses" 0 * 0.12
   + Py.get econ_damages "indirect_losses" 0 * 0.08)
  / (Py.get econ_damages "direct_losses" 0 + Py.get econ_damages "indirect_losses" 0).

(** A value within one part in a billion of an exact one: what
    floating-point arithmetic leaves of an average after its few
    operations. *)
Definition tolerance : Q := 1 # 1000000000.

Definition close_to (exact value : Q) : Prop :=
  exact * (1 - tolerance) <= value /\ value <= exact * (1 + tolerance).

End HorizonSpec.

Module MilestoneSpec.
Import RecoveryModel.

(** [milestone] is the first month at which the trajectory reaches the
    threshold, or [None] when it never does. *)
Definition first_month (threshold : Q) (trajectory : list Q) (milestone : option nat) : Prop :=
  match milestone with
  | Some month =>
      (month < List.length trajectory)%nat
      /\ threshold <= nth month trajectory 0
      /\ forall earlier, (earlier < month)%nat -> nth earlier trajectory 0 < threshold
  | None => Forall (fun value => value < threshold) trajectory
  end.

(** A milestone is reached no later than another; [None] is never. *)
Definition no_later (a b : option nat) : Prop :=
  match a, b with
  | Some m, Some n => (m <= n)%nat
  | _, None => True
  | None, Some _ => False
  end.

(** The four metrics of a sector lie in [0, 1]. *)
Definition scores_within_unit (q : Quality) : Prop :=
  (0 <= speed q /\ speed q <= 1)
  /\ (0 <= completeness q /\ completeness q <= 1)
  /\ (0 <= quality q /\ quality q <= 1)
  /\ (0 <= overall_score q /\ overall_score q <= 1).

End MilestoneSpec.

Module RecoveryInputs.
Import RecoveryModel HorizonSpec.

(** Impacts as the damage model reports them: no negative count or loss,
    and only building types that have a housing recovery rate. *)
Record plausible (impacts : Impacts) : Prop := mk_plausible
  { buildings_nonneg : nonneg_damage (buildings impacts);
    buildings_known : known_building_types (buildings impacts);
    infrastructure_nonneg : nonneg_damage (infrastructure impacts);
    direct_nonneg : 0 <= Py.get (economic impacts) "direct_losses" 0;
    indirect_nonneg : 0 <= Py.get (economic impacts) "indirect_losses" 0;
    deaths_nonneg : 0 <= Py.get (casualties impacts) "deaths" 0;
    injuries_nonneg : 0 <= Py.get (casualties impacts) "injuries" 0;
    displaced_nonneg : 0 <= Py.get (casualties impacts) "displaced" 0 }.

(** Houses of a type the recovery-rate table does not list. *)
Definition unlisted_housing : Impacts :=
  {| buildings := [("pucca", [("count", 40); ("damage_ratio", 0.5); ("damaged_count", 20)])];
     infrastructure := [];
     economic := [("direct_losses", 100); ("indirect_losses", 50)];
     economic_dtype := Py.python;
     casualties := [];
     region_type := None |}.

End RecoveryInputs.

Module EventSpec.
Import HazardModel.

(** The month weights [_sample_month_from_profile] selects. *)
Definition month_probabilities (self : t) : list Q :=
  if hazard_type self =? "flood" then
    if seasonal_profile self =? "monsoon" then monsoon_profile else uniform_profile
  else if hazard_type self =? "cyclone" then cyclone_profile
  else uniform_profile.

(** The keys [_add_hazard_specific_attributes] adds, in insertion order. *)
Definition attribute_keys (hazard_type : string) : list string :=
  if hazard_type =? "flood" then ["flood_type"; "duration"; "depth"]
  else if hazard_type =? "cyclone" then
    ["wind_speed"; "storm_surge"; "track_direction"; "rainfall_intensity"; "duration"]
  else [].

Section Events.
Variable np_log : Q -> Q.

(** What [generate_events] puts into an event of the year. *)
Record well_formed (self : t) (year : Z) (climate_effects : option (list (string * Q)))
  (e : Event) : Prop := mk_well_formed
  { wf_type : ev_type e = hazard_type self;
    wf_year : ev_year e = year;
    wf_return_period : In (ev_return_period e) (return_periods self);
    wf_month : (1 <= ev_month e <= 12)%Z;
    wf_intensity :
      ev_intensity e
      = _intensity_from_return_period np_log self (ev_return_period e)
        * intensity_multiplier climate_effects;
    wf_footprint :
      ev_spatial_footprint e = _generate_spatial_footprint self (ev_intensity e);
    wf_keys : map fst (ev_attributes e) = attribute_keys (hazard_type self) }.

End Events.

End EventSpec.

Module UpdateSpec.
Import ExposureModel.

(** The keys [update_exposure] reads are present. *)
Definition has_keys (keys : list string) (d : list (string * Q)) : Prop :=
  Forall (fun k => Py.contains k d = true) keys.

Record updatable (self : t) : Prop := mk_updatable
  { building_keys : has_keys ["RCC"; "kutcha"; "semi_pucca"] (building_types self);
    facility_keys :
      has_keys ["cyclone_shelters"; "hospitals"; "telecom_towers"] (critical_facilities self);
    sector_keys : has_keys ["services"; "agriculture"; "industry"] (economic_sectors self) }.

(** Two dictionaries with the same keys in the same order and equal values. *)
Definition same_values (d d' : list (string * Q)) : Prop :=
  Forall2 (fun a b => fst a = fst b /\ snd a == snd b) d d'.

(** The shares are at most their caps. *)
Record capped (self : t) : Prop := mk_capped
  { urban_capped : urban_population_pct self <= 0.65;
    rcc_capped : forall v, Py.lookup "RCC" (building_types self) = Some v -> v <= 0.35;
    services_capped :
      forall v, Py.lookup "services" (economic_sectors self) = Some v -> v <= 0.65 }.

(** The sum of the years passed over the updates [first+1 .. first+count]
    after 2025. *)
Definition years_passed_sum (first count : nat) : Z :=
  Z.of_nat (count * first + count * (count + 1) / 2).

End UpdateSpec.

Module DamageBounds.
Import VulnerabilityModel.

(** A damage entry has a ratio in [0, 1] and damages between none and all
    of the exposed count. *)
Definition damage_within (d : BuildingDamage) : Prop :=
  (0 <= b_damage_ratio d /\ b_damage_ratio d <= 1)
  /\ (0 <= b_damaged_count d <= b_count d)%Z.

Definition all_within (damages : list (string * BuildingDamage)) : Prop :=
  Forall (fun kv => damage_within (snd kv)) damages.

(** No exposed count is negative. *)
Definition nonneg_counts (d : list (string * Z)) : Prop :=
  Forall (fun kv => (0 <= snd kv)%Z) d.

Record nonneg_exposure (exposed : Monolith_ExposureModel.Exposed) : Prop := mk_nonneg_exposure
  { buildings_nonneg : nonneg_counts (Monolith_ExposureModel.x_buildings exposed);
    infrastructure_nonneg :
      nonneg_counts (Monolith_ExposureModel.x_critical_infrastructure exposed);
    agriculture_nonneg : nonneg_counts (Monolith_ExposureModel.x_agriculture exposed) }.

(** The hazard types with building and infrastructure damage functions. *)
Definition has_damage_functions (hazard_type : string) : bool :=
  (hazard_type =? "flood") || (hazard_type =? "cyclone") || (hazard_type =? "earthquake").

End DamageBounds.

(** ** bangladesh_disaster_simulation.py: class EmergencyResponseModel *)

Module EmergencyResponseModel.

(** [disaster_impacts]: the keys [simulate_response] reads; an absent
    ['casualties'] reads as the empty dictionary. *)
Record Impacts : Type := mk_impacts
  { hazard_type : option string;
    region_type : option string;
    casualties : list (string * Q) }.

(** [self.response_agencies['ngos']['regional_capacity']] *)
Definition regional_capacity : list (string * Q) :=
  [("coastal", 0.8); ("urban", 0.7); ("flood_plain", 0.6); ("haor_basin", 0.5);
   ("hill_tracts", 0.4)].

(** [self.emergency_resources]: the two entries [simulate_response] reads. *)
Definition capacity_persons : Q := 2500000.
Definition food_days : Q := 1000000.

(** [self.response_effectiveness] *)
Definition response_effectiveness : list (string * list (string * Q)) :=
  [("flood",
    [("rescue", 0.7); ("evacuation", 0.6); ("relief", 0.6); ("medical", 0.5);
     ("restoration", 0.5)]);
   ("cyclone",
    [("rescue", 0.6); ("evacuation", 0.7); ("relief", 0.6); ("medical", 0.5);
     ("restoration", 0.4)]);
   ("flash_flood",
    [("rescue", 0.5); ("evacuation", 0.4); ("relief", 0.5); ("medical", 0.5);
     ("restoration", 0.6)]);
   ("landslide",
    [("rescue", 0.4); ("evacuation", 0.3); ("relief", 0.4); ("medical", 0.4);
     ("restoration", 0.5)]);
   ("earthquake",
    [("rescue", 0.3); ("evacuation", 0.4); ("relief", 0.5); ("medical", 0.4);
     ("restoration", 0.3)]);
   ("drought",
    [("rescue", 0.8); ("evacuation", 0.7); ("relief", 0.6); ("medical", 0.6);
     ("restoration", 0.4)])].

(** [self.coordination_effectiveness] *)
Definition coordination_effectiveness : list (string * Q) :=
  [("inter_agency", 0.6); ("govt_ngo", 0.5); ("national_local", 0.5);
   ("civil_military", 0.7); ("international", 0.6)].

(** [self.logistics_parameters['transportation_disruption']] *)
Definition transportation_disruption : list (string * Q) :=
  [("flood", 0.7); ("cyclone", 0.6); ("earthquake", 0.8); ("landslide", 0.7);
   ("drought", 0.2)].

(** [_calculate_resource_adequacy(self, affected_population, available_resources)] *)
Definition _calculate_resource_adequacy (affected_population : Q)
  (available_resources : list (string * Q)) : list (string * Q) :=
  let default_adequacy := 0.6 in
  let rescue_adequacy := Py.get available_resources "rescue_adequacy" default_adequacy in
  let evacuation_adequacy :=
    Py.get available_resources "evacuation_adequacy" default_adequacy in
  let relief_adequacy := Py.get available_resources "relief_adequacy" default_adequacy in
  let medical_adequacy := Py.get available_resources "medical_adequacy" default_adequacy in
  let restoration_adequacy :=
    Py.get available_resources "restoration_adequacy" default_adequacy in
  [("rescue", rescue_adequacy); ("evacuation", evacuation_adequacy);
   ("relief", relief_adequacy); ("medical", medical_adequacy);
   ("restoration", restoration_adequacy)].

(** The dictionary returned by [_calculate_resource_consumption]. *)
Record Consumption : Type := mk_consumption
  { daily_food_person_days : Z;
    daily_water_liters : Z;
    medical_kits : Z;
    shelter_capacity_used : Z }.

(** [_calculate_resource_consumption(self, affected_population,
    available_resources, response_results)] *)
Definition _calculate_resource_consumption (affected_population : Q)
  (available_resources : list (string * Q)) (response_results : list (string * Q))
  : Consumption :=
  let relief_effectiveness := Py.get response_results "relief" 0.5 in
  let medical_effectiveness := Py.get response_results "medical" 0.5 in
  {| daily_food_person_days := Py.py_int (affected_population * relief_effectiveness * 1.0);
     daily_water_liters := Py.py_int (affected_population * relief_effectiveness * 3.0);
     medical_kits := Py.py_int (affected_population * medical_effectiveness * 0.05);
     shelter_capacity_used :=
       Py.py_int (affected_population * Py.get response_results "evacuation" 0.5 * 0.7) |}.

(** The dictionary returned by [simulate_response]. *)
Record Response : Type := mk_response
  { r_response_effectiveness : list (string * Q);
    r_response_gaps : list (string * Q);
    r_coordination_effectiveness : Q;
    r_transport_disruption : Q;
    r_resource_adequacy : list (string * Q);
    r_resource_consumption : Consumption;
    r_additional_lives_saved : Z;
    r_shelter_access_ratio : Q;
    r_relief_provision_ratio : Q;
    r_medical_service_ratio : Q;
    r_overall_response_score : Q }.

(** [affected_population]: the ['affected'] entry, or the sum of all the
    casualty entries when it is absent or zero. *)
Definition affected_population_of (casualties : list (string * Q)) : Q :=
  let affected_population := Py.get casualties "affected" 0 in
  if Qeq_bool affected_population 0 then Py.sumQ (map snd casualties)
  else affected_population.

Definition base_effectiveness_of (hazard_type : string) : Py.result (list (string * Q)) :=
  if Py.contains hazard_type response_effectiveness
  then Py.item response_effectiveness hazard_type
  else Py.item response_effectiveness "flood".

Definition regional_factor_of (region_type : string) : Py.result Q :=
  if region_type =? "coastal" then Py.item regional_capacity "coastal"
  else if region_type =? "riverine" then Py.item regional_capacity "flood_plain"
  else if region_type =? "urban" then Py.item regional_capacity "urban"
  else if region_type =? "haor" then Py.item regional_capacity "haor_basin"
  else if region_type =? "hill_tracts" then Py.item regional_capacity "hill_tracts"
  else Py.Ok 0.6.

Definition coordination_of : Py.result Q :=
  a <- Py.item coordination_effectiveness "inter_agency" ;;
  b <- Py.item coordination_effectiveness "govt_ngo" ;;
  c <- Py.item coordination_effectiveness "national_local" ;;
  d <- Py.item coordination_effectiveness "civil_military" ;;
  e <- Py.item coordination_effectiveness "international" ;;
  Py.Ok (a * 0.2 + b * 0.2 + c * 0.2 + d * 0.2 + e * 0.2).

(** [for operation, base_value in base_effectiveness.items()] *)
Fixpoint adjust (base_effectiveness : list (string * Q))
  (regional_factor coordination transport_disruption : Q)
  (resource_adequacy : list (string * Q)) : Py.result (list (string * Q)) :=
  match base_effectiveness with
  | [] => Py.Ok []
  | (operation, base_value) :: rest =>
      adequacy <- Py.item resource_adequacy operation ;;
      let adjusted_effectiveness :=
        base_value * (0.4 + 0.2 * regional_factor + 0.2 * adequacy + 0.1 * coordination
                      + 0.1 * (1 - transport_disruption)) in
      let adjusted_effectiveness := Qmin 0.95 (Qmax 0.05 adjusted_effectiveness) in
      others <- adjust rest regional_factor coordination transport_disruption
                       resource_adequacy ;;
      Py.Ok ((operation, adjusted_effectiveness) :: others)
  end.

(** [simulate_response(self, disaster_impacts, available_resources)] *)
Definition simulate_response (disaster_impacts : Impacts)
  (available_resources : list (string * Q)) : Py.result Response :=
  let hazard_type :=
    match hazard_type disaster_impacts with Some h => h | None => "flood" end in
  let region_type :=
    match region_type disaster_impacts with Some r => r | None => "generic" end in
  let affected_population := affected_population_of (casualties disaster_impacts) in
  base_effectiveness <- base_effectiveness_of hazard_type ;;
  let transport_disruption := Py.get transportation_disruption hazard_type 0.5 in
  regional_factor <- regional_factor_of region_type ;;
  coordination <- coordination_of ;;
  let resource_adequacy :=
    _calculate_resource_adequacy affected_population available_resources in
  response_results <- adjust base_effectiveness regional_factor coordination
                             transport_disruption resource_adequacy ;;
  let response_gaps :=
    map (fun kv => (fst kv, Qmax 0 (1.0 - snd kv))) response_results in
  let resource_consumption :=
    _calculate_resource_consumption affected_population available_resources
                                    response_results in
  let potential_fatalities := Py.get (casualties disaster_impacts) "deaths" 0 in
  let additional_lives_saved :=
    Py.py_int (potential_fatalities * Py.get response_results "rescue" 0.5 * 0.3) in
  let displaced_population := Py.get (casualties disaster_impacts) "displaced" 0 in
  let shelter_capacity := Py.get available_resources "shelter_capacity" capacity_persons in
  shelter <- Py.div shelter_capacity (Qmax 1 displaced_population) ;;
  let shelter_access_ratio := Qmin 1.0 shelter in
  let relief_needs_days := affected_population * 7 in
  let available_relief_days := Py.get available_resources "relief_days" food_days in
  relief <- Py.div available_relief_days (Qmax 1 relief_needs_days) ;;
  let relief_provision_ratio := Qmin 1.0 relief in
  let injured_population := Py.get (casualties disaster_impacts) "injuries" 0 in
  let medical_capacity :=
    Py.get available_resources "medical_capacity"
           (inject_Z (Py.py_int (affected_population * 0.05))) in
  medical <- Py.div medical_capacity (Qmax 1 injured_population) ;;
  let medical_service_ratio := Qmin 1.0 medical in
  score <- Py.div (Py.sumQ (map snd response_results))
                  (inject_Z (Z.of_nat (List.length response_results))) ;;
  Py.Ok {| r_response_effectiveness := response_results;
           r_response_gaps := response_gaps;
           r_coordination_effectiveness := coordination;
           r_transport_disruption := transport_disruption;
           r_resource_adequacy := resource_adequacy;
           r_resource_consumption := resource_consumption;
           r_additional_lives_saved := additional_lives_saved;
           r_shelter_access_ratio := shelter_access_ratio;
           r_relief_provision_ratio := relief_provision_ratio;
           r_medical_service_ratio := medical_service_ratio;
           r_overall_response_score := score |}.

End EmergencyResponseModel.

Module ResponseSpec.
Import EmergencyResponseModel.

(** The five response operations, in the order of the tables. *)
Definition operations : list string :=
  ["rescue"; "evacuation"; "relief"; "medical"; "restoration"].

(** Every adequacy the caller gives lies in [0, 1]. *)
Definition adequacy_within_unit (available_resources : list (string * Q)) : Prop :=
  Forall (fun operation =>
            forall v, Py.lookup (operation ++ "_adequacy") available_resources = Some v ->
                      0 <= v /\ v <= 1)
         operations.

(** The impacts of a flood on a coast. *)
Definition coastal_flood : Impacts :=
  {| hazard_type := Some "flood";
     region_type := Some "coastal";
     casualties := [("deaths", 400); ("injuries", 1500); ("displaced", 21000)] |}.

End ResponseSpec.

(** * Theorems *)

(** ** The climate scenario interpolator *)

Section ClimateFacts.

Import ClimateChangeModel ClimateSpec.

Lemma known_pathway_cases (scenario : string) (tbl : Scenario) :
  Py.lookup scenario scenarios = Some tbl ->
  (scenario = "RCP4.5" /\ tbl = RCP45)
  \/ (scenario = "RCP8.5" /\ tbl = RCP85)
  \/ (scenario = "RCP2.6" /\ tbl = RCP26).
Proof.
  unfold scenarios; cbn [Py.lookup].
  destruct (String.eqb_spec scenario "RCP4.5") as [-> | _];
    [intros [= <-]; auto |].
  destruct (String.eqb_spec scenario "RCP8.5") as [-> | _];
    [intros [= <-]; auto |].
  destruct (String.eqb_spec scenario "RCP2.6") as [-> | _];
    [intros [= <-]; auto |].
  discriminate.
Qed.

Lemma resolve_known (scenario : string) (tbl : Scenario) :
  Py.lookup scenario scenarios = Some tbl -> resolve scenario = tbl.
Proof.
  intros H. unfold resolve, Py.contains. rewrite H. cbv beta iota zeta.
  unfold Py.get. rewrite H. reflexivity.
Qed.

Lemma resolve_unknown (scenario : string) :
  Py.contains scenario scenarios = false -> resolve scenario = RCP45.
Proof.
  intros H. unfold resolve. rewrite H. reflexivity.
Qed.

Lemma value_at (year : Z) (scenario : string) :
  Py.value (get_annual_climate_parameters year scenario)
  = let '(decade, prev, f) := decade_of year in
    let s := resolve scenario in
    {| p_temperature_increase := scalar (temperature_increase s) decade prev f;
       p_sea_level_rise := scalar (sea_level_rise s) decade prev f;
       p_precipitation_change := seasonal (precipitation_change s) decade prev f;
       p_cyclone_intensity_factor := scalar (cyclone_intensity_factor s) decade prev f;
       p_drought_frequency_factor := scalar (drought_frequency_factor s) decade prev f;
       p_extreme_rainfall_factor := scalar (extreme_rainfall_factor s) decade prev f |}.
Proof.
  unfold get_annual_climate_parameters.
  destruct (decade_of year) as [[decade prev] f]. reflexivity.
Qed.

(** The seasonal list is the pointwise line between two anchor lists. *)
Lemma zip_with_on_line (f : Q) (xs ys : list Q) :
  List.length xs = List.length ys ->
  all3 (on_line f) xs ys (zip_with (fun a b => interpolate a b f) xs ys).
Proof.
  revert ys. induction xs as [| x xs IH]; intros [| y ys] Hlen; cbn in *;
    try discriminate; [exact I |].
  split; [unfold on_line, interpolate; reflexivity | apply IH; congruence].
Qed.

(** Every seasonal table of a pathway the model can resolve has four
    entries. *)
Lemma seasonal_length (scenario : string) (d : Decade) :
  List.length (at_decade (precipitation_change (resolve scenario)) d) = 4%nat.
Proof.
  unfold resolve.
  destruct (Py.contains scenario scenarios) eqn:Hc.
  - unfold Py.contains in Hc. unfold Py.get.
    destruct (Py.lookup scenario scenarios) as [tbl |] eqn:Hl; [| discriminate].
    destruct (known_pathway_cases _ _ Hl) as [[_ ->] | [[_ ->] | [_ ->]]];
      destruct d; reflexivity.
  - destruct d; reflexivity.
Qed.

End ClimateFacts.

(** ** Claims on the climate scenario interpolator *)

Section ClimateClaims.
Import ClimateChangeModel ClimateSpec.

Ltac between_by_computation :=
  repeat split;
  intros _;
  first [ left; split; vm_compute; reflexivity
        | right; split; vm_compute; reflexivity ].

(** C7 (confirmed).  For every pathway of the scenario table,
    [get_annual_climate_parameters(2030, pathway)] equals the pathway's
    2030 table values parameter by parameter, and at 2035 every parameter
    whose 2030 and 2040 anchors differ lies strictly between the two. *)
Theorem anchor_2030_exact_and_2035_between (scenario : string) (tbl : Scenario) :
  Py.lookup scenario scenarios = Some tbl ->
  same_parameters (Py.value (get_annual_climate_parameters 2030 scenario)) (anchor tbl D2030)
  /\ params3 strictly_between (anchor tbl D2030) (anchor tbl D2040)
             (Py.value (get_annual_climate_parameters 2035 scenario)).
Proof.
  intros H.
  destruct (known_pathway_cases _ _ H) as [[-> ->] | [[-> ->] | [-> ->]]].
  all: split; [ repeat split; vm_compute; reflexivity | between_by_computation ].
Qed.

Lemma anchor_2030_exact_and_2035_between_witness :
  same_parameters (Py.value (get_annual_climate_parameters 2030 "RCP8.5")) (anchor RCP85 D2030)
  /\ params3 strictly_between (anchor RCP85 D2030) (anchor RCP85 D2040)
             (Py.value (get_annual_climate_parameters 2035 "RCP8.5")).
Proof.
  apply (anchor_2030_exact_and_2035_between "RCP8.5" RCP85). reflexivity.
Defined.

(* C6 *)
(** C6, counterexample.  For the year 2060 under RCP4.5 the returned
    temperature increase is 1.1 + (1.4 - 1.1) * 2 = 1.7, not the 2050
    anchor 1.4: years above 2050 are not clamped. *)
Lemma year_2060_is_not_the_2050_anchor :
  ~ same_parameters (Py.value (get_annual_climate_parameters 2060 "RCP4.5"))
                    (anchor RCP45 D2050).
Proof.
  intros [H _]. vm_compute in H. discriminate H.
Qed.

Lemma scalar_on_line_prev (t : by_decade Q) (d p : Decade) (f : Q) :
  on_line f (at_decade t p) (at_decade t d) (scalar t d (Some p) f).
Proof. unfold on_line, scalar, interpolate. reflexivity. Qed.

Lemma scalar_on_line_base (t : by_decade Q) (d : Decade) (f : Q) :
  on_line f 0 (at_decade t d) (scalar t d None f).
Proof. unfold on_line, scalar, interpolate. reflexivity. Qed.

Lemma on_line_at_one (f a b v : Q) : f == 1 -> on_line f a b v -> v == b.
Proof. unfold on_line. intros Hf ->. rewrite Hf. ring. Qed.

Lemma all3_on_line_at_one (f : Q) (xs ys zs : list Q) :
  f == 1 -> all3 (on_line f) xs ys zs -> all2 Qeq zs ys.
Proof.
  intros Hf. revert ys zs.
  induction xs as [| x xs IH]; intros [| y ys] [| z zs]; cbn; try tauto.
  intros [H1 H2]. split; [eapply on_line_at_one; eauto | auto].
Qed.

Lemma params3_on_line_at_one (f : Q) (a b p : ClimateParameters) :
  f == 1 -> params3 (on_line f) a b p -> same_parameters p b.
Proof.
  intros Hf (H1 & H2 & H3 & H4 & H5 & H6).
  repeat split;
    first [ eapply on_line_at_one; eassumption
          | eapply all3_on_line_at_one; eassumption ].
Qed.

(** C6 (corrected).  For every pathway the decade pair is chosen from the
    year limited to the table, but the interpolation fraction is not
    limited: years up to 2030 lie on the line from the zero-valued 2025
    baseline to the 2030 anchor at fraction (year - 2025) / 5, years in
    (2030, 2040] on the line between the 2030 and 2040 anchors at fraction
    (year - 2030) / 10, and every year above 2040 on the line through the
    2040 and 2050 anchors at fraction (year - 2040) / 10, which meets the
    2050 anchor at 2050. *)
Theorem annual_parameters_piecewise_linear (year : Z) (scenario : string) :
  let s := resolve scenario in
  let p := Py.value (get_annual_climate_parameters year scenario) in
  ((year <= 2030)%Z ->
     params3 (on_line (inject_Z (year - 2025) / 5)) baseline (anchor s D2030) p)
  /\ ((2030 < year <= 2040)%Z ->
     params3 (on_line (inject_Z (year - 2030) / 10)) (anchor s D2030) (anchor s D2040) p)
  /\ ((2040 < year)%Z ->
     params3 (on_line (inject_Z (year - 2040) / 10)) (anchor s D2040) (anchor s D2050) p)
  /\ (year = 2050%Z -> same_parameters p (anchor s D2050)).
Proof.
  intros s p. subst p. rewrite value_at. fold s.
  assert (Hlen : forall d d', List.length (at_decade (precipitation_change s) d)
                             = List.length (at_decade (precipitation_change s) d')).
  { intros d d'. unfold s. now rewrite !seasonal_length. }
  assert (Hlen0 : forall d, List.length [0; 0; 0; 0]
                            = List.length (at_decade (precipitation_change s) d)).
  { intros d. unfold s. now rewrite seasonal_length. }
  unfold decade_of.
  split; [| split; [| split]]; intros Hy.
  - destruct (Z.leb_spec year 2030); [| lia].
    repeat split; cbn [p_temperature_increase p_sea_level_rise p_precipitation_change
                       p_cyclone_intensity_factor p_drought_frequency_factor
                       p_extreme_rainfall_factor anchor baseline];
      first [ apply scalar_on_line_base | apply zip_with_on_line; apply Hlen0 ].
  - destruct (Z.leb_spec year 2030); [lia |].
    destruct (Z.leb_spec year 2040); [| lia].
    repeat split; cbn [p_temperature_increase p_sea_level_rise p_precipitation_change
                       p_cyclone_intensity_factor p_drought_frequency_factor
                       p_extreme_rainfall_factor anchor];
      first [ apply scalar_on_line_prev | apply zip_with_on_line; apply Hlen ].
  - destruct (Z.leb_spec year 2030); [lia |].
    destruct (Z.leb_spec year 2040); [lia |].
    repeat split; cbn [p_temperature_increase p_sea_level_rise p_precipitation_change
                       p_cyclone_intensity_factor p_drought_frequency_factor
                       p_extreme_rainfall_factor anchor];
      first [ apply scalar_on_line_prev | apply zip_with_on_line; apply Hlen ].
  - subst year.
    apply (params3_on_line_at_one (inject_Z (2050 - 2040) / 10) (anchor s D2040));
      [reflexivity |].
    cbn [Z.leb Z.compare Pos.compare Pos.compare_cont].
    repeat split; cbn [p_temperature_increase p_sea_level_rise p_precipitation_change
                       p_cyclone_intensity_factor p_drought_frequency_factor
                       p_extreme_rainfall_factor anchor];
      first [ apply scalar_on_line_prev | apply zip_with_on_line; apply Hlen ].
Qed.

Lemma annual_parameters_piecewise_linear_witness :
  params3 (on_line (inject_Z (2035 - 2030) / 10))
          (anchor (resolve "RCP4.5") D2030) (anchor (resolve "RCP4.5") D2040)
          (Py.value (get_annual_climate_parameters 2035 "RCP4.5")).
Proof.
  apply (annual_parameters_piecewise_linear 2035 "RCP4.5"). lia.
Defined.

(** C8 (the code departs from the claim).  For a pathway name outside the
    table, [get_annual_climate_parameters] and [apply_climate_scenarios]
    return exactly what they return for 'RCP4.5', and neither writes
    anything: the fallback is not signalled.  The single-file
    [apply_climate_scenarios] does print a warning on the same input. *)
Theorem unknown_pathway_falls_back_silently
  (year : Z) (scenario region hazard_type : string) (hazards : list string) :
  ~ known_pathway scenario ->
  get_annual_climate_parameters year scenario
    = get_annual_climate_parameters year "RCP4.5"
  /\ apply_climate_scenarios year scenario region hazard_type
    = apply_climate_scenarios year "RCP4.5" region hazard_type
  /\ Py.printed (get_annual_climate_parameters year scenario) = []
  /\ Py.printed (apply_climate_scenarios year scenario region hazard_type) = []
  /\ Py.printed (Monolith_ClimateChangeModel.apply_climate_scenarios hazards year scenario)
     = [Monolith_ClimateChangeModel.unknown_scenario_warning scenario].
Proof.
  unfold known_pathway. intros Hk.
  assert (Hc : Py.contains scenario scenarios = false)
    by (destruct (Py.contains scenario scenarios); congruence).
  assert (Hr : resolve scenario = resolve "RCP4.5")
    by (rewrite (resolve_unknown _ Hc); reflexivity).
  repeat split.
  - unfold get_annual_climate_parameters. rewrite Hr. reflexivity.
  - unfold apply_climate_scenarios. rewrite Hr. reflexivity.
  - unfold get_annual_climate_parameters.
    destruct (decade_of year) as [[d p] f]. reflexivity.
  - unfold Monolith_ClimateChangeModel.apply_climate_scenarios. rewrite Hc. reflexivity.
Qed.

Lemma unknown_pathway_falls_back_silently_witness :
  Py.value (get_annual_climate_parameters 2035 "SSP2-4.5")
    = Py.value (get_annual_climate_parameters 2035 "RCP4.5")
  /\ Py.printed (get_annual_climate_parameters 2035 "SSP2-4.5") = []
  /\ Py.printed (Monolith_ClimateChangeModel.apply_climate_scenarios
                   ["flood"] 2035 "SSP2-4.5")
     = ["Warning: Unknown climate scenario 'SSP2-4.5'. Using RCP4.5 as default."].
Proof.
  destruct (unknown_pathway_falls_back_silently 2035 "SSP2-4.5" "coastal" "flood" ["flood"])
    as (H1 & _ & H3 & _ & H5).
  - unfold known_pathway. vm_compute. discriminate.
  - split; [rewrite H1; reflexivity | split; [exact H3 | exact H5]].
Defined.
End ClimateClaims.

(** ** Claims on the hazard event generator *)

Section HazardClaims.
Import Generator HazardModel HazardSpec.

Variable np_log : Q -> Q.
Variable gamma_ppf : Q -> Q -> Q -> Q.

Lemma div_nonzero (x y : Q) : ~ y == 0 -> Py.div x y = Py.Ok (x / y).
Proof.
  intros Hy. unfold Py.div.
  destruct (Qeq_bool y 0) eqn:E; [apply Qeq_bool_eq in E; contradiction | reflexivity].
Qed.

Lemma div_zero (x y : Q) : y == 0 -> Py.div x y = Py.Raise Py.ZeroDivisionError.
Proof.
  intros Hy. unfold Py.div. apply Qeq_eq_bool in Hy. rewrite Hy. reflexivity.
Qed.

Lemma one_dot_zero : 1.0 == 1.
Proof. reflexivity. Qed.

Lemma annual_prob_value (return_period fm : Q) :
  ~ return_period == 0 ->
  annual_prob return_period fm = Py.Ok (1.0 / return_period * fm).
Proof.
  intros H. unfold annual_prob. rewrite (div_nonzero _ _ H). reflexivity.
Qed.

Lemma frequency_multiplier_value (effects : list (string * Q)) :
  effects <> [] ->
  frequency_multiplier (Some effects) == 1 + Py.get effects "frequency_change" 0.
Proof.
  intros H. destruct effects as [| e es]; [contradiction |].
  unfold frequency_multiplier, multiplier. lra.
Qed.

(** The sampler returns when no probability is negative and the
    probabilities sum to 1. *)
Lemma rv_discrete_returns {A : Type} (first : A) (p : Q) (rest : list (A * Q)) (g : state) :
  existsb (fun v => negb (Qle_bool 0 (snd v))) ((first, p) :: rest) = false ->
  allclose_one (Py.sumQ (map snd ((first, p) :: rest))) = true ->
  rv_discrete ((first, p) :: rest) g
  = Py.Ok (match inverse_cdf ((first, p) :: rest) 0 (draws g (pos g)) with
           | Some x => x
           | None => first
           end, snd (next g)).
Proof.
  intros Hneg Hsum. unfold rv_discrete. rewrite Hneg, Hsum. reflexivity.
Qed.

Lemma rv_discrete_rejects {A : Type} (values : list (A * Q)) (g : state) :
  allclose_one (Py.sumQ (map snd values)) = false ->
  rv_discrete values g = Py.Raise Py.ValueError.
Proof.
  intros Hsum. unfold rv_discrete. destruct values as [| [first p] rest]; [reflexivity |].
  rewrite Hsum. destruct (existsb _ _); reflexivity.
Qed.

(** The cyclone month weights sum to 0.71: the sampler rejects them. *)
Lemma cyclone_month_rejected (self : t) (g : state) :
  hazard_type self = "cyclone" ->
  _sample_month_from_profile self g = Py.Raise Py.ValueError.
Proof.
  intros H. unfold _sample_month_from_profile. rewrite H.
  cbn [String.eqb Ascii.eqb Bool.eqb].
  apply rv_discrete_rejects. vm_compute. reflexivity.
Qed.

(** The weights of the other profiles sum to 1: a month is drawn with one
    variate. *)
Lemma month_sampled (self : t) (g : state) :
  hazard_type self <> "cyclone" ->
  exists month, _sample_month_from_profile self g = Py.Ok (month, snd (next g)).
Proof.
  intros H. apply String.eqb_neq in H. unfold _sample_month_from_profile. rewrite H.
  destruct (hazard_type self =? "flood");
    [destruct (seasonal_profile self =? "monsoon") |];
    eexists; apply rv_discrete_returns; vm_compute; reflexivity.
Qed.

Lemma track_sampled (g : state) :
  exists track, _sample_from_dict track_probability g = Py.Ok (track, snd (next g)).
Proof.
  eexists. apply rv_discrete_returns; vm_compute; reflexivity.
Qed.

Lemma attributes_added (self : t) (month : Z) (intensity : Q) (g : state) :
  exists attributes g',
    _add_hazard_specific_attributes np_log gamma_ppf self month intensity g
    = Py.Ok (attributes, g').
Proof.
  unfold _add_hazard_specific_attributes.
  destruct (hazard_type self =? "flood").
  - destruct (if _ =? "riverine" then _ else _) as [duration g1]. eauto.
  - destruct (hazard_type self =? "cyclone"); [| eauto].
    destruct (track_sampled g) as [track ->]. cbn [Py.bind].
    destruct (gamma_rvs _ _ _ _) as [duration g2]. eauto.
Qed.

Lemma single_return_period_event (self : t) (year : Z)
  (climate_effects : option (list (string * Q))) (rp : Q) (g : state) :
  return_periods self = [rp] ->
  ~ rp == 0 ->
  draws g (pos g) < 1.0 / rp * frequency_multiplier climate_effects ->
  if hazard_type self =? "cyclone" then
    generate_events np_log gamma_ppf self year climate_effects g = Py.Raise Py.ValueError
  else
    exists ev g',
      generate_events np_log gamma_ppf self year climate_effects g = Py.Ok ([ev], g').
Proof.
  intros Hrps Hrp Hu.
  destruct (String.eqb_spec (hazard_type self) "cyclone") as [Hc | Hc];
    unfold generate_events; rewrite Hrps; cbn [generate_loop];
    unfold generate_event; rewrite (annual_prob_value _ _ Hrp); cbn [Py.bind];
    unfold next at 1;
    (destruct (Qlt_le_dec _ _) as [_ | Hle]; [| exfalso; lra]).
  - rewrite (cyclone_month_rejected self {| draws := draws g; pos := S (pos g) |} Hc).
    reflexivity.
  - destruct (month_sampled self {| draws := draws g; pos := S (pos g) |} Hc) as [month ->].
    cbn [Py.bind].
    destruct (attributes_added self month
                (_intensity_from_return_period np_log self rp
                 * intensity_multiplier climate_effects)
                (snd (next {| draws := draws g; pos := S (pos g) |})))
      as (attributes & g3 & ->).
    cbn. eauto.
Qed.



End HazardClaims.

(** ** Claims on reproducible runs *)

Section RunnerClaims.
Import Generator HazardModel SimulationRunner RunnerSpec.

Variable np_log : Q -> Q.
Variable gamma_ppf : Q -> Q -> Q -> Q.

Lemma init_with_seed (seed : Z) (g : state) :
  exists runner,
    __init__ (seeded seed) g = Py.Ok (runner, g)
    /\ seed_of runner = Some (Num (inject_Z seed))
    /\ stubs runner = true
    /\ Py.lookup "climate" (config runner) = Py.lookup "climate" default_config.
Proof.
  eexists. split; [reflexivity |]. repeat split.
Qed.

Lemma init_default (g : state) :
  exists runner,
    __init__ None g = Py.Ok (runner, g)
    /\ seed_of runner = Some (Num 42)
    /\ stubs runner = true
    /\ Py.lookup "climate" (config runner) = Py.lookup "climate" default_config.
Proof.
  eexists. split; [reflexivity |]. repeat split.
Qed.

Lemma init_keeps_generator (user_config : option (list (string * value)))
  (g g' : state) (runner : t) :
  __init__ user_config g = Py.Ok (runner, g') -> g' = g.
Proof.
  unfold __init__. intros H.
  destruct (block _ "simulation"); [| discriminate]. cbn [Py.bind] in H.
  destruct (block _ "spatial"); [| discriminate]. cbn [Py.bind] in H.
  destruct (_initialize_models _); [| discriminate]. cbn [Py.bind] in H.
  injection H as _ <-. reflexivity.
Qed.

Lemma climate_scenario_of_config (r1 r2 : t) (scenario : string) :
  Py.lookup "climate" (config r1) = Py.lookup "climate" (config r2) ->
  _initialize_climate_scenario r1 scenario = _initialize_climate_scenario r2 scenario.
Proof.
  intros H. unfold _initialize_climate_scenario, Py.item. rewrite H. reflexivity.
Qed.

Lemma first_hazards_ignore_seed (seed : Z) (scenario region : string) (year : Z) (g : state) :
  first_hazards (seeded seed) scenario region year g
  = first_hazards None scenario region year g.
Proof.
  unfold first_hazards.
  destruct (init_with_seed seed g) as (r1 & -> & _ & _ & H1).
  destruct (init_default g) as (r2 & -> & _ & _ & H2).
  cbn [Py.bind].
  rewrite (climate_scenario_of_config r1 r2 scenario) by congruence. reflexivity.
Qed.

Lemma first_events_ignore_seed (seed : Z) (hazard : HazardModel.t) (year : Z) (g : state) :
  first_events np_log gamma_ppf (seeded seed) hazard year g
  = first_events np_log gamma_ppf None hazard year g.
Proof.
  unfold first_events.
  destruct (init_with_seed seed g) as (r1 & -> & _).
  destruct (init_default g) as (r2 & -> & _).
  reflexivity.
Qed.


End RunnerClaims.



(** ** Claims on the evolving exposure *)

Section ExposureUpdateClaims.
Import ExposureModel Monolith_ExposureModel ExposureSpec.

Lemma bind_ok {A B : Type} (m : Py.result A) (f : A -> Py.result B) (b : B) :
  Py.bind m f = Py.Ok b -> exists a, m = Py.Ok a /\ f a = Py.Ok b.
Proof.
  destruct m as [a | e]; cbn; [eauto | discriminate].
Qed.

Lemma update_exposure_building_types (self self' : t) (year : Z) (rcc semi kutcha jhupri : Q) :
  building_types self
  = [("RCC", rcc); ("semi_pucca", semi); ("kutcha", kutcha); ("jhupri", jhupri)] ->
  update_exposure self year = Py.Ok self' ->
  let rcc_increase := inject_Z (year - 2025) * 0.003 in
  building_types self'
  = [("RCC", Qmin (rcc + rcc_increase) 0.35);
     ("semi_pucca", semi - rcc_increase / 2);
     ("kutcha", kutcha - rcc_increase / 2);
     ("jhupri", jhupri)].
Proof.
  intros Hbt Hup. unfold update_exposure in Hup. rewrite Hbt in Hup.
  cbn [modify Py.item Py.lookup String.eqb Ascii.eqb Bool.eqb Py.bind Py.set] in Hup.
  repeat (apply bind_ok in Hup; destruct Hup as (? & _ & Hup)).
  injection Hup as <-. reflexivity.
Qed.

(** One call of [update_exposure] on the four building types: the sum of
    the fractions is kept while the RCC share stays below its cap of 0.35,
    and drops by the excess once the cap binds, because the other two
    shares are still reduced by the full increase. *)
Lemma building_fractions_after_update (self self' : t) (year : Z)
  (rcc semi kutcha jhupri : Q) :
  building_types self
  = [("RCC", rcc); ("semi_pucca", semi); ("kutcha", kutcha); ("jhupri", jhupri)] ->
  update_exposure self year = Py.Ok self' ->
  let rcc_increase := inject_Z (year - 2025) * 0.003 in
  (rcc + rcc_increase <= 0.35 ->
   building_fraction_sum self' == building_fraction_sum self)
  /\ (0.35 < rcc + rcc_increase ->
      building_fraction_sum self'
      == building_fraction_sum self - (rcc + rcc_increase - 0.35)).
Proof.
  intros Hbt Hup inc.
  pose proof (update_exposure_building_types _ _ _ _ _ _ _ Hbt Hup) as Hbt'.
  cbv zeta in Hbt'. fold inc in Hbt'.
  unfold building_fraction_sum, Py.sumQ. rewrite Hbt, Hbt'. cbn [map snd fold_left].
  split; intros Hcap.
  - rewrite (proj2 (Q.min_l_iff _ _) Hcap). field.
  - rewrite (proj2 (Q.min_r_iff _ _)) by lra. field.
Qed.

(** C5 (the code departs from the claim).  Starting from the constructor's
    state, annual updates for 2026..2036 keep the building fractions summing
    to 1; the update for 2037 leaves the sum at 0.966; after 2043 the
    semi_pucca fraction is negative; after 2050 the sum is 0.225.  A single
    update for the year 2095 gives 0.99. *)
Theorem building_fractions_drift :
  (exists s, update_years fresh (year_range 2026 2036) = Py.Ok s
             /\ building_fraction_sum s == 1)
  /\ (exists s, update_years fresh (year_range 2026 2037) = Py.Ok s
                /\ building_fraction_sum s == 0.966)
  /\ (exists s, update_years fresh (year_range 2026 2043) = Py.Ok s
                /\ Py.get (building_types s) "semi_pucca" 0 < 0)
  /\ (exists s, update_years fresh (year_range 2026 2050) = Py.Ok s
                /\ building_fraction_sum s == 0.225)
  /\ (exists s, update_exposure fresh 2095 = Py.Ok s
                /\ building_fraction_sum s == 0.99).
Proof.
  repeat split; eexists; (split; [vm_compute; reflexivity | vm_compute; reflexivity]).
Qed.
End ExposureUpdateClaims.

(** ** Truncation and sums *)

Section Arithmetic.

Lemma py_int_floor (x : Q) : 0 <= x -> Py.py_int x = Qfloor x.
Proof.
  destruct x as [n d]. unfold Qle, Py.py_int, Qfloor. cbn. intros H.
  apply Z.quot_div_nonneg; lia.
Qed.

Lemma py_int_nonneg (x : Q) : 0 <= x -> (0 <= Py.py_int x)%Z.
Proof.
  intros H. rewrite (py_int_floor x H).
  change 0%Z with (Qfloor 0). apply Qfloor_resp_le. exact H.
Qed.

Lemma py_int_le (x : Q) : 0 <= x -> inject_Z (Py.py_int x) <= x.
Proof.
  intros H. rewrite (py_int_floor x H). apply Qfloor_le.
Qed.

Lemma py_int_le_bound (x b : Q) : 0 <= x -> x <= b -> inject_Z (Py.py_int x) <= b.
Proof.
  intros H0 Hb. apply Qle_trans with x; [apply py_int_le; exact H0 | exact Hb].
Qed.

Lemma py_int_le_Z (x : Q) (n : Z) : 0 <= x -> x <= inject_Z n -> (Py.py_int x <= n)%Z.
Proof.
  intros H0 Hn. rewrite (py_int_floor x H0).
  rewrite <- (Qfloor_Z n). apply Qfloor_resp_le. exact Hn.
Qed.

Lemma sumQ_from (xs : list Q) (a : Q) : fold_left Qplus xs a == a + Py.sumQ xs.
Proof.
  unfold Py.sumQ. revert a. induction xs as [| x xs IH]; intros a; cbn.
  - ring.
  - rewrite IH. rewrite (IH (0 + x)). ring.
Qed.

Lemma sumQ_cons (x : Q) (xs : list Q) : Py.sumQ (x :: xs) == x + Py.sumQ xs.
Proof.
  unfold Py.sumQ at 1. cbn. rewrite sumQ_from. ring.
Qed.

Lemma sumQ_app (xs ys : list Q) : Py.sumQ (xs ++ ys) == Py.sumQ xs + Py.sumQ ys.
Proof.
  induction xs as [| x xs IH]; cbn [app].
  - unfold Py.sumQ at 2. cbn. ring.
  - rewrite !sumQ_cons, IH. ring.
Qed.

Lemma sumQ_nonneg (xs : list Q) : Forall (Qle 0) xs -> 0 <= Py.sumQ xs.
Proof.
  induction 1 as [| x xs Hx _ IH].
  - unfold Py.sumQ. cbn. lra.
  - rewrite sumQ_cons. lra.
Qed.

Lemma sumQ_map_perm {A : Type} (f : A -> Q) (l l' : list A) :
  Permutation l l' -> Py.sumQ (map f l) == Py.sumQ (map f l').
Proof.
  induction 1; cbn [map].
  - reflexivity.
  - rewrite !sumQ_cons, IHPermutation. reflexivity.
  - rewrite !sumQ_cons. ring.
  - rewrite IHPermutation1. exact IHPermutation2.
Qed.

Lemma sumZ_from (xs : list Z) (a : Z) : fold_left Z.add xs a = (a + Py.sumZ xs)%Z.
Proof.
  unfold Py.sumZ. revert a. induction xs as [| x xs IH]; intros a; cbn.
  - lia.
  - rewrite IH. rewrite (IH x). lia.
Qed.

Lemma sumZ_cons (x : Z) (xs : list Z) : Py.sumZ (x :: xs) = (x + Py.sumZ xs)%Z.
Proof.
  unfold Py.sumZ at 1. cbn. rewrite sumZ_from. lia.
Qed.

End Arithmetic.


(** ** Claims on the exposure calculator *)

Section ExposureClaims.
Import Generator ExposureModel ExposureSpec.

Variable permutation : nat -> state -> list nat * state.
Hypothesis permutation_shuffles : shuffles permutation.

Lemma clamp_range (x lo hi : Q) : lo <= hi -> lo <= clamp x lo hi /\ clamp x lo hi <= hi.
Proof.
  intros H. unfold clamp. split.
  - apply Q.min_glb; [apply Q.le_max_r | exact H].
  - apply Q.le_min_r.
Qed.

Lemma exposure_ratio_in_range (fp : list (string * HazardModel.attr)) :
  ratio_in_range fp (exposure_ratio_of fp).
Proof.
  unfold ratio_in_range, exposure_ratio_of.
  destruct (footprint_type fp =? "riverine"); [apply clamp_range; discriminate |].
  destruct (footprint_type fp =? "coastal"); [apply clamp_range; discriminate |].
  reflexivity.
Qed.

Lemma exposure_ratio_bounds (fp : list (string * HazardModel.attr)) :
  0.1 <= exposure_ratio_of fp /\ exposure_ratio_of fp <= 0.5.
Proof.
  unfold exposure_ratio_of.
  destruct (footprint_type fp =? "riverine"); [apply clamp_range; discriminate |].
  destruct (footprint_type fp =? "coastal").
  - destruct (clamp_range (inject_Z (Z.of_nat (affected_count fp "affected_coast")) / 3)
                          0.1 0.4) as [H1 H2]; [discriminate |].
    split; [exact H1 | lra].
  - split; [apply Qle_refl | discriminate].
Qed.

Lemma map_nth_seq (values : list Q) :
  map (fun i => nth i values 0) (seq 0 (List.length values)) = values.
Proof.
  induction values as [| v values IH]; cbn [List.length seq map nth]; [reflexivity |].
  f_equal. rewrite <- seq_shift, map_map. exact IH.
Qed.

Lemma nth_nonneg (values : list Q) (i : nat) : Forall (Qle 0) values -> 0 <= nth i values 0.
Proof.
  intros H. revert i. induction H as [| v values Hv _ IH]; intros [| i]; cbn; try lra.
  apply IH.
Qed.

Lemma firstn_skipn_perm (p : list nat) (n k : nat) :
  Permutation p (seq 0 n) -> Permutation (seq 0 n) (firstn k p ++ skipn k p).
Proof.
  intros H. rewrite firstn_skipn. apply Permutation_sym. exact H.
Qed.

Lemma sum_at_bounds (values : list Q) (n k : nat) (p : list nat) :
  List.length values = n ->
  Forall (Qle 0) values ->
  Permutation p (seq 0 n) ->
  let indices := firstn k p in
  0 <= sum_at values indices /\ sum_at values indices <= Py.sumQ values.
Proof.
  intros Hlen Hpos Hp indices.
  pose proof (firstn_skipn_perm p n k Hp) as Hperm. fold indices in Hperm.
  assert (Hall : forall l, Forall (Qle 0) (map (fun i => nth i values 0) l)).
  { intros l. apply Forall_forall. intros q Hq. apply in_map_iff in Hq.
    destruct Hq as (i & <- & _). apply nth_nonneg. exact Hpos. }
  unfold sum_at. split; [apply sumQ_nonneg; apply Hall |].
  assert (E : Py.sumQ values == Py.sumQ (map (fun i => nth i values 0) (seq 0 n)))
    by (rewrite <- Hlen, map_nth_seq; reflexivity).
  rewrite E, (sumQ_map_perm _ _ _ Hperm), map_app, sumQ_app.
  pose proof (sumQ_nonneg _ (Hall (skipn k p))). lra.
Qed.

Lemma map_items_within (f : string -> Q -> Q) (bound : string -> Q -> Q)
  (d : list (string * Q)) :
  Forall (fun kv => 0 <= f (fst kv) (snd kv) /\ f (fst kv) (snd kv) <= bound (fst kv) (snd kv)) d ->
  within (map_items f d) (map (fun kv => (fst kv, bound (fst kv) (snd kv))) d).
Proof.
  unfold within, map_items.
  induction 1 as [| kv d [H0 Hb] _ IH]; cbn [map]; constructor; [| exact IH].
  cbn [fst snd]. split; [reflexivity |]. apply py_int_le_bound; assumption.
Qed.

Lemma map_identity (d : list (string * Q)) : map (fun kv => (fst kv, snd kv)) d = d.
Proof.
  induction d as [| [k v] d IH]; cbn; [reflexivity | now rewrite IH].
Qed.


Lemma scaled_within (c r : Q) : 0 <= c -> 0 <= r -> r <= 1 -> 0 <= c * r /\ c * r <= c.
Proof. intros. split; nra. Qed.

Lemma scaled_twice_within (c r f : Q) :
  0 <= c -> 0 <= r -> r <= 0.5 -> 0 <= f -> f <= 1.2 -> 0 <= c * r * f /\ c * r * f <= c.
Proof.
  intros Hc Hr0 Hr Hf0 Hf.
  assert (0 <= r * f) by nra.
  assert (r * f <= 1) by nra.
  assert (E : c * r * f == c * (r * f)) by ring.
  rewrite E. apply scaled_within; assumption.
Qed.

Lemma crop_exposure_range (ratio : Q) (crop_type : string) :
  0.1 <= ratio -> ratio <= 0.5 ->
  0 <= crop_exposure ratio crop_type /\ crop_exposure ratio crop_type <= 1.
Proof.
  intros H1 H2. unfold crop_exposure.
  destruct (Py.substring_in "rice" crop_type); [split; lra |].
  destruct (Py.substring_in "aquaculture" crop_type); split; lra.
Qed.

Lemma random_choice_returns (n : nat) (ratio : Q) (g : state) :
  0 <= ratio -> ratio <= 1 ->
  let size := Py.py_int (inject_Z (Z.of_nat n) * ratio) in
  random_choice permutation n size g
  = Py.Ok (firstn (Z.to_nat size) (fst (permutation n g)), snd (permutation n g)).
Proof.
  intros H0 H1 size.
  assert (Hn : 0 <= inject_Z (Z.of_nat n))
    by (change 0 with (inject_Z 0); rewrite <- Zle_Qle; lia).
  destruct (scaled_within _ _ Hn H0 H1) as [Hlo Hhi].
  pose proof (py_int_nonneg _ Hlo) as Hs0.
  pose proof (py_int_le_Z _ _ Hlo Hhi) as Hs1. fold size in Hs0, Hs1.
  unfold random_choice.
  destruct (Z.ltb_spec size 0); [lia |].
  destruct (Z.ltb_spec (Z.of_nat n) size); [lia |].
  cbn [orb]. destruct (permutation n g). reflexivity.
Qed.

Lemma exposed_buildings_within (self : t) (gdf : GeoDataFrame) (total_exposed : Q) :
  nonneg_values (building_types self) ->
  0 <= total_exposed -> total_exposed <= Py.sumQ (building_count gdf) ->
  within (map_items (fun _ ratio => total_exposed * ratio) (building_types self))
         (building_stock self gdf).
Proof.
  intros Hbt H0 H1. unfold building_stock.
  apply (map_items_within (fun _ ratio => total_exposed * ratio)
                          (fun _ ratio => Py.sumQ (building_count gdf) * ratio)).
  eapply Forall_impl; [| exact Hbt]. cbn beta. intros [k v] Hv. cbn [fst snd] in *.
  split; nra.
Qed.

Lemma exposed_stock_within (f : string -> Q -> Q) (d : list (string * Q)) :
  nonneg_values d ->
  (forall k v, 0 <= v -> 0 <= f k v /\ f k v <= v) ->
  within (map_items f d) d.
Proof.
  intros Hd Hf.
  rewrite <- (map_identity d) at 2.
  apply (map_items_within f (fun _ v => v)).
  eapply Forall_impl; [| exact Hd]. cbn beta. intros [k v] Hv. apply Hf. exact Hv.
Qed.


Lemma module_exposure_within_stock (self : t) (gdf : GeoDataFrame)
  (fp : list (string * HazardModel.attr)) (g : state) :
  Py.lookup (admin_level self) (admin_boundaries self) = Some gdf ->
  exists exposed g',
    get_exposed_elements permutation self fp g = Py.Ok (exposed, g')
    /\ ratio_in_range fp (x_exposure_ratio exposed)
    /\ (plausible_stock self gdf ->
        x_population exposed <= Py.sumQ (population gdf)
        /\ within (x_buildings exposed) (building_stock self gdf)
        /\ within (x_infrastructure exposed) (critical_facilities self)
        /\ within (x_agriculture exposed) (agricultural_data self)).
Proof.
  intros Hgdf.
  destruct (exposure_ratio_bounds fp) as [Hr1 Hr2].
  unfold get_exposed_elements, Py.item. rewrite Hgdf. cbn [Py.bind].
  rewrite random_choice_returns by lra. cbn [Py.bind].
  set (k := Z.to_nat _).
  eexists. eexists. split; [reflexivity |].
  cbn [x_exposure_ratio x_population x_buildings x_infrastructure x_agriculture].
  split; [apply exposure_ratio_in_range |].
  intros Hstock.
  pose proof (rearranges _ permutation_shuffles (num_units gdf) g) as Hperm.
  pose proof (sum_at_bounds _ _ k _ (population_size _ _ Hstock)
                            (population_nonneg _ _ Hstock) Hperm) as Hpop.
  pose proof (sum_at_bounds _ _ k _ (building_count_size _ _ Hstock)
                            (building_count_nonneg _ _ Hstock) Hperm) as Hbld.
  cbv zeta in Hpop, Hbld.
  split; [apply Hpop |].
  split; [apply exposed_buildings_within;
          [apply (building_types_nonneg _ _ Hstock) | apply Hbld | apply Hbld] |].
  split.
  - apply exposed_stock_within; [apply (critical_facilities_nonneg _ _ Hstock) |].
    intros _ v Hv.
    assert (E : v * exposure_ratio_of fp * 0.8 == v * (exposure_ratio_of fp * 0.8)) by ring.
    rewrite E. apply scaled_within; lra.
  - apply exposed_stock_within; [apply (agricultural_data_nonneg _ _ Hstock) |].
    intros crop v Hv.
    destruct (crop_exposure_range (exposure_ratio_of fp) crop Hr1 Hr2).
    apply scaled_within; assumption.
Qed.

Lemma unit_interval_next (g : state) : unit_interval g -> unit_interval (snd (next g)).
Proof. intros H n. apply (H n). Qed.

Lemma exposed_critical_within (ratio : Q) (d : list (string * Q)) (g : state) :
  0 <= ratio -> ratio <= 0.5 ->
  nonneg_values d -> unit_interval g ->
  within (fst (Monolith_ExposureModel.exposed_critical ratio d g)) d.
Proof.
  intros Hr0 Hr1 Hd. revert g.
  induction Hd as [| [k v] d Hv _ IH]; intros g Hg; cbn [Monolith_ExposureModel.exposed_critical].
  - constructor.
  - unfold Monolith_ExposureModel.uniform.
    pose proof (Hg (pos g)) as [Hu0 Hu1].
    pose proof (unit_interval_next g Hg) as Hg1.
    unfold next in *. cbn [snd] in Hg1.
    specialize (IH _ Hg1).
    destruct (Monolith_ExposureModel.exposed_critical ratio d _) as [others g2].
    cbn [fst] in *. constructor; [| exact IH].
    cbn [fst snd] in *. split; [reflexivity |].
    destruct (scaled_twice_within v ratio (0.8 + (1.2 - 0.8) * draws g (pos g)))
      as [H0 H1]; try lra.
    apply py_int_le_bound; assumption.
Qed.

Lemma monolith_crop_exposure_range (hazard_type : string) (ratio : Q) (crop_type : string) :
  0.1 <= ratio -> ratio <= 0.5 ->
  0 <= Monolith_ExposureModel.crop_exposure_ratio hazard_type ratio crop_type
  /\ Monolith_ExposureModel.crop_exposure_ratio hazard_type ratio crop_type <= 1.
Proof.
  intros H1 H2. unfold Monolith_ExposureModel.crop_exposure_ratio.
  destruct (_ && _); split;
    first [ apply Q.min_glb; lra
          | eapply Qle_trans; [apply Q.le_min_r | lra] ].
Qed.

Lemma monolith_exposure_within_stock (self : t) (gdf : GeoDataFrame)
  (fp : list (string * HazardModel.attr)) (g : state) :
  Py.lookup (admin_level self) (admin_boundaries self) = Some gdf ->
  unit_interval g ->
  exists exposed g',
    Monolith_ExposureModel.get_exposed_elements permutation self fp g = Py.Ok (exposed, g')
    /\ ratio_in_range fp (Monolith_ExposureModel.x_exposure_ratio exposed)
    /\ (plausible_stock self gdf ->
        Monolith_ExposureModel.x_population exposed <= Py.sumQ (population gdf)
        /\ within (Monolith_ExposureModel.x_buildings exposed) (building_stock self gdf)
        /\ within (Monolith_ExposureModel.x_critical_infrastructure exposed)
                  (critical_facilities self)
        /\ within (Monolith_ExposureModel.x_agriculture exposed) (agricultural_data self)).
Proof.
  intros Hgdf Hg.
  destruct (exposure_ratio_bounds fp) as [Hr1 Hr2].
  unfold Monolith_ExposureModel.get_exposed_elements, Py.item. rewrite Hgdf. cbn [Py.bind].
  rewrite random_choice_returns by lra. cbn [Py.bind].
  set (k := Z.to_nat _).
  pose proof (keeps_unit_interval _ permutation_shuffles (num_units gdf) g Hg) as Hg1.
  destruct (Monolith_ExposureModel.exposed_critical _ _ _) as [critical g2] eqn:Ecrit.
  eexists. exists g2. split; [reflexivity |].
  cbn [Monolith_ExposureModel.x_exposure_ratio Monolith_ExposureModel.x_population
       Monolith_ExposureModel.x_buildings Monolith_ExposureModel.x_critical_infrastructure
       Monolith_ExposureModel.x_agriculture].
  split; [apply exposure_ratio_in_range |].
  intros Hstock.
  pose proof (rearranges _ permutation_shuffles (num_units gdf) g) as Hperm.
  pose proof (sum_at_bounds _ _ k _ (population_size _ _ Hstock)
                            (population_nonneg _ _ Hstock) Hperm) as Hpop.
  pose proof (sum_at_bounds _ _ k _ (building_count_size _ _ Hstock)
                            (building_count_nonneg _ _ Hstock) Hperm) as Hbld.
  cbv zeta in Hpop, Hbld.
  pose proof (exposed_critical_within (exposure_ratio_of fp) _ _ ltac:(lra) Hr2
                (critical_facilities_nonneg _ _ Hstock) Hg1) as Hcrit.
  rewrite Ecrit in Hcrit. cbn [fst] in Hcrit.
  split; [apply Hpop |].
  split; [apply exposed_buildings_within;
          [apply (building_types_nonneg _ _ Hstock) | apply Hbld | apply Hbld] |].
  split; [exact Hcrit |].
  apply exposed_stock_within; [apply (agricultural_data_nonneg _ _ Hstock) |].
  intros crop v Hv.
  destruct (monolith_crop_exposure_range (footprint_type fp) (exposure_ratio_of fp) crop
              Hr1 Hr2).
  apply scaled_within; assumption.
Qed.


Lemma replay_unit_interval (xs : list Q) (rest : Q) :
  Forall (fun x => 0 <= x /\ x < 1) xs -> 0 <= rest /\ rest < 1 ->
  unit_interval (replay xs rest).
Proof.
  intros Hxs Hrest n. unfold replay, draws. revert n.
  induction Hxs as [| x xs Hx _ IH]; intros [| n]; cbn [nth]; auto.
Qed.

Lemma within_lookup (exposed : list (string * Z)) (stock : list (string * Q))
  (k : string) (count : Z) (quantity : Q) :
  within exposed stock ->
  Py.lookup k exposed = Some count -> Py.lookup k stock = Some quantity ->
  inject_Z count <= quantity.
Proof.
  unfold within. induction 1 as [| [k1 c1] [k2 q2] exposed stock [Hk Hle] _ IH];
    cbn [Py.lookup]; [discriminate |].
  cbn [fst snd] in Hk, Hle. subst k2.
  destruct (k =? k1); [| exact IH].
  intros [= <-] [= <-]. exact Hle.
Qed.


End ExposureClaims.

Ltac forall_by_computation :=
  repeat first [ apply Forall_nil
               | apply Forall_cons; [first [ split; vm_compute; congruence
                                           | vm_compute; congruence ] |] ].

Lemma fixed_permutation_shuffles : ExposureSpec.shuffles Fixed.permutation.
Proof.
  constructor.
  - intros n g. unfold Fixed.permutation. cbn [fst].
    apply Permutation_sym, Permutation_rev.
  - intros n g Hg. unfold Fixed.permutation. cbn [snd].
    intros i. apply (Hg i).
Qed.

Lemma example_stock_plausible :
  ExposureSpec.plausible_stock ExposureExample.model ExposureExample.divisions.
Proof.
  constructor; try reflexivity; unfold ExposureSpec.nonneg_values; forall_by_computation.
Qed.



(** ** Claims on the damage engine *)

Section DamageClaims.
Import Generator VulnerabilityModel DamageSpec.

Variable fpow : Q -> Q -> Q.
Variable gamma_ppf : Q -> Q -> Q -> Q.

Lemma truncated_shares_within (population f i d : Q) :
  0 <= population -> 0 <= f -> 0 <= i -> 0 <= d -> f + i + d <= 1 ->
  inject_Z (Py.py_int (population * f) + Py.py_int (population * i)
            + Py.py_int (population * d))
  <= population.
Proof.
  intros Hp Hf Hi Hd Hsum.
  rewrite !inject_Z_plus.
  assert (0 <= population * f) by nra.
  assert (0 <= population * i) by nra.
  assert (0 <= population * d) by nra.
  pose proof (py_int_le (population * f)).
  pose proof (py_int_le (population * i)).
  pose proof (py_int_le (population * d)).
  nra.
Qed.

(** C1 (corrected).  For every damage assessment [calculate_damages]
    returns from an exposure snapshot with a positive exposed building count
    and a non-negative exposed population, the casualty counts are the
    hazard-specific rates multiplied by the exposed population and truncated
    ([int]), with no cap; deaths + injuries + displaced is at most the
    exposed population whenever the three rates are non-negative and sum to
    at most 1. *)
Theorem casualties_are_uncapped_shares
  (exposed_elements : Monolith_ExposureModel.Exposed) (hazard_event : HazardModel.Event)
  (g g' : state) (damages : Damages) :
  (0 < exposed_building_count exposed_elements)%Z ->
  0 <= Monolith_ExposureModel.x_population exposed_elements ->
  calculate_damages fpow gamma_ppf exposed_elements hazard_event g = Py.Ok (damages, g') ->
  let population := Monolith_ExposureModel.x_population exposed_elements in
  exists intensity overall_damage_ratio fatality_rate injury_rate displacement_rate,
    intensity_of (HazardModel.ev_type hazard_event) hazard_event = Py.Ok intensity
    /\ casualty_rates fpow (HazardModel.ev_type hazard_event) hazard_event intensity
                      overall_damage_ratio
       = Py.Ok (fatality_rate, injury_rate, displacement_rate)
    /\ d_casualties damages
       = {| deaths := Py.py_int (population * fatality_rate);
            injuries := Py.py_int (population * injury_rate);
            displaced := Py.py_int (population * displacement_rate) |}
    /\ (0 <= fatality_rate -> 0 <= injury_rate -> 0 <= displacement_rate ->
        fatality_rate + injury_rate + displacement_rate <= 1 ->
        inject_Z (casualty_total (d_casualties damages)) <= population).
Proof.
  intros Hcount Hpop Hcalc population.
  unfold calculate_damages in Hcalc.
  apply bind_ok in Hcalc. destruct Hcalc as (intensity & Hint & Hcalc).
  apply bind_ok in Hcalc. destruct Hcalc as (casualties & Hcas & Hcalc).
  destruct (infrastructure_damages _ _ _ _ _ _ _ _) as [[infra disruption] g1].
  injection Hcalc as <- _.
  cbn [d_casualties].
  unfold casualties_of in Hcas.
  unfold exposed_building_count in Hcount.
  destruct (Z.ltb_spec 0 (Py.sumZ (map snd (Monolith_ExposureModel.x_buildings exposed_elements))));
    [| lia].
  apply bind_ok in Hcas. destruct Hcas as ([[f i] d] & Hrates & Hcas).
  injection Hcas as <-.
  eexists intensity, _, f, i, d.
  split; [exact Hint |]. split; [exact Hrates |]. split; [reflexivity |].
  intros Hf Hi Hd Hsum. unfold casualty_total. cbn [deaths injuries displaced].
  apply truncated_shares_within; assumption.
Qed.

End DamageClaims.

Lemma casualties_are_uncapped_shares_witness :
  exists damages g',
    VulnerabilityModel.calculate_damages Fixed.pow Fixed.gamma_ppf DamageExample.exposed
      (DamageExample.flood 2) DamageExample.generator
    = Py.Ok (damages, g')
    /\ VulnerabilityModel.d_casualties damages
       = {| VulnerabilityModel.deaths := 4;
            VulnerabilityModel.injuries := 15;
            VulnerabilityModel.displaced := 210 |}
    /\ inject_Z (DamageSpec.casualty_total (VulnerabilityModel.d_casualties damages))
       <= Monolith_ExposureModel.x_population DamageExample.exposed.
Proof.
  destruct (VulnerabilityModel.calculate_damages Fixed.pow Fixed.gamma_ppf DamageExample.exposed
              (DamageExample.flood 2) DamageExample.generator) as [[damages g'] | e] eqn:E;
    [| vm_compute in E; discriminate E].
  exists damages, g'. split; [reflexivity |].
  destruct (casualties_are_uncapped_shares Fixed.pow Fixed.gamma_ppf DamageExample.exposed
              (DamageExample.flood 2) DamageExample.generator g' damages)
    as (intensity & odr & f & i & d & Hint & Hrates & Hcas & Hsum).
  - vm_compute. reflexivity.
  - vm_compute. discriminate.
  - exact E.
  - injection Hint as <-. vm_compute in Hrates. injection Hrates as <- <- <-.
    split.
    + rewrite Hcas. vm_compute. reflexivity.
    + apply Hsum; vm_compute; discriminate.
Defined.

(** C1, counterexample.  A flood of depth 10 m over 1000 exposed people
    and 1000 exposed buildings: 100 deaths, 159 injuries and 1010 displaced,
    1269 in all.  The displacement rate alone is 0.01 + 0.1 * 10 = 1.01. *)
Lemma flood_casualties_exceed_population :
  exists damages g',
    VulnerabilityModel.calculate_damages Fixed.pow Fixed.gamma_ppf DamageExample.exposed
      (DamageExample.flood 10) DamageExample.generator
    = Py.Ok (damages, g')
    /\ VulnerabilityModel.d_casualties damages
       = {| VulnerabilityModel.deaths := 100;
            VulnerabilityModel.injuries := 159;
            VulnerabilityModel.displaced := 1010 |}
    /\ ~ inject_Z (DamageSpec.casualty_total (VulnerabilityModel.d_casualties damages))
         <= Monolith_ExposureModel.x_population DamageExample.exposed.
Proof.
  destruct (VulnerabilityModel.calculate_damages Fixed.pow Fixed.gamma_ppf DamageExample.exposed
              (DamageExample.flood 10) DamageExample.generator) as [[damages g'] | e] eqn:E;
    [| vm_compute in E; discriminate E].
  exists damages, g'. split; [reflexivity |].
  vm_compute in E. injection E as <- _.
  split; [reflexivity |]. vm_compute. intros H. apply H. reflexivity.
Qed.

(** The same input under any power function: the deaths and the displaced
    do not depend on it, and the displaced alone exceed the population. *)
Lemma deep_flood_casualties_for_every_power (fpow : Q -> Q -> Q) (gamma_ppf : Q -> Q -> Q -> Q) :
  exists damages g',
    VulnerabilityModel.calculate_damages fpow gamma_ppf DamageExample.exposed
      (DamageExample.flood 10) DamageExample.generator
    = Py.Ok (damages, g')
    /\ VulnerabilityModel.deaths (VulnerabilityModel.d_casualties damages) = 100%Z
    /\ VulnerabilityModel.displaced (VulnerabilityModel.d_casualties damages) = 1010%Z.
Proof.
  unfold VulnerabilityModel.calculate_damages.
  change (VulnerabilityModel.intensity_of
            (HazardModel.ev_type (DamageExample.flood 10)) (DamageExample.flood 10))
    with (@Py.Ok Q 10).
  cbn [Py.bind].
  set (buildings := VulnerabilityModel.building_damages _ _ _ _).
  assert (Hcas : exists i,
             VulnerabilityModel.casualties_of fpow
               (HazardModel.ev_type (DamageExample.flood 10)) (DamageExample.flood 10) 10
               DamageExample.exposed buildings
             = Py.Ok {| VulnerabilityModel.deaths := 100;
                        VulnerabilityModel.injuries := i;
                        VulnerabilityModel.displaced := 1010 |}).
  { eexists. unfold VulnerabilityModel.casualties_of.
    change (0 <? Py.sumZ (map snd (Monolith_ExposureModel.x_buildings DamageExample.exposed)))%Z
      with true.
    cbv iota beta zeta.
    change (VulnerabilityModel.casualty_rates fpow
              (HazardModel.ev_type (DamageExample.flood 10)) (DamageExample.flood 10) 10 ?r)
      with (@Py.Ok (Q * Q * Q)
              (0.0001 + 0.001 * VulnerabilityModel.sq 10, 0.001 + 0.005 * fpow 10 1.5,
               0.01 + 0.1 * 10)).
    cbn [Py.bind]. f_equal. }
  destruct Hcas as [i ->]. cbn [Py.bind].
  destruct (VulnerabilityModel.infrastructure_damages _ _ _ _ _ _ _ _) as [[infra disruption] g1].
  eexists. eexists. split; [reflexivity |]. split; reflexivity.
Qed.

(** ** Claims on the recovery projector: funding *)

Section FundingClaims.
Import RecoveryModel RecoverySpec.

Variable np_sqrt : Q -> Q.
Variable np_exp : Q -> Q.

Lemma horizon_from_rate_outcome (cap : Z) (rate : Q) :
  returns_or_divides_by_zero (horizon_from_rate cap rate).
Proof.
  unfold returns_or_divides_by_zero, horizon_from_rate, Py.div.
  destruct (Qeq_bool rate 0); cbn; eauto.
Qed.

Lemma housing_horizon_outcome (d : list (string * list (string * Q))) :
  returns_or_divides_by_zero (housing_horizon d).
Proof.
  unfold housing_horizon. destruct d; [left; eauto |].
  destruct (Qlt_le_dec _ _); [apply horizon_from_rate_outcome | left; eauto].
Qed.

Lemma infrastructure_horizon_outcome (d : list (string * list (string * Q))) :
  returns_or_divides_by_zero (infrastructure_horizon d).
Proof.
  unfold infrastructure_horizon. destruct d; [left; eauto |].
  destruct (Qlt_le_dec _ _); [apply horizon_from_rate_outcome | left; eauto].
Qed.

Lemma livelihoods_horizon_without_losses (dtype : Py.dtype) (d : list (string * Q)) :
  Py.get d "direct_losses" 0 + Py.get d "indirect_losses" 0 <= 0 ->
  livelihoods_horizon dtype d = Py.Ok 0%Z.
Proof.
  intros H. unfold livelihoods_horizon. destruct d; [reflexivity |].
  destruct (Qlt_le_dec _ _) as [Hlt | _]; [exfalso; lra | reflexivity].
Qed.

Lemma recovery_horizons_outcome (impacts : Impacts) :
  Py.get (economic impacts) "direct_losses" 0 + Py.get (economic impacts) "indirect_losses" 0
  <= 0 ->
  returns_or_divides_by_zero (_calculate_recovery_horizons impacts).
Proof.
  intros Hzero. unfold _calculate_recovery_horizons.
  destruct (housing_horizon_outcome (buildings impacts)) as [[h ->] | ->];
    [cbn [Py.bind] | right; reflexivity].
  destruct (infrastructure_horizon_outcome (infrastructure impacts)) as [[i ->] | ->];
    [cbn [Py.bind] | right; reflexivity].
  rewrite (livelihoods_horizon_without_losses _ _ Hzero). cbn [Py.bind].
  left. eauto.
Qed.

Lemma truediv_nonzero (dx dy : Py.dtype) (x y : Q) :
  ~ y == 0 -> Py.truediv dx x dy y = Py.Ok (Py.finite (x / y)).
Proof.
  intros Hy. unfold Py.truediv.
  destruct (Qeq_bool y 0) eqn:E; [apply Qeq_bool_eq in E; contradiction | reflexivity].
Qed.

Lemma truediv_python_zero (x y : Q) :
  y == 0 -> Py.truediv Py.python x Py.python y = Py.Raise Py.ZeroDivisionError.
Proof.
  intros Hy. unfold Py.truediv. apply Qeq_eq_bool in Hy. rewrite Hy. reflexivity.
Qed.

Lemma truediv_float64_zero (dx dy : Py.dtype) (x y : Q) :
  y == 0 -> Py.coerce dx dy = Py.float64 ->
  exists ratio,
    Py.truediv dx x dy y = Py.Ok ratio
    /\ (forall q, ratio <> Py.finite q)
    /\ (0 <= x -> Py.float_lt ratio 1.0 = false).
Proof.
  intros Hy Hc. unfold Py.truediv. apply Qeq_eq_bool in Hy. rewrite Hy, Hc.
  eexists. split; [reflexivity |].
  destruct (Qlt_le_dec 0 x) as [Hpos | Hneg].
  - split; [discriminate | reflexivity].
  - destruct (Qlt_le_dec x 0) as [Hlt | Hge].
    + split; [discriminate | intros; exfalso; lra].
    + split; [discriminate | reflexivity].
Qed.

Lemma not_below_one_is_very_high (ratio : Py.float) :
  Py.float_lt ratio 1.0 = false -> funding_level_of ratio = "very_high".
Proof.
  intros H. unfold funding_level_of. rewrite H.
  destruct ratio as [q | | |]; cbn [Py.float_lt] in *; try reflexivity; try discriminate.
  destruct (Qlt_le_dec q 1.0) as [| H1]; [discriminate |].
  repeat (destruct (Qlt_le_dec q _); [exfalso; lra |]). reflexivity.
Qed.


End FundingClaims.



(** * Further properties of the code *)

Section TrajectoryFacts.
Import RecoveryModel TrajectorySpec.

Lemma nondecreasing_from_snoc (x a : Q) (l : list Q) :
  nondecreasing_from x l -> last (x :: l) 0 <= a -> nondecreasing_from x (l ++ [a]).
Proof.
  revert x. induction l as [| y l IH]; intros x Hl Ha; cbn [app nondecreasing_from].
  - split; [exact Ha | exact I].
  - destruct Hl as [Hxy Hl]. split; [exact Hxy |].
    apply IH; [exact Hl |]. exact Ha.
Qed.

Lemma nondecreasing_snoc (a : Q) (l : list Q) :
  nondecreasing l -> (l <> [] -> last l 0 <= a) -> nondecreasing (l ++ [a]).
Proof.
  destruct l as [| x l]; cbn [app nondecreasing]; [intros; cbn; exact I |].
  intros Hl Ha. apply nondecreasing_from_snoc; [exact Hl | apply Ha; discriminate].
Qed.

Lemma nondecreasing_from_map (f : Q -> Q) (x : Q) (l : list Q) :
  (forall a b, a <= b -> f a <= f b) ->
  nondecreasing_from x l -> nondecreasing_from (f x) (map f l).
Proof.
  intros Hf. revert x. induction l as [| y l IH]; intros x; cbn; [trivial |].
  intros [Hxy Hl]. split; [apply Hf; exact Hxy | apply IH; exact Hl].
Qed.

Lemma nondecreasing_map (f : Q -> Q) (l : list Q) :
  (forall a b, a <= b -> f a <= f b) -> nondecreasing l -> nondecreasing (map f l).
Proof.
  intros Hf. destruct l as [| x l]; cbn; [trivial |]. apply nondecreasing_from_map. exact Hf.
Qed.

Lemma last_in_forall (P : Q -> Prop) (l : list Q) (d : Q) :
  Forall P l -> l <> [] -> P (last l d).
Proof.
  induction 1 as [| x l Hx Hl IH]; intros Hne; [contradiction |].
  destruct l as [| y l]; [exact Hx |]. apply IH. discriminate.
Qed.

Lemma last_snoc (l : list Q) (a d : Q) : last (l ++ [a]) d = a.
Proof. apply last_last. Qed.

End TrajectoryFacts.

Section TrajectoryShape.
Import RecoveryModel TrajectorySpec.

Variable np_sqrt : Q -> Q.
Variable np_exp : Q -> Q.
Hypothesis sqrt_mono : sqrt_monotone np_sqrt.
Hypothesis exp_pos : exp_positive np_exp.
Hypothesis exp_mono : exp_monotone np_exp.

Lemma ratio_monotone (a b h : Q) : 0 < h -> 0 <= a -> a <= b -> 0 <= a / h /\ a / h <= b / h.
Proof.
  intros Hh Ha Hab.
  assert (Hinv : 0 < / h) by (apply Qinv_lt_0_compat; exact Hh).
  unfold Qdiv. split; nra.
Qed.

Lemma reciprocal_antitone (u v : Q) : 0 < u -> u <= v -> 1 / v <= 1 / u.
Proof.
  intros Hu Huv.
  assert (Hv : 0 < v) by lra.
  apply Qle_shift_div_l; [exact Hu |].
  assert (E : 1 / v * u == u / v) by (field; lra).
  rewrite E. apply Qle_shift_div_r; [exact Hv | lra].
Qed.

Lemma pattern_monotone (sector : string) (a b h : Q) :
  0 < h -> 0 <= a -> a <= b ->
  pattern_func np_sqrt np_exp sector a h <= pattern_func np_sqrt np_exp sector b h.
Proof.
  intros Hh Ha Hab.
  destruct (ratio_monotone a b h Hh Ha Hab) as [H0 Hle].
  assert (Hs : s_shaped np_exp a h <= s_shaped np_exp b h).
  { unfold s_shaped. apply reciprocal_antitone.
    - pose proof (exp_pos (-10 * (b / h - 0.5))). lra.
    - assert (np_exp (-10 * (b / h - 0.5)) <= np_exp (-10 * (a / h - 0.5)))
        by (apply exp_mono; lra).
      lra. }
  unfold pattern_func.
  destruct (sector =? "housing"); [apply sqrt_mono; assumption |].
  destruct (sector =? "infrastructure"); [exact Hs |].
  destruct (sector =? "livelihoods"); [exact Hs |].
  destruct (sector =? "social"); [unfold late_rapid; nra |].
  exact Hle.
Qed.

(** The base trajectory of a positive horizon, entry by entry. *)
Lemma base_trajectory_nth (sector : string) (horizon : Z) (k : nat) :
  (Z.of_nat k <= horizon)%Z ->
  nth k (map (fun t => pattern_func np_sqrt np_exp sector (inject_Z t) (inject_Z horizon))
             (timesteps horizon)) 0
  = pattern_func np_sqrt np_exp sector (inject_Z (Z.of_nat k)) (inject_Z horizon).
Proof.
  intros Hk. unfold timesteps. rewrite map_map.
  set (f := fun x => pattern_func np_sqrt np_exp sector (inject_Z (Z.of_nat x))
                                  (inject_Z horizon)).
  rewrite (nth_indep _ 0 (f 0%nat)) by (rewrite length_map, length_seq; lia).
  rewrite (map_nth f). rewrite seq_nth by lia. reflexivity.
Qed.

Lemma base_trajectory_length (sector : string) (horizon : Z) :
  List.length (map (fun t => pattern_func np_sqrt np_exp sector (inject_Z t) (inject_Z horizon))
                   (timesteps horizon))
  = Z.to_nat (horizon + 1).
Proof. unfold timesteps. now rewrite !length_map, length_seq. Qed.

Lemma seasonal_factor_positive (month_idx : nat) : 0 < seasonal_factor month_idx.
Proof.
  unfold seasonal_factor.
  assert (H : Forall (fun v => 0 < v) seasonal_recovery_factors)
    by (unfold seasonal_recovery_factors; repeat constructor).
  generalize (month_idx - 1)%nat as i. intros i. revert i.
  induction H as [| v l Hv _ IH]; intros [| i]; cbn [nth]; try reflexivity; auto.
Qed.

(** The running trajectory after [k] iterations of the loop. *)
Lemma trajectory_prefix_shape (base : list Q) (fm gm rm : Q) (k : nat) :
  0 <= fm -> 0 <= gm -> 0 <= rm ->
  (forall i, (S i < List.length base)%nat -> nth i base 0 <= nth (S i) base 0) ->
  (k <= List.length base)%nat ->
  let adjusted := fold_left (trajectory_step base fm gm rm) (seq 0 k) [] in
  List.length adjusted = k
  /\ within_unit adjusted
  /\ nondecreasing adjusted
  /\ ((0 < k)%nat -> hd 1 adjusted = 0).
Proof.
  intros Hfm Hgm Hrm Hbase. induction k as [| k IH]; intros Hk.
  - cbn. repeat split; try constructor. intros H; inversion H.
  - cbv zeta in *. rewrite seq_S, fold_left_app. cbn [fold_left Nat.add].
    destruct IH as (Hlen & Hunit & Hnd & Hhd); [lia |].
    set (adjusted := fold_left (trajectory_step base fm gm rm) (seq 0 k) []) in *.
    unfold trajectory_step.
    destruct k as [| k'].
    + destruct adjusted; [| discriminate Hlen]. cbn.
      repeat split; try constructor; try lra; try constructor; auto.
    + cbn [Nat.eqb].
      assert (Hne : adjusted <> []) by (destruct adjusted; [discriminate Hlen | discriminate]).
      pose proof (last_in_forall _ _ 0 Hunit Hne) as [Hl0 Hl1].
      match goal with
      | |- context [Qmin 1.0 ?v] => set (candidate := v)
      end.
      assert (Hcand : last adjusted 0 <= candidate).
      { unfold candidate.
        pose proof (seasonal_factor_positive ((1 + S k' - 1) mod 12 + 1)) as Hs.
        assert (Hinc : 0 <= nth (S k') base 0 - nth (S k' - 1) base 0).
        { replace (S k' - 1)%nat with k' by lia.
          pose proof (Hbase k' ltac:(lia)). lra. }
        set (s := seasonal_factor _) in *.
        set (d := nth (S k') base 0 - nth (S k' - 1) base 0) in *.
        assert (0 <= d * fm) by nra.
        assert (0 <= d * fm * gm) by nra.
        assert (0 <= d * fm * gm * rm) by nra.
        assert (0 <= d * fm * gm * rm * s) by nra.
        lra. }
      assert (Hmin_lo : last adjusted 0 <= Qmin 1.0 candidate)
        by (apply Q.min_glb; [lra | exact Hcand]).
      assert (Hmin_hi : Qmin 1.0 candidate <= 1)
        by (eapply Qle_trans; [apply Q.le_min_l | lra]).
      split; [rewrite length_app, Hlen; cbn; lia |].
      split; [apply Forall_app; split; [exact Hunit | constructor; [split; lra | constructor]] |].
      split; [apply nondecreasing_snoc; [exact Hnd | intros _; exact Hmin_lo] |].
      intros _. destruct adjusted as [| x rest]; [contradiction |].
      cbn [app hd]. apply (Hhd ltac:(lia)).
Qed.

End TrajectoryShape.

Section SectorTrajectory.
Import RecoveryModel TrajectorySpec.

Variable np_sqrt : Q -> Q.
Variable np_exp : Q -> Q.
Hypothesis sqrt_mono : sqrt_monotone np_sqrt.
Hypothesis exp_pos : exp_positive np_exp.
Hypothesis exp_mono : exp_monotone np_exp.

Lemma generated_trajectory_facts (sector : string) (horizon : Z) (fm gm rm : Q) :
  0 <= fm -> 0 <= gm -> 0 <= rm ->
  let trajectory := _generate_sector_trajectory np_sqrt np_exp sector horizon fm gm rm in
  (horizon = 0%Z -> trajectory = [1.0])
  /\ ((horizon < 0)%Z -> trajectory = [])
  /\ ((0 < horizon)%Z ->
      List.length trajectory = Z.to_nat (horizon + 1)
      /\ hd 1 trajectory = 0
      /\ within_unit trajectory
      /\ nondecreasing trajectory).
Proof.
  intros Hfm Hgm Hrm trajectory. unfold trajectory, _generate_sector_trajectory.
  split; [intros ->; reflexivity |]. split.
  - intros Hneg. destruct (Z.eqb_spec horizon 0); [lia |].
    unfold timesteps. replace (Z.to_nat (horizon + 1)) with 0%nat by lia. reflexivity.
  - intros Hpos. destruct (Z.eqb_spec horizon 0); [lia |].
    set (base := map _ (timesteps horizon)).
    assert (Hlen : List.length base = Z.to_nat (horizon + 1))
      by apply base_trajectory_length.
    destruct (trajectory_prefix_shape base fm gm rm (List.length base) Hfm Hgm Hrm)
      as (H1 & H2 & H3 & H4).
    + intros i Hi. unfold base.
      rewrite !base_trajectory_nth by lia.
      apply pattern_monotone; try assumption.
      * change 0 with (inject_Z 0). rewrite <- Zlt_Qlt. exact Hpos.
      * change 0 with (inject_Z 0). rewrite <- Zle_Qle. lia.
      * rewrite <- Zle_Qle. lia.
    + lia.
    + split; [rewrite H1; exact Hlen |].
      split; [apply H4; lia |]. split; assumption.
Qed.

(** X1 ([RecoveryModel._generate_sector_trajectory]).  With non-negative
    multipliers, and [np.sqrt] monotone on non-negative numbers and [np.exp]
    positive and monotone: a zero horizon gives the one-element trajectory
    [1.0], a negative horizon the empty trajectory, and a positive horizon a
    trajectory of [horizon + 1] monthly values that starts at 0, stays within
    [0, 1] and never decreases. *)
Theorem generated_trajectory_shape (sector : string) (horizon : Z) (fm gm rm : Q) :
  0 <= fm -> 0 <= gm -> 0 <= rm ->
  let trajectory := _generate_sector_trajectory np_sqrt np_exp sector horizon fm gm rm in
  (horizon = 0%Z -> trajectory = [1.0])
  /\ ((horizon < 0)%Z -> trajectory = [])
  /\ ((0 < horizon)%Z ->
      List.length trajectory = Z.to_nat (horizon + 1)
      /\ hd 1 trajectory = 0
      /\ within_unit trajectory
      /\ nondecreasing trajectory).
Proof. exact (generated_trajectory_facts sector horizon fm gm rm). Qed.

End SectorTrajectory.

Section FixedLaws.
Import TrajectorySpec.

Lemma of_fixed_le (n m : Z) : (n <= m)%Z -> Fixed.of_fixed n <= Fixed.of_fixed m.
Proof.
  intros H. unfold Fixed.of_fixed, Qle. cbn [Qnum Qden].
  apply Z.mul_le_mono_nonneg_r; [lia | exact H].
Qed.

Lemma fixed_one_positive : (0 < Fixed.one)%Z.
Proof. reflexivity. Qed.

Lemma fixed_sqrt_monotone : sqrt_monotone Fixed.sqrt.
Proof.
  intros x y Hx Hxy. unfold Fixed.sqrt. apply of_fixed_le.
  apply Z.sqrt_le_mono. apply Qfloor_resp_le.
  apply Qmult_le_compat_r; [exact Hxy |].
  change 0 with (inject_Z 0). rewrite <- Zle_Qle.
  pose proof fixed_one_positive. nia.
Qed.

Lemma fixed_square_monotone (a b : Z) :
  (0 <= a)%Z -> (a <= b)%Z -> (0 <= Fixed.square a)%Z /\ (Fixed.square a <= Fixed.square b)%Z.
Proof.
  intros Ha Hab. unfold Fixed.square. pose proof fixed_one_positive as H1.
  split.
  - apply Z.div_pos; [nia | exact H1].
  - apply Z.div_le_mono; [exact H1 | nia].
Qed.

Lemma fixed_iter_square_monotone (n : nat) (a b : Z) :
  (0 <= a)%Z -> (a <= b)%Z ->
  (0 <= Nat.iter n Fixed.square a)%Z
  /\ (Nat.iter n Fixed.square a <= Nat.iter n Fixed.square b)%Z.
Proof.
  intros Ha Hab. induction n as [| n [IH0 IH]]; cbn [Nat.iter]; [split; assumption |].
  apply fixed_square_monotone; assumption.
Qed.

Lemma fixed_exp_positive : exp_positive Fixed.exp.
Proof.
  intros x. unfold Fixed.exp, Fixed.of_fixed, Qlt. cbn [Qnum Qden]. lia.
Qed.

Lemma fixed_exp_monotone : exp_monotone Fixed.exp.
Proof.
  intros x y Hxy. unfold Fixed.exp. apply of_fixed_le.
  apply Z.max_le_compat_l. unfold Fixed.exp_fixed.
  apply fixed_iter_square_monotone; [lia |].
  apply Z.max_le_compat_l. apply Z.add_le_mono_l. apply Qfloor_resp_le.
  assert (H1 : 0 <= inject_Z Fixed.one).
  { change 0 with (inject_Z 0). rewrite <- Zle_Qle. pose proof fixed_one_positive. lia. }
  assert (H2 : 0 < inject_Z (2 ^ Z.of_nat Fixed.halvings)).
  { change 0 with (inject_Z 0). rewrite <- Zlt_Qlt. apply Z.pow_pos_nonneg; lia. }
  apply Qle_shift_div_l; [exact H2 |].
  assert (E : x * inject_Z Fixed.one / inject_Z (2 ^ Z.of_nat Fixed.halvings)
              * inject_Z (2 ^ Z.of_nat Fixed.halvings) == x * inject_Z Fixed.one)
    by (field; lra).
  rewrite E. apply Qmult_le_compat_r; assumption.
Qed.

End FixedLaws.

Section TableFacts.

Lemma lookup_in {A : Type} (d : list (string * A)) (k : string) (v : A) :
  Py.lookup k d = Some v -> In (k, v) d.
Proof.
  induction d as [| [k' v'] d IH]; cbn; [discriminate |].
  destruct (String.eqb_spec k k') as [-> | _]; [intros [= ->]; auto | auto].
Qed.

Lemma item_in {A : Type} (d : list (string * A)) (k : string) (v : A) :
  Py.item d k = Py.Ok v -> In (k, v) d.
Proof.
  unfold Py.item. destruct (Py.lookup k d) eqn:E; [| discriminate].
  intros [= <-]. apply lookup_in. exact E.
Qed.

Lemma item_missing {A : Type} (d : list (string * A)) (k : string) :
  Py.lookup k d = None -> Py.item d k = Py.Raise (Py.KeyError k).
Proof. unfold Py.item. now intros ->. Qed.

Lemma item_satisfies {A : Type} (P : A -> Prop) (d : list (string * A)) (k : string) (v : A) :
  Forall (fun kv => P (snd kv)) d -> Py.item d k = Py.Ok v -> P v.
Proof.
  intros Hd Hv. apply item_in in Hv.
  rewrite Forall_forall in Hd. apply (Hd _ Hv).
Qed.

Lemma get_satisfies {A : Type} (P : A -> Prop) (d : list (string * A)) (k : string)
  (default : A) :
  Forall (fun kv => P (snd kv)) d -> P default -> P (Py.get d k default).
Proof.
  intros Hd Hdef. unfold Py.get. destruct (Py.lookup k d) eqn:E; [| exact Hdef].
  apply lookup_in in E. rewrite Forall_forall in Hd. apply (Hd _ E).
Qed.

End TableFacts.

Ltac table_bounds :=
  repeat first [ apply Forall_nil
               | apply Forall_cons; [cbn [snd]; first [ split; vm_compute; congruence
                                                      | vm_compute; congruence ] |] ].

Section RecoveryFactors.
Import RecoveryModel.

Lemma governance_multiplier_range (governance_quality : list (string * string)) :
  (forall m, governance_multiplier_of governance_quality = Py.Ok m ->
             0.75 <= m /\ m <= 1.21)
  /\ (Py.lookup (Py.get governance_quality "coordination" "fair") coordination_factors = None ->
      governance_multiplier_of governance_quality
      = Py.Raise (Py.KeyError (Py.get governance_quality "coordination" "fair"))).
Proof.
  split.
  - intros m H. unfold governance_multiplier_of in H.
    apply bind_ok in H. destruct H as (c & Hc & H).
    apply bind_ok in H. destruct H as (p & Hp & H).
    apply bind_ok in H. destruct H as (k & Hk & H).
    apply bind_ok in H. destruct H as (e & He & H).
    injection H as <-.
    apply (item_satisfies (fun v => 0.7 <= v /\ v <= 1.3)) in Hc; [| table_bounds].
    apply (item_satisfies (fun v => 0.8 <= v /\ v <= 1.2)) in Hp; [| table_bounds].
    apply (item_satisfies (fun v => 0.7 <= v /\ v <= 1.1)) in Hk; [| table_bounds].
    apply (item_satisfies (fun v => 0.8 <= v /\ v <= 1.2)) in He; [| table_bounds].
    split; lra.
  - intros H. unfold governance_multiplier_of. rewrite (item_missing _ _ H). reflexivity.
Qed.

Lemma bbb_improvement_range (funding_availability : Funding) (b : Q) :
  bbb_improvement_of funding_availability = Py.Ok b -> 0.006 <= b /\ b <= 0.117.
Proof.
  intros H. unfold bbb_improvement_of in H.
  apply bind_ok in H. destruct H as (p & Hp & H).
  apply bind_ok in H. destruct H as (f & Hf & H).
  apply bind_ok in H. destruct H as (c & Hc & H).
  injection H as <-.
  apply (item_satisfies (fun v => 0.1 <= v /\ v <= 0.3)) in Hp; [| table_bounds].
  apply (item_satisfies (fun v => 0.1 <= v /\ v <= 0.3)) in Hf; [| table_bounds].
  apply (item_satisfies (fun v => 0.6 <= v /\ v <= 1.3)) in Hc; [| table_bounds].
  assert (0.01 <= p * f) by nra.
  assert (p * f <= 0.09) by nra.
  split; nra.
Qed.

Lemma funding_multiplier_positive (ratio : Py.float) :
  0 < Py.get funding_level_multipliers (funding_level_of ratio) 1.0.
Proof. apply (get_satisfies (fun v => 0 < v)); [table_bounds | reflexivity]. Qed.

Lemma regional_multiplier_positive (impacts : Impacts) : 0 < regional_multiplier_of impacts.
Proof.
  unfold regional_multiplier_of.
  apply (get_satisfies (fun v => 0 < v)); [table_bounds | reflexivity].
Qed.

End RecoveryFactors.

Lemma generated_trajectory_shape_witness :
  let trajectory :=
    RecoveryModel._generate_sector_trajectory Fixed.sqrt Fixed.exp "housing" 6 1.0 0.95 0.9 in
  List.length trajectory = 7%nat
  /\ hd 1 trajectory = 0
  /\ TrajectorySpec.within_unit trajectory
  /\ TrajectorySpec.nondecreasing trajectory.
Proof.
  destruct (generated_trajectory_shape Fixed.sqrt Fixed.exp fixed_sqrt_monotone
              fixed_exp_positive fixed_exp_monotone "housing" 6 1.0 0.95 0.9)
    as (_ & _ & H); [vm_compute; congruence | vm_compute; congruence
                    | vm_compute; congruence |].
  apply H. reflexivity.
Defined.

Section RecoveryTrajectories.
Import RecoveryModel TrajectorySpec RecoveryShape.

Variable np_sqrt : Q -> Q.
Variable np_exp : Q -> Q.
Hypothesis sqrt_mono : sqrt_monotone np_sqrt.
Hypothesis exp_pos : exp_positive np_exp.
Hypothesis exp_mono : exp_monotone np_exp.

Lemma min_with_monotone (c a b : Q) : a <= b -> Qmin a c <= Qmin b c.
Proof.
  intros H. apply Q.min_glb.
  - apply Qle_trans with a; [apply Q.le_min_l | exact H].
  - apply Q.le_min_r.
Qed.

Lemma within_unit_capped (c : Q) (l : list Q) :
  0 <= c -> within_unit l -> within_unit (map (fun val => Qmin val c) l).
Proof.
  intros Hc. unfold within_unit. induction 1 as [| x l [Hx0 Hx1] Hl IH]; cbn; constructor.
  - split; [apply Q.min_glb; assumption |].
    apply Qle_trans with x; [apply Q.le_min_l | exact Hx1].
  - exact IH.
Qed.

Lemma last_item_ok (xs : list Q) : xs <> [] -> last_item xs = Py.Ok (last xs 0).
Proof. destruct xs; [contradiction | reflexivity]. Qed.

Lemma sector_trajectory_shape (sector : string) (horizon : Z) (fm gm rm bbb : Q)
  (trajectory : list Q) :
  0 <= fm -> 0 <= gm -> 0 <= rm -> 0 < bbb ->
  sector_trajectory np_sqrt np_exp sector horizon fm gm rm bbb = Py.Ok trajectory ->
  trajectory_shape horizon trajectory.
Proof.
  intros Hfm Hgm Hrm Hbbb. unfold sector_trajectory.
  destruct (generated_trajectory_facts np_sqrt np_exp sqrt_mono exp_pos exp_mono
              sector horizon fm gm rm Hfm Hgm Hrm) as (Hzero & Hneg & Hpos).
  set (base := _generate_sector_trajectory np_sqrt np_exp sector horizon fm gm rm) in *.
  destruct (Qlt_le_dec 0 bbb) as [_ | Hle]; [| lra].
  destruct (Z.lt_trichotomy horizon 0) as [Hlt | [Heq | Hgt]].
  - rewrite (Hneg Hlt). cbn. discriminate.
  - rewrite (Hzero Heq). cbn [last_item Py.bind last map]. intros [= <-].
    split; [lia |]. split; [| lia].
    intros _. eexists. split; [reflexivity |].
    assert (E : Qmin 1.0 (1.0 * (1 + bbb)) == 1.0)
      by (apply (proj2 (Q.min_l_iff _ _)); nra).
    rewrite E. reflexivity.
  - destruct (Hpos Hgt) as (Hlen & Hhd & Hunit & Hmono).
    assert (Hne : base <> []) by (intros E; rewrite E in Hlen; cbn in Hlen; lia).
    rewrite (last_item_ok base Hne). cbn [Py.bind]. intros [= <-].
    assert (Hfinal : 0 <= last base 0 /\ last base 0 <= 1)
      by (apply (last_in_forall (fun v => 0 <= v /\ v <= 1)); assumption).
    set (final := last base 0) in *. clearbody final.
    assert (Hc : 0 <= final * (1 + bbb)) by nra.
    split; [lia |]. split; [lia |]. intros _.
    split; [rewrite length_map; exact Hlen |].
    split.
    { clearbody base. destruct base as [| x base']; [contradiction |].
      cbn [map hd] in *. rewrite Hhd.
      apply (proj2 (Q.min_l_iff _ _)). exact Hc. }
    split; [apply within_unit_capped; assumption |].
    apply nondecreasing_map; [| exact Hmono].
    intros a b. apply min_with_monotone.
Qed.

Lemma sector_trajectories_shape (horizons : list (string * Z)) (fm gm rm bbb : Q)
  (trajectories : list (string * list Q)) :
  0 <= fm -> 0 <= gm -> 0 <= rm -> 0 < bbb ->
  sector_trajectories np_sqrt np_exp horizons fm gm rm bbb = Py.Ok trajectories ->
  shaped_by horizons trajectories.
Proof.
  intros Hfm Hgm Hrm Hbbb. revert trajectories.
  induction horizons as [| [sector horizon] rest IH]; intros trajectories; cbn [sector_trajectories].
  - intros [= <-]. constructor.
  - intros H. apply bind_ok in H. destruct H as (tr & Htr & H).
    apply bind_ok in H. destruct H as (trs & Htrs & H). injection H as <-.
    constructor; [| apply IH; exact Htrs].
    split; [reflexivity |].
    apply (sector_trajectory_shape sector horizon fm gm rm bbb); assumption.
Qed.

Lemma simulate_recovery_shaped (disaster_impacts : Impacts)
  (governance_quality : list (string * string)) (funding_availability : Funding)
  (recovery : Recovery) :
  simulate_recovery np_sqrt np_exp disaster_impacts governance_quality funding_availability
  = Py.Ok recovery ->
  shaped_by (recovery_horizon_months recovery) (recovery_trajectories recovery).
Proof.
  unfold simulate_recovery. intros H.
  apply bind_ok in H. destruct H as (horizons & _ & H).
  apply bind_ok in H. destruct H as (ratio & _ & H).
  apply bind_ok in H. destruct H as (gm & Hgm & H).
  apply bind_ok in H. destruct H as (bbb & Hbbb & H).
  apply bind_ok in H. destruct H as (trajectories & Htr & H).
  apply bind_ok in H. destruct H as (quality & _ & H).
  injection H as <-. cbn [recovery_horizon_months recovery_trajectories].
  apply governance_multiplier_range in Hgm.
  apply bbb_improvement_range in Hbbb.
  pose proof (funding_multiplier_positive ratio).
  pose proof (regional_multiplier_positive disaster_impacts).
  eapply sector_trajectories_shape; [| | | | exact Htr]; lra.
Qed.

(** X2 ([RecoveryModel.simulate_recovery]).  When [simulate_recovery]
    returns, the trajectories list the same sectors as the horizons, in the
    same order, and every horizon is non-negative; a sector with horizon 0
    has the single value 1, and a sector with a positive horizon has
    [horizon + 1] values that start at 0, stay within [0, 1] and never
    decrease. *)
Theorem returned_trajectories_shape (disaster_impacts : Impacts)
  (governance_quality : list (string * string)) (funding_availability : Funding)
  (recovery : Recovery) :
  simulate_recovery np_sqrt np_exp disaster_impacts governance_quality funding_availability
  = Py.Ok recovery ->
  shaped_by (recovery_horizon_months recovery) (recovery_trajectories recovery).
Proof. apply simulate_recovery_shaped. Qed.

End RecoveryTrajectories.

Section HorizonFacts.
Import RecoveryModel HorizonSpec.

Lemma fold_bounds {A : Type} (f : Q -> A -> Q) (w : A -> Q) (lo hi : Q) (l : list A) :
  (forall acc x, In x l -> acc + lo * w x <= f acc x /\ f acc x <= acc + hi * w x) ->
  forall a, a + lo * Py.sumQ (map w l) <= fold_left f l a
            /\ fold_left f l a <= a + hi * Py.sumQ (map w l).
Proof.
  induction l as [| x l IH]; intros Hf a; cbn [map fold_left].
  - unfold Py.sumQ. cbn. lra.
  - destruct (Hf a x (or_introl eq_refl)) as [H1 H2].
    destruct (IH (fun acc y Hy => Hf acc y (or_intror Hy)) (f a x)) as [H3 H4].
    rewrite sumQ_cons. split; lra.
Qed.

Lemma floor_of_reciprocal (rate lo hi : Q) :
  0 < lo -> lo <= rate -> rate <= hi ->
  (Qfloor (1 / hi) <= Py.py_int (1.0 / rate))%Z
  /\ (Py.py_int (1.0 / rate) <= Qfloor (1 / lo))%Z.
Proof.
  intros Hlo Hr1 Hr2.
  assert (Hrate : 0 < rate) by lra.
  assert (Hhi : 0 < hi) by lra.
  assert (H0 : 0 <= 1.0 / rate).
  { apply Qle_shift_div_l; [exact Hrate | lra]. }
  rewrite (py_int_floor _ H0).
  split; apply Qfloor_resp_le.
  - apply Qle_shift_div_l; [exact Hrate |].
    assert (E : 1 / hi * rate == rate / hi) by (field; lra). rewrite E.
    apply Qle_shift_div_r; [exact Hhi | lra].
  - apply Qle_shift_div_l; [exact Hlo |].
    assert (E : 1.0 / rate * lo == lo / rate) by (field; lra). rewrite E.
    apply Qle_shift_div_r; [exact Hrate | lra].
Qed.

Lemma horizon_from_rate_range (cap : Z) (rate lo hi : Q) :
  0 < lo -> lo <= rate -> rate <= hi ->
  exists h, horizon_from_rate cap rate = Py.Ok h
            /\ (Z.min cap (Qfloor (1 / hi)) <= h)%Z
            /\ (h <= Z.min cap (Qfloor (1 / lo)))%Z.
Proof.
  intros Hlo Hr1 Hr2. unfold horizon_from_rate.
  rewrite div_nonzero by lra. cbn [Py.bind].
  destruct (floor_of_reciprocal rate lo hi Hlo Hr1 Hr2) as [H1 H2].
  eexists. split; [reflexivity |]. lia.
Qed.

Lemma weighted_average_range (weighted total lo hi : Q) :
  0 < total -> lo * total <= weighted -> weighted <= hi * total ->
  lo <= weighted / total /\ weighted / total <= hi.
Proof.
  intros Ht H1 H2. split.
  - apply Qle_shift_div_l; [exact Ht | exact H1].
  - apply Qle_shift_div_r; [exact Ht | exact H2].
Qed.

Lemma housing_rate_range (k : string) (rate : Q) :
  Py.lookup k housing_rates = Some rate -> 0.08 <= rate /\ rate <= 0.2.
Proof.
  intros H. apply lookup_in in H.
  assert (F : Forall (fun kv : string * Q => 0.08 <= snd kv /\ snd kv <= 0.2) housing_rates)
    by table_bounds.
  rewrite Forall_forall in F. apply (F _ H).
Qed.

Lemma infrastructure_rate_range (infra_type : string) :
  0.05 <= Py.get infrastructure_rates (mapped_type infra_type) 0
  /\ Py.get infrastructure_rates (mapped_type infra_type) 0 <= 0.15.
Proof.
  unfold mapped_type.
  repeat match goal with
         | |- context [if ?b then _ else _] => destruct b
         end; vm_compute; split; congruence.
Qed.

Lemma housing_horizon_known (damages : list (string * list (string * Q))) :
  nonneg_damage damages -> 0 < total_damaged damages -> known_building_types damages ->
  exists h, housing_horizon damages = Py.Ok h /\ (5 <= h <= 12)%Z.
Proof.
  intros Hnn Htotal Hknown. unfold housing_horizon.
  destruct damages as [| d damages]; [unfold total_damaged, Py.sumQ in Htotal; cbn in Htotal; lra |].
  set (ds := d :: damages) in *.
  fold (total_damaged ds).
  destruct (Qlt_le_dec 0 (total_damaged ds)) as [_ | Hle]; [| lra].
  match goal with
  | |- context [fold_left ?f ds 0] =>
      destruct (fold_bounds f (fun kv => damaged_count (snd kv)) 0.08 0.2 ds) with (a := 0)
        as [H1 H2]
  end.
  { intros acc x Hx. unfold nonneg_damage, known_building_types in *.
    rewrite Forall_forall in Hnn, Hknown. specialize (Hnn x Hx). specialize (Hknown x Hx).
    cbv beta in *. unfold Py.contains in Hknown.
    destruct (Py.lookup (fst x) housing_rates) as [rate |] eqn:E; [| discriminate].
    apply housing_rate_range in E. split; nra. }
  fold (total_damaged ds) in H1, H2.
  set (weighted := fold_left _ ds 0) in *.
  destruct (weighted_average_range weighted (total_damaged ds) 0.08 0.2 Htotal) as [Ha Hb];
    [lra | lra |].
  destruct (horizon_from_rate_range 60 _ 0.08 0.2 ltac:(reflexivity) Ha Hb) as (h & -> & H3 & H4).
  exists h. split; [reflexivity |].
  change (Z.min 60 (Qfloor (1 / 0.2))) with 5%Z in H3.
  change (Z.min 60 (Qfloor (1 / 0.08))) with 12%Z in H4. lia.
Qed.

Lemma housing_average_rate_range (damages : list (string * list (string * Q))) :
  nonneg_damage damages -> 0 < total_damaged damages -> known_building_types damages ->
  0.08 <= housing_average_rate damages /\ housing_average_rate damages <= 0.2.
Proof.
  intros Hnn Htotal Hknown. unfold housing_average_rate.
  match goal with
  | |- context [fold_left ?f damages 0] =>
      destruct (fold_bounds f (fun kv => damaged_count (snd kv)) 0.08 0.2 damages) with (a := 0)
        as [H1 H2]
  end.
  { intros acc x Hx. unfold nonneg_damage, known_building_types in *.
    rewrite Forall_forall in Hnn, Hknown. specialize (Hnn x Hx). specialize (Hknown x Hx).
    cbv beta in *. unfold Py.contains in Hknown.
    destruct (Py.lookup (fst x) housing_rates) as [rate |] eqn:E; [| discriminate].
    apply housing_rate_range in E. split; nra. }
  fold (total_damaged damages) in H1, H2.
  apply weighted_average_range; [exact Htotal | lra | lra].
Qed.

Lemma infrastructure_average_rate_range (damages : list (string * list (string * Q))) :
  nonneg_damage damages -> 0 < total_damaged damages ->
  0.05 <= infrastructure_average_rate damages /\ infrastructure_average_rate damages <= 0.15.
Proof.
  intros Hnn Htotal. unfold infrastructure_average_rate.
  match goal with
  | |- context [fold_left ?f damages 0] =>
      destruct (fold_bounds f (fun kv => damaged_count (snd kv)) 0.05 0.15 damages) with (a := 0)
        as [H1 H2]
  end.
  { intros acc x Hx. unfold nonneg_damage in *.
    rewrite Forall_forall in Hnn. specialize (Hnn x Hx). cbv beta in *.
    pose proof (infrastructure_rate_range (fst x)). split; nra. }
  fold (total_damaged damages) in H1, H2.
  apply weighted_average_range; [exact Htotal | lra | lra].
Qed.

Lemma livelihoods_average_rate_range (econ_damages : list (string * Q)) :
  let direct_losses := Py.get econ_damages "direct_losses" 0 in
  let indirect_losses := Py.get econ_damages "indirect_losses" 0 in
  0 <= direct_losses -> 0 <= indirect_losses -> 0 < direct_losses + indirect_losses ->
  0.08 <= livelihoods_average_rate econ_damages
  /\ livelihoods_average_rate econ_damages <= 0.12.
Proof.
  intros direct indirect Hd Hi Hsum. unfold livelihoods_average_rate. fold direct indirect.
  apply weighted_average_range; [exact Hsum | lra | lra].
Qed.

(** The horizon of a rate that is close to an exact rate between two
    bounds. *)
Lemma horizon_of_close_rate (cap : Z) (exact rate lo hi : Q) :
  0 < lo -> lo <= exact -> exact <= hi -> close_to exact rate ->
  exists h, horizon_from_rate cap rate = Py.Ok h
            /\ (Z.min cap (Qfloor (1 / (hi * (1 + tolerance)))) <= h)%Z
            /\ (h <= Z.min cap (Qfloor (1 / (lo * (1 - tolerance)))))%Z.
Proof.
  intros Hlo H1 H2 [C1 C2].
  assert (T1 : 0 < 1 - tolerance) by reflexivity.
  assert (T2 : 0 < 1 + tolerance) by reflexivity.
  apply horizon_from_rate_range.
  - apply Qmult_lt_0_compat; assumption.
  - apply Qle_trans with (exact * (1 - tolerance)); [| exact C1].
    apply Qmult_le_compat_r; [exact H1 | apply Qlt_le_weak; exact T1].
  - apply Qle_trans with (exact * (1 + tolerance)); [exact C2 |].
    apply Qmult_le_compat_r; [exact H2 | apply Qlt_le_weak; exact T2].
Qed.

Lemma housing_horizon_unknown (damages : list (string * list (string * Q))) :
  0 < total_damaged damages -> unknown_building_types damages ->
  housing_horizon damages = Py.Raise Py.ZeroDivisionError.
Proof.
  intros Htotal Hunknown. unfold housing_horizon.
  destruct damages as [| d damages]; [unfold total_damaged, Py.sumQ in Htotal; cbn in Htotal; lra |].
  set (ds := d :: damages) in *.
  fold (total_damaged ds).
  destruct (Qlt_le_dec 0 (total_damaged ds)) as [_ | Hle]; [| lra].
  match goal with
  | |- context [fold_left ?f ds 0] =>
      destruct (fold_bounds f (fun kv => damaged_count (snd kv)) 0 0 ds) with (a := 0)
        as [H1 H2]
  end.
  { intros acc x Hx. unfold unknown_building_types in *.
    rewrite Forall_forall in Hunknown. specialize (Hunknown x Hx).
    cbv beta in *. unfold Py.contains in Hunknown.
    destruct (Py.lookup (fst x) housing_rates) as [rate |] eqn:E; [discriminate |].
    split; lra. }
  fold (total_damaged ds) in H1, H2.
  set (weighted := fold_left _ ds 0) in *.
  unfold horizon_from_rate. rewrite div_zero; [reflexivity |].
  assert (E : forall a b, a == 0 -> a / b == 0) by (intros a b ->; unfold Qdiv; ring).
  apply E. lra.
Qed.

Lemma infrastructure_horizon_damaged (damages : list (string * list (string * Q))) :
  nonneg_damage damages -> 0 < total_damaged damages ->
  exists h, infrastructure_horizon damages = Py.Ok h /\ (6 <= h <= 20)%Z.
Proof.
  intros Hnn Htotal. unfold infrastructure_horizon.
  destruct damages as [| d damages]; [unfold total_damaged, Py.sumQ in Htotal; cbn in Htotal; lra |].
  set (ds := d :: damages) in *.
  fold (total_damaged ds).
  destruct (Qlt_le_dec 0 (total_damaged ds)) as [_ | Hle]; [| lra].
  match goal with
  | |- context [fold_left ?f ds 0] =>
      destruct (fold_bounds f (fun kv => damaged_count (snd kv)) 0.05 0.15 ds) with (a := 0)
        as [H1 H2]
  end.
  { intros acc x Hx. unfold nonneg_damage in *.
    rewrite Forall_forall in Hnn. specialize (Hnn x Hx). cbv beta in *.
    pose proof (infrastructure_rate_range (fst x)). split; nra. }
  fold (total_damaged ds) in H1, H2.
  set (weighted := fold_left _ ds 0) in *.
  destruct (weighted_average_range weighted (total_damaged ds) 0.05 0.15 Htotal) as [Ha Hb];
    [lra | lra |].
  destruct (horizon_from_rate_range 72 _ 0.05 0.15 ltac:(reflexivity) Ha Hb) as (h & -> & H3 & H4).
  exists h. split; [reflexivity |].
  change (Z.min 72 (Qfloor (1 / 0.15))) with 6%Z in H3.
  change (Z.min 72 (Qfloor (1 / 0.05))) with 20%Z in H4. lia.
Qed.

(** For a rate that is not zero the kind of number makes no difference. *)
Lemma horizon_from_rate_of_nonzero (dtype : Py.dtype) (cap : Z) (rate : Q) :
  ~ rate == 0 -> horizon_from_rate_of dtype cap rate = horizon_from_rate cap rate.
Proof.
  intros H. unfold horizon_from_rate_of, horizon_from_rate, Py.truediv, Py.div.
  destruct (Qeq_bool rate 0) eqn:E; [apply Qeq_bool_eq in E; contradiction |].
  reflexivity.
Qed.

Lemma livelihoods_horizon_losses (dtype : Py.dtype) (econ_damages : list (string * Q)) :
  let direct_losses := Py.get econ_damages "direct_losses" 0 in
  let indirect_losses := Py.get econ_damages "indirect_losses" 0 in
  0 <= direct_losses -> 0 <= indirect_losses -> 0 < direct_losses + indirect_losses ->
  exists h, livelihoods_horizon dtype econ_damages = Py.Ok h /\ (8 <= h <= 12)%Z.
Proof.
  intros direct indirect Hd Hi Hsum. unfold livelihoods_horizon.
  destruct econ_damages as [| e econ_damages].
  { unfold direct, indirect in Hsum. cbn in Hsum. lra. }
  set (es := e :: econ_damages) in *. fold direct indirect.
  destruct (Qlt_le_dec 0 (direct + indirect)) as [_ | Hle]; [| lra].
  destruct (weighted_average_range (direct * 0.12 + indirect * 0.08) (direct + indirect)
              0.08 0.12 Hsum) as [Ha Hb]; [lra | lra |].
  rewrite horizon_from_rate_of_nonzero by lra.
  destruct (horizon_from_rate_range 60 _ 0.08 0.12 ltac:(reflexivity) Ha Hb) as (h & -> & H3 & H4).
  exists h. split; [reflexivity |].
  change (Z.min 60 (Qfloor (1 / 0.12))) with 8%Z in H3.
  change (Z.min 60 (Qfloor (1 / 0.08))) with 12%Z in H4. lia.
Qed.

Lemma social_horizon_range (casualties : list (string * Q)) :
  0 <= Py.get casualties "deaths" 0 -> 0 <= Py.get casualties "injuries" 0 ->
  0 <= Py.get casualties "displaced" 0 ->
  (0 <= social_horizon casualties <= 84)%Z.
Proof.
  intros Hd Hi Hp. unfold social_horizon.
  destruct casualties as [| c casualties]; [lia |].
  set (cs := c :: casualties) in *.
  destruct (Qlt_le_dec 0 _); [| lia].
  assert (0 <= (Py.get cs "deaths" 0 * 5 + Py.get cs "injuries" 0 * 1
                + Py.get cs "displaced" 0 * 0.5) / 1000).
  { apply Qle_shift_div_l; [reflexivity | lra]. }
  pose proof (py_int_nonneg _ H). lia.
Qed.

End HorizonFacts.

Section MilestoneFacts.
Import RecoveryModel TrajectorySpec RecoveryShape MilestoneSpec.

Lemma first_reaching_some (threshold : Q) (start : nat) (trajectory : list Q) (month : nat) :
  first_reaching threshold start trajectory = Some month ->
  (start <= month < start + List.length trajectory)%nat
  /\ threshold <= nth (month - start) trajectory 0
  /\ forall earlier, (earlier < month - start)%nat -> nth earlier trajectory 0 < threshold.
Proof.
  revert start. induction trajectory as [| value rest IH]; intros start; cbn [first_reaching];
    [discriminate |].
  destruct (Qle_bool threshold value) eqn:E.
  - intros [= <-]. rewrite Nat.sub_diag. cbn [List.length nth].
    split; [lia |]. split; [apply Qle_bool_iff; exact E |]. intros earlier H. lia.
  - intros H. destruct (IH _ H) as (H1 & H2 & H3).
    assert (Hlt : value < threshold).
    { apply Qnot_le_lt. intros Hle. apply Qle_bool_iff in Hle. congruence. }
    replace (month - start)%nat with (S (month - S start)) by lia.
    cbn [List.length nth]. split; [lia |]. split; [exact H2 |].
    intros [| earlier] He; [exact Hlt | apply H3; lia].
Qed.

Lemma first_reaching_none (threshold : Q) (start : nat) (trajectory : list Q) :
  first_reaching threshold start trajectory = None ->
  Forall (fun value => value < threshold) trajectory.
Proof.
  revert start. induction trajectory as [| value rest IH]; intros start; cbn [first_reaching];
    [constructor |].
  destruct (Qle_bool threshold value) eqn:E; [discriminate |].
  intros H. constructor; [| apply (IH _ H)].
  apply Qnot_le_lt. intros Hle. apply Qle_bool_iff in Hle. congruence.
Qed.

Lemma first_reaching_first_month (threshold : Q) (trajectory : list Q) :
  first_month threshold trajectory (first_reaching threshold 0 trajectory).
Proof.
  unfold first_month. destruct (first_reaching threshold 0 trajectory) as [month |] eqn:E.
  - apply first_reaching_some in E. rewrite Nat.sub_0_r in E.
    destruct E as (H1 & H2 & H3). split; [lia |]. split; assumption.
  - apply (first_reaching_none _ _ _ E).
Qed.

Lemma first_reaching_ordered (low high : Q) (start : nat) (trajectory : list Q) :
  low <= high ->
  no_later (first_reaching low start trajectory) (first_reaching high start trajectory).
Proof.
  intros Hle. revert start.
  induction trajectory as [| value rest IH]; intros start; cbn [first_reaching]; [exact I |].
  destruct (Qle_bool high value) eqn:Eh.
  - assert (El : Qle_bool low value = true).
    { apply Qle_bool_iff. apply Qle_bool_iff in Eh. lra. }
    rewrite El. cbn. lia.
  - destruct (Qle_bool low value) eqn:El; [| apply IH].
    destruct (first_reaching high (S start) rest) as [n |] eqn:E; [| exact I].
    apply first_reaching_some in E. cbn. lia.
Qed.

(** X3 ([RecoveryModel._calculate_recovery_milestones]).  For every sector, the
    four milestones are listed in the order 30, 50, 70 and 90 percent; each is
    the first month whose value reaches the threshold, or None when no month
    does; and a higher threshold is never reached earlier than a lower one. *)
Theorem milestones_are_first_months (recovery_trajectories : list (string * list Q))
  (sector : string) (trajectory : list Q) :
  In (sector, trajectory) recovery_trajectories ->
  exists m30 m50 m70 m90,
    In (sector, [("30%_recovery", m30); ("50%_recovery", m50);
                 ("70%_recovery", m70); ("90%_recovery", m90)])
       (_calculate_recovery_milestones recovery_trajectories)
    /\ first_month 0.3 trajectory m30 /\ first_month 0.5 trajectory m50
    /\ first_month 0.7 trajectory m70 /\ first_month 0.9 trajectory m90
    /\ no_later m30 m50 /\ no_later m50 m70 /\ no_later m70 m90.
Proof.
  intros Hin. unfold _calculate_recovery_milestones.
  eexists _, _, _, _. split.
  - apply in_map_iff. exists (sector, trajectory). split; [reflexivity | exact Hin].
  - cbn [fst snd]. repeat split; try apply first_reaching_first_month;
      apply first_reaching_ordered; vm_compute; congruence.
Qed.

Lemma sumQ_unit_bounds (xs : list Q) :
  Forall (fun v => 0 <= v /\ v <= 1) xs ->
  0 <= Py.sumQ xs /\ Py.sumQ xs <= inject_Z (Z.of_nat (List.length xs)).
Proof.
  induction 1 as [| x xs [H0 H1] _ IH].
  - unfold Py.sumQ. cbn. split; [lra | apply Qle_refl].
  - rewrite sumQ_cons. cbn [List.length]. rewrite Nat2Z.inj_succ.
    unfold Z.succ. rewrite inject_Z_plus. change (inject_Z 1) with 1. lra.
Qed.

Lemma speed_score_within_unit (halfway_point : nat) :
  0 <= Qmin 1.0 (12 / inject_Z (Z.max 1 (Z.of_nat halfway_point)))
  /\ Qmin 1.0 (12 / inject_Z (Z.max 1 (Z.of_nat halfway_point))) <= 1.
Proof.
  assert (Hpos : 0 < inject_Z (Z.max 1 (Z.of_nat halfway_point))).
  { change 0 with (inject_Z 0). rewrite <- Zlt_Qlt. lia. }
  split.
  - apply Q.min_glb; [lra |]. apply Qle_shift_div_l; [exact Hpos | lra].
  - apply Qle_trans with 1.0; [apply Q.le_min_l | lra].
Qed.

Lemma sector_quality_within_unit (bbb : Q) (trajectory : list Q) :
  0 <= bbb -> within_unit trajectory ->
  (trajectory = [] -> sector_quality bbb trajectory = Py.Raise Py.IndexError)
  /\ (trajectory <> [] ->
      exists q, sector_quality bbb trajectory = Py.Ok q
                /\ completeness q = last trajectory 0
                /\ scores_within_unit q).
Proof.
  intros Hbbb Hunit. split; [intros ->; reflexivity |].
  intros Hne. unfold sector_quality. rewrite (last_item_ok _ Hne). cbn [Py.bind].
  eexists. split; [reflexivity |]. split; [reflexivity |].
  assert (Hlast : 0 <= last trajectory 0 /\ last trajectory 0 <= 1)
    by (apply (last_in_forall (fun v => 0 <= v /\ v <= 1)); assumption).
  set (final := last trajectory 0) in *. clearbody final.
  assert (Hspeed : 0 <= match first_reaching 0.5 0 trajectory with
                        | Some halfway_point =>
                            Qmin 1.0 (12 / inject_Z (Z.max 1 (Z.of_nat halfway_point)))
                        | None => 0
                        end
                   /\ match first_reaching 0.5 0 trajectory with
                      | Some halfway_point =>
                          Qmin 1.0 (12 / inject_Z (Z.max 1 (Z.of_nat halfway_point)))
                      | None => 0
                      end <= 1).
  { destruct (first_reaching 0.5 0 trajectory); [apply speed_score_within_unit | lra]. }
  set (speed_score := match first_reaching 0.5 0 trajectory with
                      | Some _ => _ | None => _ end) in *.
  clearbody speed_score.
  assert (Hq : 0 <= Qmin 1.0 (final * (1 + bbb)) /\ Qmin 1.0 (final * (1 + bbb)) <= 1).
  { split; [apply Q.min_glb; [lra | nra] |].
    apply Qle_trans with 1.0; [apply Q.le_min_l | lra]. }
  set (quality_score := Qmin 1.0 (final * (1 + bbb))) in *. clearbody quality_score.
  unfold scores_within_unit. cbn [speed completeness quality overall_score].
  repeat split; lra.
Qed.

Lemma trajectory_shape_within_unit (horizon : Z) (trajectory : list Q) :
  trajectory_shape horizon trajectory -> within_unit trajectory /\ trajectory <> [].
Proof.
  intros (Hnn & Hzero & Hpos).
  destruct (Z.eq_dec horizon 0) as [E | E].
  - destruct (Hzero E) as (v & -> & Hv). split; [| discriminate].
    constructor; [rewrite Hv; split; lra | constructor].
  - destruct Hpos as (Hlen & _ & Hunit & _); [lia |]. split; [exact Hunit |].
    intros ->. cbn in Hlen. lia.
Qed.

Lemma sector_qualities_within_unit (bbb : Q) (horizons : list (string * Z))
  (trajectories : list (string * list Q)) :
  0 <= bbb -> shaped_by horizons trajectories ->
  exists qs, sector_qualities bbb trajectories = Py.Ok qs
             /\ map fst qs = map fst horizons
             /\ Forall (fun kv => scores_within_unit (snd kv)) qs.
Proof.
  intros Hbbb. induction 1 as [| [s h] [s' tr] hs trs [Hs Hshape] _ IH];
    cbn [sector_qualities].
  - exists []. repeat split; constructor.
  - cbn [fst snd] in *. subst s'.
    destruct (trajectory_shape_within_unit _ _ Hshape) as [Hunit Hne].
    destruct (sector_quality_within_unit bbb tr Hbbb Hunit) as [_ Hq].
    destruct (Hq Hne) as (q & -> & _ & Hscores). cbn [Py.bind].
    destruct IH as (qs & -> & Hkeys & Hall). cbn [Py.bind].
    eexists. split; [reflexivity |]. cbn [map fst]. split; [f_equal; exact Hkeys |].
    constructor; assumption.
Qed.

End MilestoneFacts.

Section RecoveryHorizons.
Import RecoveryModel HorizonSpec RecoveryInputs.

Lemma total_damaged_nonneg (damages : list (string * list (string * Q))) :
  nonneg_damage damages -> 0 <= total_damaged damages.
Proof.
  intros H. apply sumQ_nonneg. unfold nonneg_damage in H.
  induction H; cbn [map]; constructor; assumption.
Qed.

Lemma housing_horizon_nothing_damaged (damages : list (string * list (string * Q))) :
  total_damaged damages <= 0 -> housing_horizon damages = Py.Ok 0%Z.
Proof.
  intros H. unfold housing_horizon. destruct damages; [reflexivity |].
  fold (total_damaged (p :: damages)).
  destruct (Qlt_le_dec 0 (total_damaged (p :: damages))); [lra | reflexivity].
Qed.

Lemma infrastructure_horizon_nothing_damaged (damages : list (string * list (string * Q))) :
  total_damaged damages <= 0 -> infrastructure_horizon damages = Py.Ok 0%Z.
Proof.
  intros H. unfold infrastructure_horizon. destruct damages; [reflexivity |].
  fold (total_damaged (p :: damages)).
  destruct (Qlt_le_dec 0 (total_damaged (p :: damages))); [lra | reflexivity].
Qed.

Lemma livelihoods_horizon_no_losses (dtype : Py.dtype) (econ_damages : list (string * Q)) :
  Py.get econ_damages "direct_losses" 0 + Py.get econ_damages "indirect_losses" 0 <= 0 ->
  livelihoods_horizon dtype econ_damages = Py.Ok 0%Z.
Proof.
  intros H. unfold livelihoods_horizon. destruct econ_damages; [reflexivity |].
  destruct (Qlt_le_dec 0 _); [lra | reflexivity].
Qed.

Lemma recovery_horizons_plausible (impacts : Impacts) :
  plausible impacts ->
  exists h i l s,
    _calculate_recovery_horizons impacts
    = Py.Ok [("housing", h); ("infrastructure", i); ("livelihoods", l); ("social", s)]
    /\ (h = 0 \/ 5 <= h <= 12)%Z
    /\ (i = 0 \/ 6 <= i <= 20)%Z
    /\ (l = 0 \/ 8 <= l <= 12)%Z
    /\ (0 <= s <= 84)%Z.
Proof.
  intros [Hb Hk Hi Hd Hn Hde Hin Hdi]. unfold _calculate_recovery_horizons.
  assert (Hh : exists h, housing_horizon (buildings impacts) = Py.Ok h
                         /\ (h = 0 \/ 5 <= h <= 12)%Z).
  { destruct (Qlt_le_dec 0 (total_damaged (buildings impacts))) as [Hpos | Hzero].
    - destruct (housing_horizon_known _ Hb Hpos Hk) as (h & E & R). eauto.
    - exists 0%Z. split; [apply housing_horizon_nothing_damaged; exact Hzero | lia]. }
  assert (Hinf : exists i, infrastructure_horizon (infrastructure impacts) = Py.Ok i
                           /\ (i = 0 \/ 6 <= i <= 20)%Z).
  { destruct (Qlt_le_dec 0 (total_damaged (infrastructure impacts))) as [Hpos | Hzero].
    - destruct (infrastructure_horizon_damaged _ Hi Hpos) as (i & E & R). eauto.
    - exists 0%Z. split; [apply infrastructure_horizon_nothing_damaged; exact Hzero | lia]. }
  assert (Hl : exists l, livelihoods_horizon (economic_dtype impacts) (economic impacts)
                         = Py.Ok l
                         /\ (l = 0 \/ 8 <= l <= 12)%Z).
  { destruct (Qlt_le_dec 0 (Py.get (economic impacts) "direct_losses" 0
                            + Py.get (economic impacts) "indirect_losses" 0))
      as [Hpos | Hzero].
    - destruct (livelihoods_horizon_losses (economic_dtype impacts) _ Hd Hn Hpos)
        as (l & E & R). eauto.
    - exists 0%Z. split; [apply livelihoods_horizon_no_losses; exact Hzero | lia]. }
  destruct Hh as (h & -> & Rh). destruct Hinf as (i & -> & Ri). destruct Hl as (l & -> & Rl).
  cbn [Py.bind]. exists h, i, l, (social_horizon (casualties impacts)).
  split; [reflexivity |]. repeat split; try assumption;
    apply social_horizon_range; assumption.
Qed.

(** X4 ([RecoveryModel._calculate_recovery_horizons]).  For impacts without
    negative counts or losses and with listed building types, the horizons
    are returned for the four sectors in the order housing, infrastructure,
    livelihoods, social; an undamaged sector has horizon 0 and a damaged one
    4 to 12 months (housing), 6 to 20 (infrastructure), 8 to 12
    (livelihoods); the social horizon is between 0 and 84.  The ranges of
    the damaged sectors hold for every average rate within one part in a
    billion of the exact one, which covers the rounding of floating-point
    arithmetic: when only jhupri houses are damaged the exact rate is 0.2
    and the horizon 5, while three such houses give the float rate
    0.20000000000000004 and the horizon 4.  The caps of 60, 72 and 60 months
    are never reached. *)
Theorem recovery_horizons_ranges (impacts : Impacts) :
  plausible impacts ->
  (exists h i l s,
      _calculate_recovery_horizons impacts
      = Py.Ok [("housing", h); ("infrastructure", i); ("livelihoods", l); ("social", s)]
      /\ (h = 0 \/ 4 <= h <= 12)%Z
      /\ (i = 0 \/ 6 <= i <= 20)%Z
      /\ (l = 0 \/ 8 <= l <= 12)%Z
      /\ (0 <= s <= 84)%Z)
  /\ (0 < total_damaged (buildings impacts) ->
      forall rate, close_to (housing_average_rate (buildings impacts)) rate ->
                   exists h, horizon_from_rate 60 rate = Py.Ok h /\ (4 <= h <= 12)%Z)
  /\ (0 < total_damaged (infrastructure impacts) ->
      forall rate, close_to (infrastructure_average_rate (infrastructure impacts)) rate ->
                   exists i, horizon_from_rate 72 rate = Py.Ok i /\ (6 <= i <= 20)%Z)
  /\ (0 < Py.get (economic impacts) "direct_losses" 0
          + Py.get (economic impacts) "indirect_losses" 0 ->
      forall rate, close_to (livelihoods_average_rate (economic impacts)) rate ->
                   exists l, horizon_from_rate_of (economic_dtype impacts) 60 rate = Py.Ok l
                             /\ (8 <= l <= 12)%Z).
Proof.
  intros Hp. split.
  { destruct (recovery_horizons_plausible impacts Hp) as (h & i & l & s & E & Rh & Ri & Rl & Rs).
    exists h, i, l, s. split; [exact E |]. repeat split; try assumption; lia. }
  destruct Hp as [Hb Hk Hi Hd Hn Hde Hin Hdi].
  split; [| split].
  - intros Hpos rate Hclose.
    destruct (housing_average_rate_range _ Hb Hpos Hk) as [H1 H2].
    destruct (horizon_of_close_rate 60 _ rate 0.08 0.2 ltac:(reflexivity) H1 H2 Hclose)
      as (h & E & H3 & H4).
    exists h. split; [exact E |].
    change (Z.min 60 (Qfloor (1 / (0.2 * (1 + tolerance))))) with 4%Z in H3.
    change (Z.min 60 (Qfloor (1 / (0.08 * (1 - tolerance))))) with 12%Z in H4. lia.
  - intros Hpos rate Hclose.
    destruct (infrastructure_average_rate_range _ Hi Hpos) as [H1 H2].
    destruct (horizon_of_close_rate 72 _ rate 0.05 0.15 ltac:(reflexivity) H1 H2 Hclose)
      as (h & E & H3 & H4).
    exists h. split; [exact E |].
    change (Z.min 72 (Qfloor (1 / (0.15 * (1 + tolerance))))) with 6%Z in H3.
    change (Z.min 72 (Qfloor (1 / (0.05 * (1 - tolerance))))) with 20%Z in H4. lia.
  - intros Hpos rate Hclose.
    destruct (livelihoods_average_rate_range _ Hd Hn Hpos) as [H1 H2].
    rewrite horizon_from_rate_of_nonzero.
    2:{ destruct Hclose as [C1 _].
        assert (T : 0 < 1 - tolerance) by reflexivity.
        assert (0 < livelihoods_average_rate (economic impacts) * (1 - tolerance))
          by (apply Qmult_lt_0_compat; [lra | exact T]).
        lra. }
    destruct (horizon_of_close_rate 60 _ rate 0.08 0.12 ltac:(reflexivity) H1 H2 Hclose)
      as (h & E & H3 & H4).
    exists h. split; [exact E |].
    change (Z.min 60 (Qfloor (1 / (0.12 * (1 + tolerance))))) with 8%Z in H3.
    change (Z.min 60 (Qfloor (1 / (0.08 * (1 - tolerance))))) with 12%Z in H4. lia.
Qed.

End RecoveryHorizons.

Lemma flood_impacts_plausible : RecoveryInputs.plausible RecoveryExample.flood_impacts.
Proof.
  constructor; try (vm_compute; congruence);
    repeat (constructor; try (vm_compute; congruence)).
Qed.

Lemma recovery_horizons_ranges_witness :
  (exists h i l s,
      RecoveryModel._calculate_recovery_horizons RecoveryExample.flood_impacts
      = Py.Ok [("housing", h); ("infrastructure", i); ("livelihoods", l); ("social", s)]
      /\ (h = 0 \/ 4 <= h <= 12)%Z
      /\ (i = 0 \/ 6 <= i <= 20)%Z
      /\ (l = 0 \/ 8 <= l <= 12)%Z
      /\ (0 <= s <= 84)%Z)
  /\ (exists h,
         RecoveryModel.horizon_from_rate 60
           (HorizonSpec.housing_average_rate
              (RecoveryModel.buildings RecoveryExample.flood_impacts)
            * (1 + HorizonSpec.tolerance))
         = Py.Ok h
         /\ (4 <= h <= 12)%Z).
Proof.
  destruct (recovery_horizons_ranges RecoveryExample.flood_impacts
              flood_impacts_plausible) as (H1 & H2 & _).
  split; [exact H1 |].
  apply H2; [reflexivity |].
  unfold HorizonSpec.close_to. split; vm_compute; congruence.
Defined.

Section RecoveryErrors.
Import RecoveryModel HorizonSpec RecoveryInputs.

Variable np_sqrt : Q -> Q.
Variable np_exp : Q -> Q.

(** X5 ([RecoveryModel._calculate_recovery_horizons]).  When buildings are
    damaged and none of their types has a housing recovery rate, the weighted
    rate stays 0 and the horizon computation divides by it:
    [_calculate_recovery_horizons], and so [simulate_recovery], raise
    ZeroDivisionError. *)
Theorem unlisted_building_types_divide_by_zero (impacts : Impacts)
  (governance_quality : list (string * string)) (funding_availability : Funding) :
  0 < total_damaged (buildings impacts) ->
  unknown_building_types (buildings impacts) ->
  _calculate_recovery_horizons impacts = Py.Raise Py.ZeroDivisionError
  /\ simulate_recovery np_sqrt np_exp impacts governance_quality funding_availability
     = Py.Raise Py.ZeroDivisionError.
Proof.
  intros Hpos Hunknown.
  assert (E : _calculate_recovery_horizons impacts = Py.Raise Py.ZeroDivisionError).
  { unfold _calculate_recovery_horizons.
    rewrite (housing_horizon_unknown _ Hpos Hunknown). reflexivity. }
  split; [exact E |]. unfold simulate_recovery. rewrite E. reflexivity.
Qed.

End RecoveryErrors.

Lemma unlisted_building_types_divide_by_zero_witness :
  RecoveryModel._calculate_recovery_horizons RecoveryInputs.unlisted_housing
  = Py.Raise Py.ZeroDivisionError
  /\ RecoveryModel.simulate_recovery Fixed.sqrt Fixed.exp RecoveryInputs.unlisted_housing []
       RecoveryExample.default_funding
     = Py.Raise Py.ZeroDivisionError.
Proof.
  apply (unlisted_building_types_divide_by_zero Fixed.sqrt Fixed.exp
           RecoveryInputs.unlisted_housing [] RecoveryExample.default_funding).
  - vm_compute. congruence.
  - repeat constructor.
Defined.

Section RecoveryFunding.
Import RecoveryModel.

(** X6 ([RecoveryModel.simulate_recovery], governance).  The governance
    multiplier is a weighted mean of four table factors: when it is computed
    it lies between 0.75 and 1.21, and a coordination level missing from the
    table raises KeyError with that level. *)
Theorem governance_multiplier_bounds (governance_quality : list (string * string)) :
  (forall m, governance_multiplier_of governance_quality = Py.Ok m ->
             0.75 <= m /\ m <= 1.21)
  /\ (Py.lookup (Py.get governance_quality "coordination" "fair") coordination_factors = None ->
      governance_multiplier_of governance_quality
      = Py.Raise (Py.KeyError (Py.get governance_quality "coordination" "fair"))).
Proof. apply governance_multiplier_range. Qed.

(** X7 ([RecoveryModel.simulate_recovery], build back better).  The
    improvement is a product of three table factors: when it is computed it
    lies between 0.006 and 0.117, so it is always positive. *)
Theorem bbb_improvement_bounds (funding_availability : Funding) (b : Q) :
  bbb_improvement_of funding_availability = Py.Ok b -> 0.006 <= b /\ b <= 0.117.
Proof. apply bbb_improvement_range. Qed.

Lemma funding_multiplier_range (ratio : Py.float) :
  0.6 <= Py.get funding_level_multipliers (funding_level_of ratio) 1.0
  /\ Py.get funding_level_multipliers (funding_level_of ratio) 1.0 <= 1.3.
Proof.
  apply (get_satisfies (fun v => 0.6 <= v /\ v <= 1.3)); [table_bounds | split; reflexivity || (vm_compute; congruence)].
Qed.

(** X8 ([RecoveryModel.simulate_recovery], funding level).  The funding
    multiplier never decreases when the funding ratio grows, and lies
    between 0.6 and 1.3. *)
Theorem funding_multiplier_monotone (ratio ratio' : Q) :
  ratio <= ratio' ->
  let multiplier r :=
    Py.get funding_level_multipliers (funding_level_of (Py.finite r)) 1.0 in
  multiplier ratio <= multiplier ratio'
  /\ 0.6 <= multiplier ratio /\ multiplier ratio' <= 1.3.
Proof.
  intros Hle multiplier. split; [| split; apply funding_multiplier_range].
  unfold multiplier, funding_level_of, Py.float_lt.
  repeat match goal with
         | |- context [Qlt_le_dec ?a ?b] => destruct (Qlt_le_dec a b)
         end; try (vm_compute; congruence); exfalso; lra.
Qed.

(** X9 ([RecoveryModel.simulate_recovery], default funding).  When the
    caller gives no [total_funding] and the needs are positive, the available
    funding is 70 percent of the needs: the ratio is 0.7 and the funding
    level is medium, with multiplier 1.0. *)
Theorem default_funding_is_medium (impacts : Impacts) (funding_availability : Funding) :
  total_funding funding_availability = None ->
  0 < _estimate_funding_needs impacts ->
  exists ratio,
    funding_ratio_of impacts funding_availability = Py.Ok (Py.finite ratio)
    /\ ratio == 0.7
    /\ funding_level_of (Py.finite ratio) = "medium"
    /\ Py.get funding_level_multipliers (funding_level_of (Py.finite ratio)) 1.0 = 1.0.
Proof.
  intros Hnone Hpos. unfold funding_ratio_of, available_funding_of. rewrite Hnone.
  rewrite truediv_nonzero by lra. eexists. split; [reflexivity |].
  assert (E : _estimate_funding_needs impacts * 0.7 / _estimate_funding_needs impacts == 0.7)
    by (field; lra).
  split; [exact E |].
  assert (L : funding_level_of
                (Py.finite (_estimate_funding_needs impacts * 0.7
                            / _estimate_funding_needs impacts))
              = "medium").
  { unfold funding_level_of, Py.float_lt.
    repeat match goal with
           | |- context [Qlt_le_dec ?a ?b] => destruct (Qlt_le_dec a b)
           end; try reflexivity; exfalso; lra. }
  split; [exact L |]. rewrite L. reflexivity.
Qed.

End RecoveryFunding.

Lemma bbb_improvement_bounds_witness :
  exists b, RecoveryModel.bbb_improvement_of RecoveryExample.default_funding = Py.Ok b
            /\ 0.006 <= b /\ b <= 0.117.
Proof.
  eexists. split; [vm_compute; reflexivity |].
  apply (bbb_improvement_bounds RecoveryExample.default_funding). vm_compute. reflexivity.
Defined.

Lemma funding_multiplier_monotone_witness :
  let multiplier r :=
    Py.get RecoveryModel.funding_level_multipliers
           (RecoveryModel.funding_level_of (Py.finite r)) 1.0 in
  multiplier 0.45 <= multiplier 0.85 /\ 0.6 <= multiplier 0.45 /\ multiplier 0.85 <= 1.3.
Proof.
  apply (funding_multiplier_monotone 0.45 0.85). vm_compute. congruence.
Defined.

Lemma default_funding_is_medium_witness :
  exists ratio,
    RecoveryModel.funding_ratio_of RecoveryExample.flood_impacts RecoveryExample.default_funding
    = Py.Ok (Py.finite ratio)
    /\ ratio == 0.7
    /\ RecoveryModel.funding_level_of (Py.finite ratio) = "medium"
    /\ Py.get RecoveryModel.funding_level_multipliers
              (RecoveryModel.funding_level_of (Py.finite ratio)) 1.0
       = 1.0.
Proof.
  apply (default_funding_is_medium RecoveryExample.flood_impacts RecoveryExample.default_funding).
  - reflexivity.
  - vm_compute. reflexivity.
Defined.

Section RecoveryQuality.
Import RecoveryModel TrajectorySpec RecoveryShape MilestoneSpec.

Variable np_sqrt : Q -> Q.
Variable np_exp : Q -> Q.
Hypothesis sqrt_mono : sqrt_monotone np_sqrt.
Hypothesis exp_pos : exp_positive np_exp.
Hypothesis exp_mono : exp_monotone np_exp.

Lemma recovery_horizons_keys (impacts : Impacts) (horizons : list (string * Z)) :
  _calculate_recovery_horizons impacts = Py.Ok horizons ->
  map fst horizons = ["housing"; "infrastructure"; "livelihoods"; "social"].
Proof.
  unfold _calculate_recovery_horizons. intros H.
  apply bind_ok in H. destruct H as (h & _ & H).
  apply bind_ok in H. destruct H as (i & _ & H).
  apply bind_ok in H. destruct H as (l & _ & H).
  injection H as <-. reflexivity.
Qed.

Lemma mean_within_unit (xs : list Q) :
  xs <> [] -> Forall (fun v => 0 <= v /\ v <= 1) xs ->
  0 <= Py.sumQ xs / inject_Z (Z.of_nat (List.length xs))
  /\ Py.sumQ xs / inject_Z (Z.of_nat (List.length xs)) <= 1.
Proof.
  intros Hne Hall. destruct (sumQ_unit_bounds xs Hall) as [H0 H1].
  assert (Hlen : 0 < inject_Z (Z.of_nat (List.length xs))).
  { change 0 with (inject_Z 0). rewrite <- Zlt_Qlt. destruct xs; [contradiction | cbn; lia]. }
  split.
  - apply Qle_shift_div_l; [exact Hlen | lra].
  - apply Qle_shift_div_r; [exact Hlen | lra].
Qed.

Lemma overall_scores_within_unit (metrics : list (string * Quality)) :
  Forall (fun kv => scores_within_unit (snd kv)) metrics ->
  Forall (fun v => 0 <= v /\ v <= 1) (map (fun kv => overall_score (snd kv)) metrics).
Proof.
  induction 1 as [| kv l (_ & _ & _ & H) _ IH]; cbn [map]; constructor; assumption.
Qed.

(** X10 ([RecoveryModel._assess_recovery_quality] through
    [simulate_recovery]).  When [simulate_recovery] returns, the quality
    metrics cover the four sectors in order, every speed, completeness,
    quality and overall score lies in [0, 1], and the aggregate score is
    present and lies in [0, 1]. *)
Theorem returned_quality_within_unit (disaster_impacts : Impacts)
  (governance_quality : list (string * string)) (funding_availability : Funding)
  (recovery : Recovery) :
  simulate_recovery np_sqrt np_exp disaster_impacts governance_quality funding_availability
  = Py.Ok recovery ->
  exists metrics aggregate,
    recovery_quality recovery = (metrics, Some aggregate)
    /\ map fst metrics = ["housing"; "infrastructure"; "livelihoods"; "social"]
    /\ Forall (fun kv => scores_within_unit (snd kv)) metrics
    /\ 0 <= aggregate /\ aggregate <= 1.
Proof.
  intros Hrun.
  pose proof (simulate_recovery_shaped np_sqrt np_exp sqrt_mono exp_pos exp_mono _ _ _ _ Hrun)
    as Hshape.
  unfold simulate_recovery in Hrun.
  apply bind_ok in Hrun. destruct Hrun as (horizons & Hh & H).
  apply bind_ok in H. destruct H as (ratio & _ & H).
  apply bind_ok in H. destruct H as (gm & _ & H).
  apply bind_ok in H. destruct H as (bbb & Hbbb & H).
  apply bind_ok in H. destruct H as (trajectories & _ & H).
  apply bind_ok in H. destruct H as (quality & Hq & H).
  injection H as <-. cbn [recovery_horizon_months recovery_trajectories recovery_quality] in *.
  apply bbb_improvement_range in Hbbb.
  destruct (sector_qualities_within_unit bbb horizons trajectories) as (qs & Eq & Hkeys & Hall);
    [lra | exact Hshape |].
  rewrite (recovery_horizons_keys _ _ Hh) in Hkeys.
  unfold _assess_recovery_quality in Hq. rewrite Eq in Hq. cbn [Py.bind] in Hq.
  destruct qs as [| q qs]; [discriminate |].
  injection Hq as <-. eexists _, _. split; [reflexivity |].
  split; [exact Hkeys |]. split; [exact Hall |].
  apply mean_within_unit; [discriminate |].
  apply (overall_scores_within_unit (q :: qs)). exact Hall.
Qed.

End RecoveryQuality.

Lemma milestones_are_first_months_witness :
  exists m30 m50 m70 m90,
    In ("housing", [("30%_recovery", m30); ("50%_recovery", m50);
                    ("70%_recovery", m70); ("90%_recovery", m90)])
       (RecoveryModel._calculate_recovery_milestones [("housing", [0; 0.4; 0.6; 1])])
    /\ MilestoneSpec.first_month 0.3 [0; 0.4; 0.6; 1] m30
    /\ MilestoneSpec.first_month 0.5 [0; 0.4; 0.6; 1] m50
    /\ MilestoneSpec.first_month 0.7 [0; 0.4; 0.6; 1] m70
    /\ MilestoneSpec.first_month 0.9 [0; 0.4; 0.6; 1] m90
    /\ MilestoneSpec.no_later m30 m50 /\ MilestoneSpec.no_later m50 m70
    /\ MilestoneSpec.no_later m70 m90.
Proof.
  apply (milestones_are_first_months [("housing", [0; 0.4; 0.6; 1])] "housing" [0; 0.4; 0.6; 1]).
  left. reflexivity.
Defined.

Section HazardFacts.
Import Generator HazardModel EventSpec.

Variable np_log : Q -> Q.
Variable gamma_ppf : Q -> Q -> Q -> Q.

Lemma inverse_cdf_in {A : Type} (values : list (A * Q)) (acc u : Q) (x : A) :
  inverse_cdf values acc u = Some x -> In x (map fst values).
Proof.
  revert acc. induction values as [| [y p] values IH]; intros acc; cbn; [discriminate |].
  destruct (Qle_bool u (acc + p)).
  - intros [= ->]. left. reflexivity.
  - intros H. right. exact (IH _ H).
Qed.

Lemma rv_discrete_in {A : Type} (values : list (A * Q)) (g g' : state) (x : A) :
  rv_discrete values g = Py.Ok (x, g') ->
  In x (map fst values) /\ g' = snd (next g).
Proof.
  unfold rv_discrete. destruct values as [| [first p] rest]; [discriminate |].
  destruct (existsb _ _); [discriminate |].
  destruct (negb _); [discriminate |].
  unfold next. cbv beta iota zeta. cbn [snd].
  destruct (inverse_cdf _ _ _) as [y |] eqn:E; intros [= <- <-].
  - split; [exact (inverse_cdf_in _ _ _ _ E) | reflexivity].
  - split; [left; reflexivity | reflexivity].
Qed.

Lemma sampled_month_range (self : t) (g g' : state) (month : Z) :
  _sample_month_from_profile self g = Py.Ok (month, g') ->
  (1 <= month <= 12)%Z /\ g' = snd (next g).
Proof.
  unfold _sample_month_from_profile. intros H. apply rv_discrete_in in H.
  destruct H as [Hin ->]. split; [| reflexivity].
  apply in_map_iff in Hin. destruct Hin as ([m' p] & <- & Hin).
  apply in_combine_l in Hin. cbn [fst].
  unfold months in Hin. cbn [In] in Hin.
  repeat (destruct Hin as [<- | Hin]; [lia |]). contradiction.
Qed.

Lemma gamma_rvs_pos (a scale : Q) (g : state) :
  pos (snd (gamma_rvs gamma_ppf a scale g)) = S (pos g).
Proof. reflexivity. Qed.

Lemma added_attributes_keys (self : t) (month : Z) (intensity : Q) (g g' : state)
  (attributes : list (string * attr)) :
  _add_hazard_specific_attributes np_log gamma_ppf self month intensity g
  = Py.Ok (attributes, g') ->
  map fst attributes = attribute_keys (hazard_type self)
  /\ (pos g <= pos g')%nat
  /\ draws g' = draws g.
Proof.
  unfold _add_hazard_specific_attributes, attribute_keys.
  destruct (hazard_type self =? "flood").
  - destruct (in_monsoon month); cbn; intros [= <- <-]; cbn;
      repeat split; (reflexivity || lia).
  - destruct (hazard_type self =? "cyclone").
    + intros H. apply bind_ok in H. destruct H as ([track g1] & Ht & H).
      apply rv_discrete_in in Ht. destruct Ht as [_ ->].
      cbn in H. injection H as <- <-. cbn. repeat split; (reflexivity || lia).
    + intros [= <- <-]. cbn. repeat split; (reflexivity || lia).
Qed.

(** What an iteration of the loop leaves when it returns. *)
Lemma generate_event_returned (self : t) (year : Z)
  (climate_effects : option (list (string * Q))) (return_period : Q) (g g' : state)
  (ev : option Event) :
  generate_event np_log gamma_ppf self year climate_effects return_period g
  = Py.Ok (ev, g') ->
  (pos g < pos g')%nat
  /\ draws g' = draws g
  /\ forall e, ev = Some e ->
       ev_type e = hazard_type self /\ ev_year e = year
       /\ ev_return_period e = return_period
       /\ (1 <= ev_month e <= 12)%Z
       /\ ev_intensity e
          = _intensity_from_return_period np_log self return_period
            * intensity_multiplier climate_effects
       /\ ev_spatial_footprint e = _generate_spatial_footprint self (ev_intensity e)
       /\ map fst (ev_attributes e) = attribute_keys (hazard_type self)
       /\ exists g0 g1,
            _add_hazard_specific_attributes np_log gamma_ppf self (ev_month e)
              (ev_intensity e) g0
            = Py.Ok (ev_attributes e, g1).
Proof.
  unfold generate_event. intros H. apply bind_ok in H. destruct H as (p & _ & H).
  unfold next in H at 1. cbv beta iota zeta in H.
  destruct (Qlt_le_dec _ _) as [Hocc | Hno].
  - apply bind_ok in H. destruct H as ([month g2] & Hm & H).
    apply bind_ok in H. destruct H as ([attributes g3] & Ha & H).
    injection H as <- <-.
    apply sampled_month_range in Hm. destruct Hm as [Hmonth ->].
    pose proof (added_attributes_keys _ _ _ _ _ _ Ha) as (Hkeys & Hpos & Hdraws).
    cbn [snd next pos draws] in Hpos, Hdraws.
    split; [lia |]. split; [exact Hdraws |].
    intros e [= <-].
    cbn [ev_type ev_year ev_return_period ev_month ev_intensity ev_spatial_footprint
         ev_attributes].
    repeat split; try assumption; try lia.
    eexists _, _. exact Ha.
  - injection H as <- <-. cbn [pos draws].
    split; [lia |]. split; [reflexivity |]. intros e. discriminate.
Qed.

(** Whether an iteration of the loop returns: it divides by the return
    period first, and for a cyclone the month sampler rejects the weights
    of the profile whenever an event occurs. *)
Lemma generate_event_outcome (self : t) (year : Z)
  (climate_effects : option (list (string * Q))) (return_period : Q) (g : state) :
  (return_period == 0 ->
   generate_event np_log gamma_ppf self year climate_effects return_period g
   = Py.Raise Py.ZeroDivisionError)
  /\ (~ return_period == 0 -> hazard_type self <> "cyclone" ->
      exists ev g',
        generate_event np_log gamma_ppf self year climate_effects return_period g
        = Py.Ok (ev, g')).
Proof.
  unfold generate_event, annual_prob. split.
  - intros H. rewrite (div_zero _ _ H). reflexivity.
  - intros H Hc. rewrite (div_nonzero _ _ H). cbn [Py.bind].
    unfold next at 1. cbv beta iota zeta.
    destruct (Qlt_le_dec _ _) as [Hocc | Hno]; [| eauto].
    destruct (month_sampled self {| draws := draws g; pos := S (pos g) |} Hc) as [month ->].
    cbn [Py.bind].
    match goal with
    | |- context [_add_hazard_specific_attributes np_log gamma_ppf self month ?i ?g2] =>
        destruct (attributes_added np_log gamma_ppf self month i g2)
          as (attributes & g3 & ->)
    end.
    cbn [Py.bind]. eauto.
Qed.

Lemma generate_loop_events (self : t) (year : Z)
  (climate_effects : option (list (string * Q))) (P : Event -> Prop) (rps : list Q) :
  (forall rp e, In rp rps -> ev_type e = hazard_type self -> ev_year e = year ->
                ev_return_period e = rp -> (1 <= ev_month e <= 12)%Z ->
                ev_intensity e
                = _intensity_from_return_period np_log self rp
                  * intensity_multiplier climate_effects ->
                ev_spatial_footprint e = _generate_spatial_footprint self (ev_intensity e) ->
                map fst (ev_attributes e) = attribute_keys (hazard_type self) ->
                (exists g0 g1,
                   _add_hazard_specific_attributes np_log gamma_ppf self (ev_month e)
                     (ev_intensity e) g0
                   = Py.Ok (ev_attributes e, g1)) -> P e) ->
  forall events g events' g',
    generate_loop np_log gamma_ppf self year climate_effects rps events g
    = Py.Ok (events', g') ->
    Forall P events ->
    Forall P events'
    /\ (List.length events' <= List.length events + List.length rps)%nat
    /\ (pos g + List.length rps <= pos g')%nat
    /\ draws g' = draws g.
Proof.
  induction rps as [| rp rps IH]; intros HP events g events' g'; cbn [generate_loop].
  - intros [= <- <-] Hall. split; [exact Hall |]. cbn. split; [lia |]. split; [lia | reflexivity].
  - intros H Hall. apply bind_ok in H. destruct H as ([ev g1] & Hev & H).
    destruct (generate_event_returned self year climate_effects rp g g1 ev Hev)
      as (Hpos & Hdraws & Hfields).
    assert (Hall' : Forall P match ev with
                             | Some e => (events ++ [e])%list
                             | None => events
                             end).
    { destruct ev as [e |]; [| exact Hall].
      apply Forall_app. split; [exact Hall |]. constructor; [| constructor].
      destruct (Hfields e eq_refl) as (H1 & H2 & H3 & H4 & H5 & H6 & H7 & H8).
      apply (HP rp e); try assumption. left. reflexivity. }
    destruct (IH (fun rp' e Hin => HP rp' e (or_intror Hin)) _ _ _ _ H Hall')
      as (Hres & Hlen & Hpos' & Hdraws').
    split; [exact Hres |]. cbn [List.length].
    split; [| split; [lia | congruence]].
    destruct ev as [e |]; [rewrite length_app in Hlen; cbn [List.length] in Hlen |]; lia.
Qed.

Lemma generate_events_facts (self : t) (year : Z)
  (climate_effects : option (list (string * Q))) (g g' : state) (events : list Event) :
  generate_events np_log gamma_ppf self year climate_effects g = Py.Ok (events, g') ->
  (List.length events <= List.length (return_periods self))%nat
  /\ Forall (well_formed np_log self year climate_effects) events
  /\ (pos g + List.length (return_periods self) <= pos g')%nat.
Proof.
  unfold generate_events. intros H.
  assert (HP : forall rp e,
             In rp (return_periods self) -> ev_type e = hazard_type self -> ev_year e = year ->
             ev_return_period e = rp -> (1 <= ev_month e <= 12)%Z ->
             ev_intensity e
             = _intensity_from_return_period np_log self rp
               * intensity_multiplier climate_effects ->
             ev_spatial_footprint e = _generate_spatial_footprint self (ev_intensity e) ->
             map fst (ev_attributes e) = attribute_keys (hazard_type self) ->
             (exists g0 g1,
                _add_hazard_specific_attributes np_log gamma_ppf self (ev_month e)
                  (ev_intensity e) g0
                = Py.Ok (ev_attributes e, g1)) ->
             well_formed np_log self year climate_effects e).
  { intros rp e Hin H1 H2 H3 H4 H5 H6 H7 _.
    constructor; try assumption; rewrite H3; assumption. }
  destruct (generate_loop_events self year climate_effects _ (return_periods self) HP
              [] g events g' H (Forall_nil _)) as (Hall & Hlen & Hpos & _).
  cbn [List.length] in Hlen. split; [lia |]. split; assumption.
Qed.

(** X11 ([HazardModel.generate_events]).  When [generate_events] returns, it
    returns at most one event per return period; every event carries the
    model's hazard type, the year asked for, one of the model's return
    periods, a month from 1 to 12, the intensity of its return period scaled
    by the climate multiplier, the footprint of the spatial pattern and the
    attribute keys of its hazard type; and at least one variate per return
    period has been drawn from the ambient generator. *)
Theorem generated_events_well_formed (self : t) (year : Z)
  (climate_effects : option (list (string * Q))) (g g' : state) (events : list Event) :
  generate_events np_log gamma_ppf self year climate_effects g = Py.Ok (events, g') ->
  (List.length events <= List.length (return_periods self))%nat
  /\ Forall (well_formed np_log self year climate_effects) events
  /\ (pos g + List.length (return_periods self) <= pos g')%nat.
Proof. apply generate_events_facts. Qed.

Lemma generated_events_attributes (self : t) (year : Z)
  (climate_effects : option (list (string * Q))) (g g' : state) (events : list Event) :
  generate_events np_log gamma_ppf self year climate_effects g = Py.Ok (events, g') ->
  Forall (fun e =>
            ev_type e = hazard_type self
            /\ exists g0 g1,
                 _add_hazard_specific_attributes np_log gamma_ppf self (ev_month e)
                   (ev_intensity e) g0
                 = Py.Ok (ev_attributes e, g1)) events.
Proof.
  unfold generate_events. intros H.
  destruct (generate_loop_events self year climate_effects
              (fun e => ev_type e = hazard_type self
                        /\ exists g0 g1,
                             _add_hazard_specific_attributes np_log gamma_ppf self
                               (ev_month e) (ev_intensity e) g0
                             = Py.Ok (ev_attributes e, g1))
              (return_periods self)) with (events := @nil Event) (g := g)
              (events' := events) (g' := g') as (Hall & _); auto.
Qed.

End HazardFacts.

Lemma generated_events_well_formed_witness :
  exists events g',
    HazardModel.generate_events Fixed.log Fixed.gamma_ppf ExampleConfig.flood 2025 None
      (Generator.replay [0.05; 0.5; 0.5; 0.04] 0.5) = Py.Ok (events, g')
    /\ (List.length events <= 4)%nat
    /\ Forall (EventSpec.well_formed Fixed.log ExampleConfig.flood 2025 None) events
    /\ (4 <= Generator.pos g')%nat.
Proof.
  eexists _, _. split; [vm_compute; reflexivity |].
  apply (generated_events_well_formed Fixed.log Fixed.gamma_ppf ExampleConfig.flood 2025 None
           (Generator.replay [0.05; 0.5; 0.5; 0.04] 0.5)).
  vm_compute. reflexivity.
Defined.

Section HazardErrors.
Import Generator HazardModel EventSpec.

Variable np_log : Q -> Q.
Variable gamma_ppf : Q -> Q -> Q -> Q.

Lemma generate_loop_outcome (self : t) (year : Z)
  (climate_effects : option (list (string * Q))) (rps : list Q) :
  hazard_type self <> "cyclone" ->
  forall events g,
    (Exists (fun rp => rp == 0) rps ->
     generate_loop np_log gamma_ppf self year climate_effects rps events g
     = Py.Raise Py.ZeroDivisionError)
    /\ (Forall (fun rp => ~ rp == 0) rps ->
        exists events' g',
          generate_loop np_log gamma_ppf self year climate_effects rps events g
          = Py.Ok (events', g')).
Proof.
  intros Hc. induction rps as [| rp rps IH]; intros events g; cbn [generate_loop].
  - split; [intros H; inversion H | intros _; eauto].
  - destruct (generate_event_outcome np_log gamma_ppf self year climate_effects rp g)
      as [Hzero Hok].
    destruct (Qeq_dec rp 0) as [E | E].
    + rewrite (Hzero E). cbn [Py.bind]. split; [reflexivity |].
      intros H. inversion H; subst. contradiction.
    + destruct (Hok E Hc) as (ev & g1 & ->). cbn [Py.bind].
      split.
      * intros H. inversion H; subst; [contradiction |]. apply IH. assumption.
      * intros H. inversion H; subst. apply IH. assumption.
Qed.

(** X12 ([HazardModel.generate_events], division by the return period).  For
    a hazard other than a cyclone (so that the month weights sum to 1):
    [generate_events] raises ZeroDivisionError when one of the return periods
    is zero, and returns a list of events otherwise. *)
Theorem zero_return_period_divides_by_zero (self : t) (year : Z)
  (climate_effects : option (list (string * Q))) (g : state) :
  hazard_type self <> "cyclone" ->
  (Exists (fun rp => rp == 0) (return_periods self) ->
   generate_events np_log gamma_ppf self year climate_effects g
   = Py.Raise Py.ZeroDivisionError)
  /\ (Forall (fun rp => ~ rp == 0) (return_periods self) ->
      exists events g',
        generate_events np_log gamma_ppf self year climate_effects g = Py.Ok (events, g')).
Proof.
  intros Hc. unfold generate_events. apply generate_loop_outcome. exact Hc.
Qed.

Lemma cyclone_event_never_returned (self : t) (year : Z)
  (climate_effects : option (list (string * Q))) (return_period : Q) (g g' : state)
  (ev : option Event) :
  hazard_type self = "cyclone" ->
  generate_event np_log gamma_ppf self year climate_effects return_period g
  = Py.Ok (ev, g') ->
  ev = None.
Proof.
  intros Hc. unfold generate_event. intros H. apply bind_ok in H. destruct H as (p & _ & H).
  unfold next in H at 1. cbv beta iota zeta in H.
  destruct (Qlt_le_dec _ _) as [Hocc | Hno].
  - rewrite (cyclone_month_rejected self _ Hc) in H. discriminate.
  - injection H as <- _. reflexivity.
Qed.

Lemma cyclone_loop_adds_nothing (self : t) (year : Z)
  (climate_effects : option (list (string * Q))) (rps : list Q) :
  hazard_type self = "cyclone" ->
  forall events g events' g',
    generate_loop np_log gamma_ppf self year climate_effects rps events g
    = Py.Ok (events', g') ->
    events' = events.
Proof.
  intros Hc. induction rps as [| rp rps IH]; intros events g events' g'; cbn [generate_loop].
  - intros [= <- _]. reflexivity.
  - intros H. apply bind_ok in H. destruct H as ([ev g1] & Hev & H).
    rewrite (cyclone_event_never_returned _ _ _ _ _ _ _ Hc Hev) in H.
    exact (IH _ _ _ _ H).
Qed.

(** X13 ([HazardModel._sample_month_from_profile]).  The sampler of the month
    checks that the weights of the profile sum to 1.  For a flood and for
    the default profile they do, and a month from 1 to 12 is drawn with one
    variate.  The weights of the cyclone profile sum to 0.71: the sampler
    raises ValueError for every cyclone, so a cyclone model never returns
    an event, [generate_events] raising ValueError when one occurs and
    returning the empty list otherwise. *)
Theorem month_sampling_outcome (self : t) (year : Z)
  (climate_effects : option (list (string * Q))) (g : state) :
  (hazard_type self <> "cyclone" ->
   Py.sumQ (month_probabilities self) == 1
   /\ exists month,
        _sample_month_from_profile self g = Py.Ok (month, snd (next g))
        /\ (1 <= month <= 12)%Z)
  /\ (hazard_type self = "cyclone" ->
      Py.sumQ (month_probabilities self) == 0.71
      /\ _sample_month_from_profile self g = Py.Raise Py.ValueError
      /\ forall events g',
           generate_events np_log gamma_ppf self year climate_effects g
           = Py.Ok (events, g') ->
           events = []).
Proof.
  split.
  - intros Hc. split.
    + unfold month_probabilities.
      destruct (hazard_type self =? "flood");
        [destruct (seasonal_profile self =? "monsoon"); reflexivity |].
      apply String.eqb_neq in Hc. rewrite Hc. reflexivity.
    + destruct (month_sampled self g Hc) as [month E]. exists month.
      split; [exact E |]. exact (proj1 (sampled_month_range _ _ _ _ E)).
  - intros Hc. split; [| split].
    + unfold month_probabilities. rewrite Hc. reflexivity.
    + exact (cyclone_month_rejected self g Hc).
    + intros events g' H. unfold generate_events in H.
      exact (cyclone_loop_adds_nothing _ _ _ _ Hc _ _ _ _ H).
Qed.

End HazardErrors.

Lemma zero_return_period_divides_by_zero_witness :
  HazardModel.generate_events Fixed.log Fixed.gamma_ppf
    {| HazardModel.hazard_type := "flood";
       HazardModel.return_periods := [10; 0; 50];
       HazardModel.intensity_scales := [];
       HazardModel.spatial_patterns := "riverine";
       HazardModel.seasonal_profile := "monsoon";
       HazardModel.climate_sensitivity := [] |} 2025 None (Generator.replay [] 0.5)
  = Py.Raise Py.ZeroDivisionError.
Proof.
  apply (zero_return_period_divides_by_zero Fixed.log Fixed.gamma_ppf
           {| HazardModel.hazard_type := "flood";
              HazardModel.return_periods := [10; 0; 50];
              HazardModel.intensity_scales := [];
              HazardModel.spatial_patterns := "riverine";
              HazardModel.seasonal_profile := "monsoon";
              HazardModel.climate_sensitivity := [] |} 2025 None (Generator.replay [] 0.5)).
  - discriminate.
  - right. left. reflexivity.
Defined.

Section FootprintExposure.
Import HazardModel ExposureModel.

(** X14 ([HazardModel._generate_spatial_footprint] with
    [ExposureModel.get_exposed_elements]).  The footprint of a generated
    event depends on the spatial pattern only, never on the intensity; its
    exposure ratio is 0.5 for a riverine pattern, 0.4 for a coastal one and
    0.1 for any other. *)
Theorem footprint_exposure_ratio (self : HazardModel.t) (intensity : Q) :
  let ratio := exposure_ratio_of (_generate_spatial_footprint self intensity) in
  (spatial_patterns self = "riverine" -> ratio == 0.5)
  /\ (spatial_patterns self = "coastal" -> ratio == 0.4)
  /\ (spatial_patterns self <> "riverine" -> spatial_patterns self <> "coastal" ->
      ratio == 0.1)
  /\ forall intensity',
       _generate_spatial_footprint self intensity'
       = _generate_spatial_footprint self intensity.
Proof.
  unfold _generate_spatial_footprint.
  destruct (String.eqb_spec (spatial_patterns self) "riverine") as [Er | Er].
  - repeat split; try reflexivity; intros; try rewrite Er in *; try discriminate;
      contradiction.
  - destruct (String.eqb_spec (spatial_patterns self) "coastal") as [Ec | Ec].
    + repeat split; try reflexivity; intros; try rewrite Ec in *; try discriminate;
        contradiction.
    + repeat split; try reflexivity; intros; contradiction.
Qed.

End FootprintExposure.

Section ClimateEffects.
Import ClimateChangeModel.

Lemma get_in_or_default {A : Type} (d : list (string * A)) (k : string) (default : A) :
  In (Py.get d k default) (default :: map snd d).
Proof.
  unfold Py.get. destruct (Py.lookup k d) as [v |] eqn:E; [| left; reflexivity].
  right. apply lookup_in in E. apply in_map_iff. exists (k, v). split; [reflexivity | exact E].
Qed.

Lemma resolve_cases (scenario : string) :
  resolve scenario = RCP45 \/ resolve scenario = RCP85 \/ resolve scenario = RCP26.
Proof.
  destruct (Py.lookup scenario scenarios) as [tbl |] eqn:E.
  - rewrite (resolve_known _ _ E).
    destruct (known_pathway_cases _ _ E) as [[_ ->] | [[_ ->] | [_ ->]]]; auto.
  - left. apply resolve_unknown. unfold Py.contains. rewrite E. reflexivity.
Qed.

Lemma decade_values_bounds (scenario : string) (decade : Decade) :
  let s := resolve scenario in
  (0.05 <= nth 1 (at_decade (precipitation_change s) decade) 0
   /\ nth 1 (at_decade (precipitation_change s) decade) 0 <= 0.25)
  /\ (-0.12 <= nth 3 (at_decade (precipitation_change s) decade) 0
      /\ nth 3 (at_decade (precipitation_change s) decade) 0 <= -0.01)
  /\ (0.10 <= at_decade (sea_level_rise s) decade
      /\ at_decade (sea_level_rise s) decade <= 0.45)
  /\ (0.05 <= at_decade (extreme_rainfall_factor s) decade
      /\ at_decade (extreme_rainfall_factor s) decade <= 0.30)
  /\ (0.03 <= at_decade (cyclone_intensity_factor s) decade
      /\ at_decade (cyclone_intensity_factor s) decade <= 0.25)
  /\ (0.6 <= at_decade (temperature_increase s) decade
      /\ at_decade (temperature_increase s) decade <= 2.2)
  /\ (0.05 <= at_decade (drought_frequency_factor s) decade
      /\ at_decade (drought_frequency_factor s) decade <= 0.35).
Proof.
  intros s. subst s.
  destruct (resolve_cases scenario) as [-> | [-> | ->]]; destruct decade;
    vm_compute; repeat split; discriminate.
Qed.

Lemma sensitivity_bounds (region key : string) :
  let region_factors := Py.get regional_sensitivity region floodplain_factors in
  0 <= Py.get region_factors key 0.5 /\ Py.get region_factors key 0.5 <= 1.
Proof.
  intros region_factors.
  pose proof (get_in_or_default regional_sensitivity region floodplain_factors) as Hrf.
  fold region_factors in Hrf. clearbody region_factors.
  unfold regional_sensitivity, floodplain_factors in Hrf. cbn [map snd In] in Hrf.
  repeat (destruct Hrf as [<- | Hrf]); try contradiction;
    (apply (get_satisfies (fun v => 0 <= v /\ v <= 1));
     [repeat first [apply Forall_nil | apply Forall_cons; [vm_compute; split; discriminate |]]
     | vm_compute; split; discriminate]).
Qed.

Lemma climate_effects_range (year : Z) (scenario region hazard_type : string) :
  let effects := Py.value (apply_climate_scenarios year scenario region hazard_type) in
  (0 <= Py.get effects "intensity_change" 0 /\ Py.get effects "intensity_change" 0 <= 0.56)
  /\ (0 <= Py.get effects "frequency_change" 0 /\ Py.get effects "frequency_change" 0 <= 0.36)
  /\ HazardModel.intensity_multiplier (Some effects)
     == 1 + Py.get effects "intensity_change" 0
  /\ HazardModel.frequency_multiplier (Some effects)
     == 1 + Py.get effects "frequency_change" 0.
Proof.
  unfold apply_climate_scenarios.
  pose proof (sensitivity_bounds region "flood") as Hflood.
  pose proof (sensitivity_bounds region "cyclone") as Hcyclone.
  pose proof (sensitivity_bounds region "drought") as Hdrought.
  pose proof (sensitivity_bounds region "salinity") as Hsalinity.
  pose proof (decade_values_bounds scenario (step_decade year))
    as (Hmonsoon & Hwinter & Hslr & Hrain & Hcf & Htemp & Hdf).
  cbv zeta in *.
  set (region_factors := Py.get regional_sensitivity region floodplain_factors) in *.
  set (flood_s := Py.get region_factors "flood" 0.5) in *.
  set (cyclone_s := Py.get region_factors "cyclone" 0.5) in *.
  set (drought_s := Py.get region_factors "drought" 0.5) in *.
  set (salinity_s := Py.get region_factors "salinity" 0.5) in *.
  set (s := resolve scenario) in *. set (decade := step_decade year) in *.
  set (monsoon := nth 1 (at_decade (precipitation_change s) decade) 0) in *.
  set (winter := nth 3 (at_decade (precipitation_change s) decade) 0) in *.
  set (slr := at_decade (sea_level_rise s) decade) in *.
  set (rain := at_decade (extreme_rainfall_factor s) decade) in *.
  set (cf := at_decade (cyclone_intensity_factor s) decade) in *.
  set (temp := at_decade (temperature_increase s) decade) in *.
  set (df := at_decade (drought_frequency_factor s) decade) in *.
  clearbody flood_s cyclone_s drought_s salinity_s monsoon winter slr rain cf temp df.
  clear region_factors s decade.
  unfold Py.value, Py.silent, region_in. cbn [fst existsb].
  destruct (hazard_type =? "flood");
    [| destruct (hazard_type =? "cyclone");
       [| destruct (hazard_type =? "drought");
          [| destruct (hazard_type =? "landslide");
             [| destruct (hazard_type =? "salinity");
                [| destruct (hazard_type =? "erosion") ]]]]];
    repeat match goal with
           | |- context [String.eqb region ?r] => destruct (String.eqb region r)
           | |- context [Qlt_le_dec ?a ?b] => destruct (Qlt_le_dec a b)
           end;
    cbn -[Qplus Qmult Qopp Qminus Qle Qlt Qeq];
    repeat split; try nra.
Qed.

(** X15 ([ClimateChangeModel.apply_climate_scenarios] with
    [HazardModel.generate_events]).  For every year, pathway, region and
    hazard type the effects dictionary has an intensity change between 0 and
    0.56 and a frequency change between 0 and 0.36 (0 when the key is
    absent), so the multipliers [generate_events] derives from it lie in
    [1, 1.56] and [1, 1.36]: the climate never lowers the intensity or the
    probability of an event. *)
Theorem climate_effects_never_reduce (year : Z) (scenario region hazard_type : string) :
  let effects := Py.value (apply_climate_scenarios year scenario region hazard_type) in
  (0 <= Py.get effects "intensity_change" 0 /\ Py.get effects "intensity_change" 0 <= 0.56)
  /\ (0 <= Py.get effects "frequency_change" 0 /\ Py.get effects "frequency_change" 0 <= 0.36)
  /\ (1 <= HazardModel.intensity_multiplier (Some effects)
      /\ HazardModel.intensity_multiplier (Some effects) <= 1.56)
  /\ (1 <= HazardModel.frequency_multiplier (Some effects)
      /\ HazardModel.frequency_multiplier (Some effects) <= 1.36).
Proof.
  intros effects.
  destruct (climate_effects_range year scenario region hazard_type)
    as ((I0 & I1) & (F0 & F1) & EI & EF).
  fold effects in I0, I1, F0, F1, EI, EF.
  split; [split; assumption |]. split; [split; assumption |].
  rewrite EI, EF. repeat split; lra.
Qed.

Lemma inject_Z_offset (year c : Z) : inject_Z (year - c) == inject_Z year - inject_Z c.
Proof. unfold Z.sub. rewrite inject_Z_plus, inject_Z_opp. ring. Qed.

Lemma scalar_monotone (scenario : string) (year year' : Z)
  (field : Scenario -> by_decade Q) :
  In field [temperature_increase; sea_level_rise; cyclone_intensity_factor;
            drought_frequency_factor; extreme_rainfall_factor] ->
  (year <= year')%Z ->
  (let '(decade, prev, f) := decade_of year in scalar (field (resolve scenario)) decade prev f)
  <= (let '(decade, prev, f) := decade_of year' in
      scalar (field (resolve scenario)) decade prev f).
Proof.
  intros Hfield Hle. unfold decade_of.
  assert (Hq : inject_Z year <= inject_Z year') by (rewrite <- Zle_Qle; exact Hle).
  destruct (Z.leb_spec year 2030) as [H1 | H1];
    [| destruct (Z.leb_spec year 2040) as [H2 | H2]];
    (destruct (Z.leb_spec year' 2030) as [H1' | H1'];
     [| destruct (Z.leb_spec year' 2040) as [H2' | H2']]); try lia;
    unfold scalar, interpolate; rewrite !inject_Z_offset;
    repeat match goal with
           | H : (_ <= _)%Z |- _ => rewrite Zle_Qle in H
           | H : (_ < _)%Z |- _ => rewrite Zlt_Qlt in H
           end;
    set (y := inject_Z year) in *; set (y' := inject_Z year') in *; clearbody y y';
    cbn [In] in Hfield;
    repeat (destruct Hfield as [<- | Hfield]); try contradiction;
    destruct (resolve_cases scenario) as [-> | [-> | ->]];
    cbn [at_decade temperature_increase sea_level_rise cyclone_intensity_factor
         drought_frequency_factor extreme_rainfall_factor RCP45 RCP85 RCP26
         at2030 at2040 at2050];
    change (inject_Z 2025) with 2025 in *; change (inject_Z 2030) with 2030 in *;
    change (inject_Z 2040) with 2040 in *;
    unfold Qdiv; change (/ 5) with (1 # 5); change (/ 10) with (1 # 10); lra.
Qed.

(** X16 ([ClimateChangeModel.get_annual_climate_parameters]).  For every
    pathway, the temperature increase, the sea level rise and the cyclone,
    drought and extreme-rainfall factors never decrease from a year to a
    later one, across the decade boundaries and outside the table's years
    as well. *)
Theorem annual_parameters_grow_with_year (year year' : Z) (scenario : string) :
  (year <= year')%Z ->
  let p := Py.value (get_annual_climate_parameters year scenario) in
  let p' := Py.value (get_annual_climate_parameters year' scenario) in
  p_temperature_increase p <= p_temperature_increase p'
  /\ p_sea_level_rise p <= p_sea_level_rise p'
  /\ p_cyclone_intensity_factor p <= p_cyclone_intensity_factor p'
  /\ p_drought_frequency_factor p <= p_drought_frequency_factor p'
  /\ p_extreme_rainfall_factor p <= p_extreme_rainfall_factor p'.
Proof.
  intros Hle p p'. subst p p'. rewrite !value_at.
  pose proof (fun field H => scalar_monotone scenario year year' field H Hle) as Hm.
  destruct (decade_of year) as [[d prev] f]. destruct (decade_of year') as [[d' prev'] f'].
  cbn [p_temperature_increase p_sea_level_rise p_cyclone_intensity_factor
       p_drought_frequency_factor p_extreme_rainfall_factor].
  repeat split; apply Hm; cbn [In]; tauto.
Qed.

(** X17 (decade selection of the two [apply_climate_scenarios]).  The module
    version takes the next decade of the table ([year <= 2030], [<= 2040],
    else 2050) and the single-file version the decade the year lies in
    ([(year // 10) * 10], limited to 2030..2050): they choose the same
    decade exactly for the years up to 2030, for 2040, and from 2050 on. *)
Theorem decade_choice_of_the_two_versions (year : Z) :
  step_decade year = Monolith_ClimateChangeModel.decade_marker year
  <-> (year <= 2030 \/ year = 2040 \/ 2050 <= year)%Z.
Proof.
  unfold step_decade, Monolith_ClimateChangeModel.decade_marker.
  pose proof (Z.div_mod year 10 ltac:(lia)) as Hdm.
  pose proof (Z.mod_pos_bound year 10 ltac:(lia)) as Hmod.
  set (q := (year / 10)%Z) in *. clearbody q.
  destruct (Z.leb_spec year 2030); [| destruct (Z.leb_spec year 2040)];
    destruct (Z.ltb_spec (q * 10) 2030);
    destruct (Z.gtb_spec (q * 10) 2050);
    destruct (Z.eqb_spec (q * 10) 2030);
    destruct (Z.eqb_spec (q * 10) 2040);
    split; intros; try discriminate; try reflexivity; try lia.
Qed.

End ClimateEffects.

Lemma annual_parameters_grow_with_year_witness :
  let p := Py.value (ClimateChangeModel.get_annual_climate_parameters 2028 "RCP8.5") in
  let p' := Py.value (ClimateChangeModel.get_annual_climate_parameters 2043 "RCP8.5") in
  ClimateChangeModel.p_temperature_increase p <= ClimateChangeModel.p_temperature_increase p'
  /\ ClimateChangeModel.p_sea_level_rise p <= ClimateChangeModel.p_sea_level_rise p'
  /\ ClimateChangeModel.p_cyclone_intensity_factor p
     <= ClimateChangeModel.p_cyclone_intensity_factor p'
  /\ ClimateChangeModel.p_drought_frequency_factor p
     <= ClimateChangeModel.p_drought_frequency_factor p'
  /\ ClimateChangeModel.p_extreme_rainfall_factor p
     <= ClimateChangeModel.p_extreme_rainfall_factor p'.
Proof.
  apply (annual_parameters_grow_with_year 2028 2043 "RCP8.5"). lia.
Defined.

Section ExposedUnits.
Import Generator ExposureModel ExposureSpec.

Variable permutation : nat -> state -> list nat * state.
Hypothesis permutation_shuffles : shuffles permutation.

Lemma firstn_of_shuffle (n k : nat) (p : list nat) :
  Permutation p (seq 0 n) -> (k <= n)%nat ->
  List.length (firstn k p) = k
  /\ NoDup (firstn k p)
  /\ Forall (fun i => (i < n)%nat) (firstn k p).
Proof.
  intros Hperm Hk.
  assert (Hlen : List.length p = n)
    by (rewrite (Permutation_length Hperm); apply length_seq).
  split; [rewrite length_firstn; lia |]. split.
  - assert (Hnd : NoDup (firstn k p ++ skipn k p)).
    { rewrite firstn_skipn. apply (Permutation_NoDup (Permutation_sym Hperm)).
      apply seq_NoDup. }
    apply (NoDup_app_remove_r _ _ Hnd).
  - apply Forall_forall. intros i Hi.
    assert (Hin : In i (seq 0 n)).
    { apply (Permutation_in i Hperm). rewrite <- (firstn_skipn k p).
      apply in_or_app. left. exact Hi. }
    apply in_seq in Hin. lia.
Qed.

Lemma exposed_units_of_choice (self : t)
  (hazard_footprint : list (string * HazardModel.attr)) (g : state) :
  (Py.lookup (admin_level self) (admin_boundaries self) = None ->
   Monolith_ExposureModel.get_exposed_elements permutation self hazard_footprint g
   = Py.Raise (Py.KeyError (admin_level self)))
  /\ (forall admin_gdf,
        Py.lookup (admin_level self) (admin_boundaries self) = Some admin_gdf ->
        exists exposed g',
          Monolith_ExposureModel.get_exposed_elements permutation self hazard_footprint g
          = Py.Ok (exposed, g')
          /\ let units := Monolith_ExposureModel.x_admin_units exposed in
             let num_exposed_units :=
               Z.to_nat (Py.py_int (inject_Z (Z.of_nat (num_units admin_gdf))
                                    * exposure_ratio_of hazard_footprint)) in
             units = firstn num_exposed_units (fst (permutation (num_units admin_gdf) g))
             /\ List.length units = num_exposed_units
             /\ (num_exposed_units <= num_units admin_gdf)%nat
             /\ NoDup units
             /\ Forall (fun i => (i < num_units admin_gdf)%nat) units).
Proof.
  unfold Monolith_ExposureModel.get_exposed_elements, Py.item. split.
  - intros ->. reflexivity.
  - intros admin_gdf ->. cbn [Py.bind].
    destruct (exposure_ratio_bounds hazard_footprint) as [Hr0 Hr1].
    rewrite random_choice_returns by lra. cbn [Py.bind].
    set (n := num_units admin_gdf).
    set (k := Z.to_nat (Py.py_int (inject_Z (Z.of_nat n) * exposure_ratio_of hazard_footprint))).
    assert (Hk : (k <= n)%nat).
    { assert (Hn : 0 <= inject_Z (Z.of_nat n))
        by (change 0 with (inject_Z 0); rewrite <- Zle_Qle; lia).
      destruct (scaled_within _ (exposure_ratio_of hazard_footprint) Hn) as [Hlo Hhi];
        [lra | lra |].
      pose proof (py_int_le_Z _ _ Hlo Hhi). unfold k. lia. }
    destruct (firstn_of_shuffle n k (fst (permutation n g))
                (rearranges permutation permutation_shuffles n g) Hk)
      as (Hlen & Hnd & Hlt).
    destruct (Monolith_ExposureModel.exposed_critical _ _ _) as [critical g2].
    eexists _, _. split; [reflexivity |].
    cbn [Monolith_ExposureModel.x_admin_units].
    repeat split; assumption.
Qed.


End ExposedUnits.


Section UpdateFacts.
Import ExposureModel Monolith_ExposureModel ExposureSpec UpdateSpec.

Lemma contains_set (k k' : string) (v : Q) (d : list (string * Q)) :
  Py.contains k d = true -> Py.contains k' (Py.set k v d) = Py.contains k' d.
Proof.
  unfold Py.contains. induction d as [| [k0 v0] d IH]; cbn [Py.lookup Py.set]; [discriminate |].
  destruct (String.eqb_spec k k0) as [-> | Hne].
  - intros _. cbn [Py.lookup]. destruct (k' =? k0); reflexivity.
  - intros H. cbn [Py.lookup]. destruct (k' =? k0); [reflexivity | apply IH; exact H].
Qed.

Lemma modify_returns (k : string) (f : Q -> Q) (d : list (string * Q)) :
  Py.contains k d = true ->
  exists v, Py.lookup k d = Some v
            /\ modify k f d = Py.Ok (Py.set k (f v) d)
            /\ forall k', Py.contains k' (Py.set k (f v) d) = Py.contains k' d.
Proof.
  intros H. unfold modify, Py.item. pose proof H as H'. unfold Py.contains in H'.
  destruct (Py.lookup k d) as [v |]; [| discriminate].
  exists v. split; [reflexivity |]. split; [reflexivity |].
  intros k'. apply contains_set. exact H.
Qed.

Lemma modify_fails (k : string) (f : Q -> Q) (d : list (string * Q)) :
  Py.contains k d = false -> modify k f d = Py.Raise (Py.KeyError k).
Proof.
  unfold modify, Py.item, Py.contains. destruct (Py.lookup k d); [discriminate | reflexivity].
Qed.

Lemma modify_three (k1 k2 k3 : string) (f1 f2 f3 : Q -> Q) (d : list (string * Q)) :
  has_keys [k1; k2; k3] d ->
  exists d',
    (x <- modify k1 f1 d ;; y <- modify k2 f2 x ;; modify k3 f3 y) = Py.Ok d'
    /\ forall k, Py.contains k d' = Py.contains k d.
Proof.
  intros H. unfold has_keys in H. rewrite !Forall_cons_iff in H. destruct H as (H1 & H2 & H3 & _).
  destruct (modify_returns k1 f1 d H1) as (v1 & _ & -> & C1). cbn [Py.bind].
  destruct (modify_returns k2 f2 _ (eq_trans (C1 k2) H2)) as (v2 & _ & -> & C2). cbn [Py.bind].
  destruct (modify_returns k3 f3 _ (eq_trans (C2 k3) (eq_trans (C1 k3) H3)))
    as (v3 & _ & -> & C3).
  eexists. split; [reflexivity |].
  intros k. rewrite C3, C2, C1. reflexivity.
Qed.

Lemma has_keys_same (keys : list string) (d d' : list (string * Q)) :
  (forall k, Py.contains k d' = Py.contains k d) -> has_keys keys d -> has_keys keys d'.
Proof.
  intros H. unfold has_keys. apply Forall_impl. intros k Hk. rewrite H. exact Hk.
Qed.

Lemma pow_returns (x : Q) (n : Z) :
  (x == 0 -> (0 <= n)%Z) -> Py.pow x n = Py.Ok (Qpower x n).
Proof.
  intros H. unfold Py.pow. destruct (Qeq_bool x 0) eqn:E; [| reflexivity].
  apply Qeq_bool_iff in E. destruct (Z.ltb_spec n 0); [specialize (H E); lia | reflexivity].
Qed.

Lemma pow_raises (x : Q) (n : Z) :
  x == 0 -> (n < 0)%Z -> Py.pow x n = Py.Raise Py.ZeroDivisionError.
Proof.
  intros E H. unfold Py.pow. apply Qeq_bool_iff in E. rewrite E.
  destruct (Z.ltb_spec n 0); [reflexivity | lia].
Qed.

Lemma update_exposure_returns (self : t) (year : Z) :
  updatable self ->
  (1 + population_growth_rate self == 0 -> (2025 <= year)%Z) ->
  exists self',
    update_exposure self year = Py.Ok self'
    /\ updatable self'
    /\ population_growth_rate self' = population_growth_rate self
    /\ total_population self'
       = total_population self * Qpower (1 + population_growth_rate self) (year - 2025).
Proof.
  intros [Hb Hf Hs] Hrate. unfold update_exposure. cbv zeta.
  rewrite pow_returns by (intros E; specialize (Hrate E); lia). cbn [Py.bind].
  set (yp := inject_Z (year - 2025)).
  destruct (modify_three "RCC" "kutcha" "semi_pucca"
              (fun v => Qmin (v + yp * 0.003) 0.35) (fun v => v - yp * 0.003 / 2)
              (fun v => v - yp * 0.003 / 2) _ Hb) as (bt & Ebt & Cbt).
  destruct (modify_three "cyclone_shelters" "hospitals" "telecom_towers"
              (fun v => v + 50 * yp) (fun v => v + 10 * yp) (fun v => v + 1000 * yp) _ Hf)
    as (cf & Ecf & Ccf).
  destruct (modify_three "services" "agriculture" "industry"
              (fun v => Qmin (v + yp * 0.002) 0.65) (fun v => v - yp * 0.002 / 2)
              (fun v => v - yp * 0.002 / 2) _ Hs) as (es & Ees & Ces).
  apply bind_ok in Ebt. destruct Ebt as (b1 & -> & Ebt). cbn [Py.bind].
  apply bind_ok in Ebt. destruct Ebt as (b2 & -> & Ebt). cbn [Py.bind].
  rewrite Ebt. cbn [Py.bind].
  apply bind_ok in Ecf. destruct Ecf as (c1 & -> & Ecf). cbn [Py.bind].
  apply bind_ok in Ecf. destruct Ecf as (c2 & -> & Ecf). cbn [Py.bind].
  rewrite Ecf. cbn [Py.bind].
  apply bind_ok in Ees. destruct Ees as (e1 & -> & Ees). cbn [Py.bind].
  apply bind_ok in Ees. destruct Ees as (e2 & -> & Ees). cbn [Py.bind].
  rewrite Ees. cbn [Py.bind].
  eexists. split; [reflexivity |].
  split; [| split; reflexivity].
  constructor; cbn [building_types critical_facilities economic_sectors];
    eapply has_keys_same; eassumption.
Qed.

Lemma years_passed_sum_step (first count : nat) :
  years_passed_sum first (S count)
  = (Z.of_nat first + 1 + years_passed_sum (S first) count)%Z.
Proof.
  unfold years_passed_sum.
  assert (E : (S count * (S count + 1) / 2 = count * (count + 1) / 2 + count + 1)%nat).
  { replace (S count * (S count + 1))%nat with (count * (count + 1) + (count + 1) * 2)%nat
      by lia.
    rewrite Nat.div_add by lia. lia. }
  rewrite E. lia.
Qed.

Lemma update_years_compound (count first : nat) (self : t) :
  updatable self ->
  ~ 1 + population_growth_rate self == 0 ->
  exists self',
    update_years self (map (fun i => (2026 + Z.of_nat i)%Z) (seq first count)) = Py.Ok self'
    /\ updatable self'
    /\ population_growth_rate self' = population_growth_rate self
    /\ total_population self'
       == total_population self
          * Qpower (1 + population_growth_rate self) (years_passed_sum first count).
Proof.
  revert first self. induction count as [| count IH]; intros first self Hup Hrate;
    cbn [seq map update_years].
  - exists self. split; [reflexivity |]. split; [exact Hup |]. split; [reflexivity |].
    change (years_passed_sum first 0) with 0%Z. cbn [Qpower]. ring.
  - destruct (update_exposure_returns self (2026 + Z.of_nat first) Hup)
      as (self1 & -> & Hup1 & Hrate1 & Hpop1); [intros E; contradiction |].
    cbn [Py.bind].
    destruct (IH (S first) self1 Hup1) as (self' & -> & Hup' & Hrate' & Hpop');
      [rewrite Hrate1; exact Hrate |].
    exists self'. split; [reflexivity |]. split; [exact Hup' |].
    split; [congruence |].
    rewrite Hpop', Hpop1, Hrate1, years_passed_sum_step.
    replace (2026 + Z.of_nat first - 2025)%Z with (Z.of_nat first + 1)%Z by lia.
    rewrite (Qpower_plus _ (Z.of_nat first + 1) (years_passed_sum (S first) count) Hrate).
    generalize (Qpower (1 + population_growth_rate self) (Z.of_nat first + 1)),
      (Qpower (1 + population_growth_rate self) (years_passed_sum (S first) count)).
    intros a b. ring.
Qed.


Lemma same_values_refl (d : list (string * Q)) : same_values d d.
Proof. induction d; constructor; [split; reflexivity | assumption]. Qed.

Lemma same_values_trans (d1 d2 d3 : list (string * Q)) :
  same_values d1 d2 -> same_values d2 d3 -> same_values d1 d3.
Proof.
  intros H. revert d3. induction H as [| a b l1 l2 [Hk Hv] _ IH]; intros d3 H'.
  - inversion H'. constructor.
  - inversion H' as [| b' c l2' l3 [Hk' Hv'] Hrest]; subst.
    constructor; [split; [congruence | rewrite Hv; exact Hv'] | apply IH; exact Hrest].
Qed.

Lemma set_same_values (k : string) (v' : Q) (d : list (string * Q)) :
  (forall v, Py.lookup k d = Some v -> v' == v) ->
  Py.contains k d = true ->
  same_values (Py.set k v' d) d.
Proof.
  unfold Py.contains.
  induction d as [| [k0 v0] d IH]; cbn [Py.lookup Py.set]; [discriminate |].
  destruct (k =? k0) eqn:E; intros Hv Hc.
  - constructor; [split; [reflexivity | apply Hv; reflexivity] | apply same_values_refl].
  - constructor; [split; reflexivity | apply IH; assumption].
Qed.

Lemma modify_same_values (k : string) (f : Q -> Q) (d d' : list (string * Q)) :
  (forall v, Py.lookup k d = Some v -> f v == v) ->
  modify k f d = Py.Ok d' -> same_values d' d.
Proof.
  intros Hf. unfold modify, Py.item.
  destruct (Py.lookup k d) as [v |] eqn:E; [| discriminate].
  cbn [Py.bind]. intros [= <-]. apply set_same_values.
  - intros v0 E0. rewrite E in E0. injection E0 as <-. apply Hf. reflexivity.
  - unfold Py.contains. rewrite E. reflexivity.
Qed.

Lemma map_same_values (f : string * Q -> string * Q) (d : list (string * Q)) :
  (forall kv, fst (f kv) = fst kv /\ snd (f kv) == snd kv) -> same_values (map f d) d.
Proof.
  intros Hf. induction d as [| kv d IH]; cbn [map]; constructor; [apply Hf | exact IH].
Qed.

(** X20 ([ExposureModel.update_exposure], the start year).  For a state
    that has the keys the update reads and whose shares are within their
    caps, the update for 2025 returns and leaves every value as it was. *)
Theorem update_at_start_year_changes_nothing (self : t) :
  updatable self -> capped self ->
  exists self',
    update_exposure self 2025 = Py.Ok self'
    /\ total_population self' == total_population self
    /\ urban_population_pct self' == urban_population_pct self
    /\ same_values (building_types self') (building_types self)
    /\ same_values (critical_facilities self') (critical_facilities self)
    /\ same_values (economic_sectors self') (economic_sectors self)
    /\ same_values (agricultural_data self') (agricultural_data self).
Proof.
  intros Hup [Hurban Hrcc Hserv].
  destruct (update_exposure_returns self 2025 Hup) as (self' & E & _ & _ & Hpop);
    [intros _; lia |].
  exists self'. split; [exact E |]. split; [rewrite Hpop; cbn; ring |].
  unfold update_exposure in E.
  change (2025 - 2025)%Z with 0%Z in E. cbv zeta in E.
  apply bind_ok in E. destruct E as (growth & _ & E).
  apply bind_ok in E. destruct E as (b1 & Hb1 & E).
  apply bind_ok in E. destruct E as (b2 & Hb2 & E).
  apply bind_ok in E. destruct E as (b3 & Hb3 & E).
  apply bind_ok in E. destruct E as (c1 & Hc1 & E).
  apply bind_ok in E. destruct E as (c2 & Hc2 & E).
  apply bind_ok in E. destruct E as (c3 & Hc3 & E).
  apply bind_ok in E. destruct E as (e1 & He1 & E).
  apply bind_ok in E. destruct E as (e2 & He2 & E).
  apply bind_ok in E. destruct E as (e3 & He3 & E).
  injection E as <-.
  cbn [urban_population_pct building_types critical_facilities economic_sectors
       agricultural_data].
  assert (Hmin : forall v step cap, v <= cap -> Qmin (v + inject_Z 0 * step) cap == v).
  { intros v step cap Hv.
    assert (Ez : v + inject_Z 0 * step == v) by (change (inject_Z 0) with 0; ring).
    rewrite Ez. apply (proj2 (Q.min_l_iff _ _)). exact Hv. }
  pose proof (fun v => Hmin v 0.003 0.35) as Hmin3.
  pose proof (fun v => Hmin v 0.002 0.65) as Hmin2.
  split; [apply Hmin; exact Hurban |].
  split.
  { apply (same_values_trans _ b2);
      [eapply modify_same_values; [| exact Hb3]; intros v _; cbv beta;
       change (inject_Z 0) with 0; field |].
    apply (same_values_trans _ b1);
      [eapply modify_same_values; [| exact Hb2]; intros v _; cbv beta;
       change (inject_Z 0) with 0; field |].
    eapply modify_same_values; [| exact Hb1]. cbv beta. intros v Hv.
    apply Hmin3. apply Hrcc. exact Hv. }
  split.
  { apply (same_values_trans _ c2);
      [eapply modify_same_values; [| exact Hc3]; intros v _; cbv beta;
       change (inject_Z 0) with 0; ring |].
    apply (same_values_trans _ c1);
      [eapply modify_same_values; [| exact Hc2]; intros v _; cbv beta;
       change (inject_Z 0) with 0; ring |].
    eapply modify_same_values; [| exact Hc1]. intros v _. cbv beta.
    change (inject_Z 0) with 0. ring. }
  split.
  { apply (same_values_trans _ e2);
      [eapply modify_same_values; [| exact He3]; intros v _; cbv beta;
       change (inject_Z 0) with 0; field |].
    apply (same_values_trans _ e1);
      [eapply modify_same_values; [| exact He2]; intros v _; cbv beta;
       change (inject_Z 0) with 0; field |].
    eapply modify_same_values; [| exact He1]. cbv beta. intros v Hv.
    apply Hmin2. apply Hserv. exact Hv. }
  apply map_same_values. intros kv. cbn [fst snd Qpower]. split; [reflexivity | ring].
Qed.

Lemma modify_ok (k : string) (f : Q -> Q) (d d' : list (string * Q)) :
  modify k f d = Py.Ok d' ->
  Py.contains k d = true /\ forall k', Py.contains k' d' = Py.contains k' d.
Proof.
  intros H. destruct (Py.contains k d) eqn:E.
  - destruct (modify_returns k f d E) as (v & _ & E' & C).
    rewrite E' in H. injection H as <-. split; [reflexivity | exact C].
  - rewrite (modify_fails k f d E) in H. discriminate.
Qed.


End UpdateFacts.


Lemma update_at_start_year_changes_nothing_witness :
  exists self',
    Monolith_ExposureModel.update_exposure ExposureSpec.fresh 2025 = Py.Ok self'
    /\ ExposureModel.total_population self' == ExposureModel.total_population ExposureSpec.fresh
    /\ ExposureModel.urban_population_pct self'
       == ExposureModel.urban_population_pct ExposureSpec.fresh
    /\ UpdateSpec.same_values (ExposureModel.building_types self')
         (ExposureModel.building_types ExposureSpec.fresh)
    /\ UpdateSpec.same_values (ExposureModel.critical_facilities self')
         (ExposureModel.critical_facilities ExposureSpec.fresh)
    /\ UpdateSpec.same_values (ExposureModel.economic_sectors self')
         (ExposureModel.economic_sectors ExposureSpec.fresh)
    /\ UpdateSpec.same_values (ExposureModel.agricultural_data self')
         (ExposureModel.agricultural_data ExposureSpec.fresh).
Proof.
  apply (update_at_start_year_changes_nothing ExposureSpec.fresh).
  - repeat constructor.
  - constructor; [vm_compute; discriminate | |];
      intros v H; vm_compute in H; injection H as <-; vm_compute; discriminate.
Defined.

Section RecoveryReturns.
Import RecoveryModel TrajectorySpec RecoveryShape MilestoneSpec HorizonSpec RecoveryInputs.

Variable np_sqrt : Q -> Q.
Variable np_exp : Q -> Q.
Hypothesis sqrt_mono : sqrt_monotone np_sqrt.
Hypothesis exp_pos : exp_positive np_exp.
Hypothesis exp_mono : exp_monotone np_exp.

Lemma sector_trajectory_returns (sector : string) (horizon : Z) (fm gm rm bbb : Q) :
  0 <= fm -> 0 <= gm -> 0 <= rm -> (0 <= horizon)%Z ->
  exists trajectory,
    sector_trajectory np_sqrt np_exp sector horizon fm gm rm bbb = Py.Ok trajectory.
Proof.
  intros Hfm Hgm Hrm Hh. unfold sector_trajectory.
  destruct (Qlt_le_dec 0 bbb); [| eauto].
  destruct (generated_trajectory_facts np_sqrt np_exp sqrt_mono exp_pos exp_mono
              sector horizon fm gm rm Hfm Hgm Hrm) as (Hzero & _ & Hpos).
  rewrite last_item_ok; [cbn [Py.bind]; eauto |].
  destruct (Z.eq_dec horizon 0) as [E | E].
  - rewrite (Hzero E). discriminate.
  - destruct Hpos as (Hlen & _); [lia |]. intros E'. rewrite E' in Hlen. cbn in Hlen. lia.
Qed.

Lemma sector_trajectories_return (horizons : list (string * Z)) (fm gm rm bbb : Q) :
  0 <= fm -> 0 <= gm -> 0 <= rm -> Forall (fun kv => (0 <= snd kv)%Z) horizons ->
  exists trajectories,
    sector_trajectories np_sqrt np_exp horizons fm gm rm bbb = Py.Ok trajectories.
Proof.
  intros Hfm Hgm Hrm. induction 1 as [| [sector horizon] rest Hh _ IH];
    cbn [sector_trajectories]; [eauto |].
  destruct (sector_trajectory_returns sector horizon fm gm rm bbb Hfm Hgm Hrm Hh) as [tr ->].
  destruct IH as [trs ->]. cbn [Py.bind]. eauto.
Qed.

Lemma simulate_recovery_total (disaster_impacts : Impacts)
  (governance_quality : list (string * string)) (funding_availability : Funding)
  (governance_multiplier bbb : Q) :
  plausible disaster_impacts ->
  0 < _estimate_funding_needs disaster_impacts ->
  governance_multiplier_of governance_quality = Py.Ok governance_multiplier ->
  bbb_improvement_of funding_availability = Py.Ok bbb ->
  exists recovery,
    simulate_recovery np_sqrt np_exp disaster_impacts governance_quality funding_availability
    = Py.Ok recovery.
Proof.
  intros Hplausible Hneeds Hgm Hbbb. unfold simulate_recovery.
  destruct (recovery_horizons_plausible _ Hplausible)
    as (h & i & l & s & -> & Rh & Ri & Rl & Rs). cbn [Py.bind].
  unfold funding_ratio_of. rewrite truediv_nonzero by lra. cbn [Py.bind].
  rewrite Hgm, Hbbb. cbn [Py.bind].
  pose proof (governance_multiplier_range governance_quality) as [Gm _].
  specialize (Gm _ Hgm). apply bbb_improvement_range in Hbbb.
  set (ratio := Py.finite (available_funding_of disaster_impacts funding_availability
                           / _estimate_funding_needs disaster_impacts)).
  pose proof (funding_multiplier_positive ratio) as Hfm.
  pose proof (regional_multiplier_positive disaster_impacts) as Hrm.
  set (horizons := [("housing", h); ("infrastructure", i); ("livelihoods", l); ("social", s)]).
  destruct (sector_trajectories_return horizons
              (Py.get funding_level_multipliers (funding_level_of ratio) 1.0)
              governance_multiplier (regional_multiplier_of disaster_impacts) bbb)
    as [trajectories Htr]; [lra | lra | lra | |].
  { unfold horizons. repeat constructor; cbn [snd]; lia. }
  rewrite Htr. cbn [Py.bind].
  assert (Hshape : shaped_by horizons trajectories).
  { eapply (sector_trajectories_shape np_sqrt np_exp sqrt_mono exp_pos exp_mono);
      [| | | | exact Htr]; lra. }
  destruct (sector_qualities_within_unit bbb horizons trajectories) as (qs & Eq & _);
    [lra | exact Hshape |].
  unfold _assess_recovery_quality. rewrite Eq. cbn [Py.bind].
  destruct qs; cbn [Py.bind]; eauto.
Qed.

(** X22 ([RecoveryModel.simulate_recovery], returning).  For impacts without
    negative counts or losses, with listed building types and positive
    funding needs, and governance and build-back-better levels that are
    listed in the tables, [simulate_recovery] returns a result (given
    [np.sqrt] monotone on non-negative numbers and [np.exp] positive and
    monotone). *)
Theorem simulate_recovery_returns (disaster_impacts : Impacts)
  (governance_quality : list (string * string)) (funding_availability : Funding)
  (governance_multiplier bbb : Q) :
  plausible disaster_impacts ->
  0 < _estimate_funding_needs disaster_impacts ->
  governance_multiplier_of governance_quality = Py.Ok governance_multiplier ->
  bbb_improvement_of funding_availability = Py.Ok bbb ->
  exists recovery,
    simulate_recovery np_sqrt np_exp disaster_impacts governance_quality funding_availability
    = Py.Ok recovery.
Proof. apply simulate_recovery_total. Qed.

End RecoveryReturns.

Lemma simulate_recovery_returns_witness :
  exists recovery,
    RecoveryModel.simulate_recovery Fixed.sqrt Fixed.exp RecoveryExample.flood_impacts
      [("coordination", "good"); ("corruption_level", "low")] RecoveryExample.default_funding
    = Py.Ok recovery.
Proof.
  eapply (simulate_recovery_returns Fixed.sqrt Fixed.exp fixed_sqrt_monotone
            fixed_exp_positive fixed_exp_monotone RecoveryExample.flood_impacts
            [("coordination", "good"); ("corruption_level", "low")]
            RecoveryExample.default_funding).
  - exact flood_impacts_plausible.
  - vm_compute. reflexivity.
  - vm_compute. reflexivity.
  - vm_compute. reflexivity.
Defined.

Lemma flood_recovery_returns :
  exists recovery,
    RecoveryModel.simulate_recovery Fixed.sqrt Fixed.exp RecoveryExample.flood_impacts []
      RecoveryExample.default_funding = Py.Ok recovery.
Proof.
  eapply (simulate_recovery_total Fixed.sqrt Fixed.exp fixed_sqrt_monotone
            fixed_exp_positive fixed_exp_monotone RecoveryExample.flood_impacts []
            RecoveryExample.default_funding).
  - exact flood_impacts_plausible.
  - vm_compute. reflexivity.
  - vm_compute. reflexivity.
  - vm_compute. reflexivity.
Qed.

Lemma returned_trajectories_shape_witness :
  exists recovery,
    RecoveryModel.simulate_recovery Fixed.sqrt Fixed.exp RecoveryExample.flood_impacts []
      RecoveryExample.default_funding = Py.Ok recovery
    /\ RecoveryShape.shaped_by (RecoveryModel.recovery_horizon_months recovery)
         (RecoveryModel.recovery_trajectories recovery).
Proof.
  destruct flood_recovery_returns as [recovery H].
  exists recovery. split; [exact H |].
  apply (returned_trajectories_shape Fixed.sqrt Fixed.exp fixed_sqrt_monotone
           fixed_exp_positive fixed_exp_monotone RecoveryExample.flood_impacts []
           RecoveryExample.default_funding).
  exact H.
Defined.

Lemma returned_quality_within_unit_witness :
  exists recovery,
    RecoveryModel.simulate_recovery Fixed.sqrt Fixed.exp RecoveryExample.flood_impacts []
      RecoveryExample.default_funding = Py.Ok recovery
    /\ exists metrics aggregate,
         RecoveryModel.recovery_quality recovery = (metrics, Some aggregate)
         /\ map fst metrics = ["housing"; "infrastructure"; "livelihoods"; "social"]
         /\ Forall (fun kv => MilestoneSpec.scores_within_unit (snd kv)) metrics
         /\ 0 <= aggregate /\ aggregate <= 1.
Proof.
  destruct flood_recovery_returns as [recovery H].
  exists recovery. split; [exact H |].
  apply (returned_quality_within_unit Fixed.sqrt Fixed.exp fixed_sqrt_monotone
           fixed_exp_positive fixed_exp_monotone RecoveryExample.flood_impacts []
           RecoveryExample.default_funding).
  exact H.
Defined.

Section DamageFacts.
Import Generator VulnerabilityModel DamageBounds.

Variable fpow : Q -> Q -> Q.
Variable gamma_ppf : Q -> Q -> Q -> Q.

Lemma cap_range (hi x : Q) : 0 <= hi -> 0 <= cap hi x /\ cap hi x <= hi.
Proof.
  intros H. unfold cap. split.
  - apply Q.min_glb; [exact H | apply Q.le_max_l].
  - apply Q.le_min_l.
Qed.

Lemma cap_unit (hi x : Q) : 0 <= hi -> hi <= 1 -> 0 <= cap hi x /\ cap hi x <= 1.
Proof. intros H0 H1. destruct (cap_range hi x H0). split; lra. Qed.

Ltac cap_goal :=
  intros [= <-] x; apply cap_unit; vm_compute; congruence.

Lemma building_vulnerability_unit (hazard_type building_type : string) (f : Q -> Q) :
  building_vulnerability fpow hazard_type building_type = Some f ->
  forall x, 0 <= f x /\ f x <= 1.
Proof.
  unfold building_vulnerability.
  repeat match goal with
         | |- context [String.eqb ?a ?b] => destruct (String.eqb a b)
         end; try discriminate; cap_goal.
Qed.

Lemma infrastructure_vulnerability_unit (vulnerability_key hazard_type : string) (f : Q -> Q) :
  infrastructure_vulnerability fpow vulnerability_key hazard_type = Some f ->
  forall x, 0 <= f x /\ f x <= 1.
Proof.
  unfold infrastructure_vulnerability.
  repeat match goal with
         | |- context [String.eqb ?a ?b] => destruct (String.eqb a b)
         end; try discriminate; cap_goal.
Qed.

Lemma entry_within (count : Z) (ratio : Q) :
  (0 <= count)%Z -> 0 <= ratio -> ratio <= 1 ->
  damage_within {| b_count := count;
                   b_damage_ratio := ratio;
                   b_damaged_count := Py.py_int (inject_Z count * ratio) |}.
Proof.
  intros Hc H0 H1. unfold damage_within. cbn [b_count b_damage_ratio b_damaged_count].
  split; [split; assumption |].
  assert (Hq : 0 <= inject_Z count) by (change 0 with (inject_Z 0); rewrite <- Zle_Qle; lia).
  destruct (scaled_within (inject_Z count) ratio Hq H0 H1) as [Hlo Hhi].
  split; [apply py_int_nonneg; exact Hlo | apply py_int_le_Z; assumption].
Qed.

Lemma set_forall {A : Type} (P : A -> Prop) (k : string) (v : A) (d : list (string * A)) :
  Forall (fun kv => P (snd kv)) d -> P v -> Forall (fun kv => P (snd kv)) (Py.set k v d).
Proof.
  intros Hd Hv. induction Hd as [| [k0 v0] d H0 Hd IH]; cbn [Py.set].
  - constructor; [exact Hv | constructor].
  - destruct (k =? k0); constructor; cbn [snd] in *; assumption.
Qed.

Lemma fold_left_invariant {A B : Type} (P : A -> Prop) (f : A -> B -> A) (l : list B) (a : A) :
  P a -> (forall acc x, In x l -> P acc -> P (f acc x)) -> P (fold_left f l a).
Proof.
  revert a. induction l as [| x l IH]; intros a Ha Hf; cbn [fold_left]; [exact Ha |].
  apply IH; [apply Hf; [left; reflexivity | exact Ha] |].
  intros acc y Hy. apply Hf. right. exact Hy.
Qed.

Lemma building_damages_within (hazard_type : string) (intensity : Q)
  (buildings : list (string * Z)) :
  nonneg_counts buildings ->
  all_within (building_damages fpow hazard_type intensity buildings).
Proof.
  intros Hnn. unfold building_damages, all_within.
  apply fold_left_invariant; [constructor |].
  intros acc kv Hin Hacc.
  destruct (building_vulnerability fpow hazard_type (fst kv)) as [f |] eqn:E; [| exact Hacc].
  apply set_forall; [exact Hacc |].
  unfold nonneg_counts in Hnn. rewrite Forall_forall in Hnn.
  destruct (building_vulnerability_unit _ _ _ E intensity).
  apply entry_within; [apply (Hnn kv Hin) | assumption | assumption].
Qed.

Lemma agriculture_damages_within (hazard_type : string) (hazard_event : HazardModel.Event)
  (intensity : Q) (agriculture : list (string * Z)) :
  nonneg_counts agriculture ->
  all_within (agriculture_damages hazard_type hazard_event intensity agriculture).
Proof.
  intros Hnn. unfold agriculture_damages, all_within.
  apply fold_left_invariant; [constructor |].
  intros acc kv Hin Hacc.
  destruct (Py.lookup (crop_key (fst kv)) agricultural_vulnerability)
    as [[[flood cyclone] drought] |]; [| exact Hacc].
  apply set_forall; [exact Hacc |].
  unfold nonneg_counts in Hnn. rewrite Forall_forall in Hnn.
  assert (Hr : forall r, (0 <= r /\ r <= 1) ->
                         damage_within {| b_count := snd kv;
                                          b_damage_ratio := r;
                                          b_damaged_count :=
                                            Py.py_int (inject_Z (snd kv) * r) |}).
  { intros r [H0 H1]. apply entry_within; [apply (Hnn kv Hin) | assumption | assumption]. }
  apply Hr.
  destruct (hazard_type =? "flood"); [apply cap_unit; vm_compute; congruence |].
  destruct (hazard_type =? "cyclone");
    [destruct cyclone as [[c d] t]; apply cap_unit; vm_compute; congruence |].
  destruct (hazard_type =? "drought"); apply cap_unit; vm_compute; congruence.
Qed.

Lemma disruption_days_nonneg (a scale : Q) (g : state) :
  0 <= fst (disruption_days gamma_ppf a scale g)
  /\ pos (snd (disruption_days gamma_ppf a scale g)) = S (pos g).
Proof.
  unfold disruption_days, next. cbn [fst snd pos]. split; [apply Q.le_max_l | reflexivity].
Qed.

Lemma infrastructure_damages_within (hazard_type : string) (intensity : Q)
  (infrastructure : list (string * Z)) :
  nonneg_counts infrastructure ->
  forall damages disruption g,
    all_within damages ->
    Forall (fun kv => (0 <= total_service_days_lost (snd kv))%Z) disruption ->
    let '(damages', disruption', g') :=
      infrastructure_damages fpow gamma_ppf hazard_type intensity infrastructure
        damages disruption g in
    all_within damages'
    /\ Forall (fun kv => (0 <= total_service_days_lost (snd kv))%Z) disruption'
    /\ (pos g <= pos g')%nat.
Proof.
  induction 1 as [| [infra_type count] rest Hc _ IH]; intros damages disruption g Hd Hs;
    cbn [infrastructure_damages].
  - split; [exact Hd |]. split; [exact Hs | lia].
  - cbn [snd] in Hc.
    destruct (infrastructure_key infra_type) as [vulnerability_key |]; [| apply IH; assumption].
    destruct (infrastructure_vulnerability fpow vulnerability_key hazard_type) as [f |] eqn:E;
      [| apply IH; assumption].
    destruct (infrastructure_vulnerability_unit _ _ _ E intensity) as [H0 H1].
    assert (Hd' : all_within
                    (Py.set infra_type
                       {| b_count := count;
                          b_damage_ratio := f intensity;
                          b_damaged_count := Py.py_int (inject_Z count * f intensity) |}
                       damages)).
    { apply set_forall; [exact Hd |]. apply entry_within; assumption. }
    destruct (Py.lookup vulnerability_key functional_disruption) as [[[low medium] high] |];
      [| apply IH; assumption].
    set (tier := if Qlt_le_dec (f intensity) 0.2 then low
                 else if Qlt_le_dec (f intensity) 0.5 then medium else high).
    destruct tier as [a scale].
    pose proof (disruption_days_nonneg a scale g) as [Hdays Hpos].
    destruct (disruption_days gamma_ppf a scale g) as [days g1]. cbn [fst snd] in Hdays, Hpos.
    match goal with
    | |- context [infrastructure_damages fpow gamma_ppf hazard_type intensity rest ?d ?s g1] =>
        specialize (IH d s g1 Hd');
        destruct (infrastructure_damages fpow gamma_ppf hazard_type intensity rest d s g1)
          as [[damages' disruption'] g']
    end.
    destruct IH as (I1 & I2 & I3).
    { apply (set_forall (fun s => (0 <= total_service_days_lost s)%Z)); [exact Hs |].
      cbn [total_service_days_lost].
      apply py_int_nonneg.
      assert (Hq : 0 <= inject_Z count)
        by (change 0 with (inject_Z 0); rewrite <- Zle_Qle; lia).
      assert (0 <= inject_Z count * f intensity) by nra. nra. }
    split; [exact I1 |]. split; [exact I2 | lia].
Qed.

End DamageFacts.

Section DamageTheorems.
Import Generator VulnerabilityModel DamageBounds.

Variable fpow : Q -> Q -> Q.
Variable gamma_ppf : Q -> Q -> Q -> Q.

Lemma calculate_damages_parts (exposed_elements : Monolith_ExposureModel.Exposed)
  (hazard_event : HazardModel.Event) (g g' : state) (damages : Damages) :
  calculate_damages fpow gamma_ppf exposed_elements hazard_event g = Py.Ok (damages, g') ->
  exists intensity,
    intensity_of (HazardModel.ev_type hazard_event) hazard_event = Py.Ok intensity
    /\ d_buildings damages
       = building_damages fpow (HazardModel.ev_type hazard_event) intensity
           (Monolith_ExposureModel.x_buildings exposed_elements)
    /\ casualties_of fpow (HazardModel.ev_type hazard_event) hazard_event intensity
         exposed_elements (d_buildings damages) = Py.Ok (d_casualties damages)
    /\ infrastructure_damages fpow gamma_ppf (HazardModel.ev_type hazard_event) intensity
         (Monolith_ExposureModel.x_critical_infrastructure exposed_elements) [] [] g
       = (d_infrastructure damages, d_functional_disruption damages, g')
    /\ d_agriculture damages
       = agriculture_damages (HazardModel.ev_type hazard_event) hazard_event intensity
           (Monolith_ExposureModel.x_agriculture exposed_elements)
    /\ direct_losses (d_economic damages)
       = _calculate_building_losses (d_buildings damages)
         + _calculate_infrastructure_losses (d_infrastructure damages)
         + _calculate_agriculture_losses (d_agriculture damages)
    /\ indirect_losses (d_economic damages)
       = direct_losses (d_economic damages)
         * Qmin 3.0 (Qmax 0.2
                       (0.5 + 0.1 * (inject_Z (Py.sumZ
                                                 (map (fun kv => total_service_days_lost (snd kv))
                                                      (d_functional_disruption damages)))
                                     / 100))).
Proof.
  unfold calculate_damages. intros H.
  apply bind_ok in H. destruct H as (intensity & Hi & H).
  apply bind_ok in H. destruct H as (casualties & Hc & H).
  destruct (infrastructure_damages _ _ _ _ _ _ _ _) as [[infrastructure disruption] g1] eqn:E.
  injection H as <- <-.
  cbn [d_buildings d_casualties d_infrastructure d_agriculture d_economic
       d_functional_disruption direct_losses indirect_losses].
  exists intensity. repeat split; try assumption; reflexivity.
Qed.

(** X23 ([VulnerabilityModel.calculate_damages], physical damage).  For an
    exposure without negative counts, every building, infrastructure and
    crop entry of the returned damages has a damage ratio in [0, 1] and a
    damaged count between 0 and the exposed count, whatever the hazard and
    its intensity; the call only moves the ambient generator forward. *)
Theorem damage_entries_within_exposure
  (exposed_elements : Monolith_ExposureModel.Exposed) (hazard_event : HazardModel.Event)
  (g g' : state) (damages : Damages) :
  nonneg_exposure exposed_elements ->
  calculate_damages fpow gamma_ppf exposed_elements hazard_event g = Py.Ok (damages, g') ->
  all_within (d_buildings damages)
  /\ all_within (d_infrastructure damages)
  /\ all_within (d_agriculture damages)
  /\ (pos g <= pos g')%nat.
Proof.
  intros [Hb Hi Ha] H.
  destruct (calculate_damages_parts _ _ _ _ _ H) as (intensity & _ & Eb & _ & Ei & Ea & _).
  pose proof (infrastructure_damages_within fpow gamma_ppf
                (HazardModel.ev_type hazard_event) intensity _ Hi [] [] g
                (Forall_nil _) (Forall_nil _)) as Hinf.
  rewrite Ei in Hinf. destruct Hinf as (I1 & _ & I3).
  split; [rewrite Eb; apply building_damages_within; exact Hb |].
  split; [exact I1 |].
  split; [rewrite Ea; apply agriculture_damages_within; exact Ha | exact I3].
Qed.

Lemma loss_of_nonneg (avg_value : Q) (d : BuildingDamage) :
  0 <= avg_value -> damage_within d -> 0 <= loss_of avg_value d.
Proof.
  intros Hv [[H0 _] [Hc _]]. unfold loss_of.
  assert (0 <= inject_Z (b_damaged_count d))
    by (change 0 with (inject_Z 0); rewrite <- Zle_Qle; exact Hc).
  assert (0 <= inject_Z (b_damaged_count d) * avg_value) by nra. nra.
Qed.

Lemma lookup_nonneg (table : list (string * Q)) (k : string) (v : Q) :
  Forall (fun kv => 0 <= snd kv) table -> Py.lookup k table = Some v -> 0 <= v.
Proof.
  intros Ht Hk. apply lookup_in in Hk. rewrite Forall_forall in Ht. apply (Ht _ Hk).
Qed.

Lemma building_losses_nonneg (damages : list (string * BuildingDamage)) :
  all_within damages -> 0 <= _calculate_building_losses damages.
Proof.
  intros Hd. unfold _calculate_building_losses.
  apply (fold_left_invariant (fun acc => 0 <= acc)); [apply Qle_refl |].
  intros acc kv Hin Hacc. unfold all_within in Hd. rewrite Forall_forall in Hd.
  destruct (Py.lookup (fst kv) building_values) as [v |] eqn:E; [| exact Hacc].
  assert (0 <= v) by (apply (lookup_nonneg building_values (fst kv)); [table_bounds | exact E]).
  pose proof (loss_of_nonneg v (snd kv) H (Hd kv Hin)). lra.
Qed.

Lemma agriculture_losses_nonneg (damages : list (string * BuildingDamage)) :
  all_within damages -> 0 <= _calculate_agriculture_losses damages.
Proof.
  intros Hd. unfold _calculate_agriculture_losses.
  apply (fold_left_invariant (fun acc => 0 <= acc)); [apply Qle_refl |].
  intros acc kv Hin Hacc. unfold all_within in Hd. rewrite Forall_forall in Hd.
  destruct (Py.lookup (fst kv) agriculture_values) as [v |] eqn:E; [| exact Hacc].
  assert (0 <= v)
    by (apply (lookup_nonneg agriculture_values (fst kv)); [table_bounds | exact E]).
  pose proof (loss_of_nonneg v (snd kv) H (Hd kv Hin)). lra.
Qed.

Lemma infrastructure_losses_nonneg (damages : list (string * BuildingDamage)) :
  all_within damages -> 0 <= _calculate_infrastructure_losses damages.
Proof.
  intros Hd. unfold _calculate_infrastructure_losses.
  apply (fold_left_invariant (fun acc => 0 <= acc)); [apply Qle_refl |].
  intros acc kv Hin Hacc. unfold all_within in Hd. rewrite Forall_forall in Hd.
  destruct (value_key (fst kv)) as [[k v] |] eqn:E; [| exact Hacc].
  assert (0 <= v).
  { unfold value_key in E. apply find_some in E. destruct E as [E _].
    assert (F : Forall (fun kv : string * Q => 0 <= snd kv) infrastructure_values)
      by table_bounds.
    rewrite Forall_forall in F. apply (F _ E). }
  pose proof (loss_of_nonneg v (snd kv) H (Hd kv Hin)). lra.
Qed.

Lemma sumZ_nonneg (xs : list Z) : Forall (fun x => (0 <= x)%Z) xs -> (0 <= Py.sumZ xs)%Z.
Proof.
  induction 1 as [| x xs Hx _ IH]; [unfold Py.sumZ; cbn; lia |].
  rewrite sumZ_cons. lia.
Qed.

(** X24 ([VulnerabilityModel.calculate_damages], economic losses).  For an
    exposure without negative counts the direct losses are never negative,
    and the indirect losses lie between half and three times the direct
    losses. *)
Theorem indirect_losses_follow_direct_losses
  (exposed_elements : Monolith_ExposureModel.Exposed) (hazard_event : HazardModel.Event)
  (g g' : state) (damages : Damages) :
  nonneg_exposure exposed_elements ->
  calculate_damages fpow gamma_ppf exposed_elements hazard_event g = Py.Ok (damages, g') ->
  let direct := direct_losses (d_economic damages) in
  let indirect := indirect_losses (d_economic damages) in
  0 <= direct /\ 0.5 * direct <= indirect /\ indirect <= 3 * direct.
Proof.
  intros [Hb Hi Ha] H direct indirect.
  destruct (calculate_damages_parts _ _ _ _ _ H)
    as (intensity & _ & Eb & _ & Ei & Ea & Ed & En).
  pose proof (infrastructure_damages_within fpow gamma_ppf
                (HazardModel.ev_type hazard_event) intensity _ Hi [] [] g
                (Forall_nil _) (Forall_nil _)) as Hinf.
  rewrite Ei in Hinf. destruct Hinf as (I1 & I2 & _).
  assert (Hdirect : 0 <= direct).
  { unfold direct. rewrite Ed.
    assert (Wb : all_within (d_buildings damages))
      by (rewrite Eb; apply building_damages_within; exact Hb).
    assert (Wa : all_within (d_agriculture damages))
      by (rewrite Ea; apply agriculture_damages_within; exact Ha).
    pose proof (building_losses_nonneg _ Wb) as B.
    pose proof (infrastructure_losses_nonneg _ I1) as I.
    pose proof (agriculture_losses_nonneg _ Wa) as A. lra. }
  split; [exact Hdirect |].
  unfold indirect. rewrite En. fold direct.
  set (days := Py.sumZ _).
  assert (Hdays : (0 <= days)%Z).
  { apply sumZ_nonneg. clear - I2. induction I2; cbn [map]; constructor; assumption. }
  assert (Hq : 0 <= inject_Z days) by (change 0 with (inject_Z 0); rewrite <- Zle_Qle; lia).
  assert (Hf : 0 <= inject_Z days / 100) by (apply Qle_shift_div_l; [reflexivity | lra]).
  set (factor := inject_Z days / 100) in *. clearbody factor.
  assert (Hm : 0.5 <= Qmin 3.0 (Qmax 0.2 (0.5 + 0.1 * factor))
               /\ Qmin 3.0 (Qmax 0.2 (0.5 + 0.1 * factor)) <= 3).
  { split.
    - apply Q.min_glb; [vm_compute; congruence |].
      apply Qle_trans with (0.5 + 0.1 * factor); [lra | apply Q.le_max_r].
    - apply Qle_trans with 3.0; [apply Q.le_min_l | vm_compute; congruence]. }
  set (m := Qmin 3.0 _) in *. clearbody m. split; nra.
Qed.

Lemma py_int_zero (x : Q) : x == 0 -> Py.py_int x = 0%Z.
Proof.
  intros H. unfold Py.py_int. unfold Qeq in H. cbn in H.
  assert (E : Qnum x = 0%Z) by lia. rewrite E. reflexivity.
Qed.

Lemma no_damage_functions (hazard_type : string) :
  has_damage_functions hazard_type = false ->
  (forall building_type, building_vulnerability fpow hazard_type building_type = None)
  /\ (forall key, infrastructure_vulnerability fpow key hazard_type = None)
  /\ intensity_of hazard_type = (fun e => event_item e "intensity")
  /\ forall e i r, casualty_rates fpow hazard_type e i r
                   = Py.Ok (0.0001 * i * r, 0.001 * i * r, 0.01 * i * r).
Proof.
  unfold has_damage_functions. intros H.
  apply Bool.orb_false_iff in H. destruct H as [H He].
  apply Bool.orb_false_iff in H. destruct H as [Hf Hc].
  unfold building_vulnerability, infrastructure_vulnerability, intensity_of, casualty_rates.
  rewrite Hf, Hc, He. repeat split.
  intros key.
  repeat match goal with
         | |- context [String.eqb key ?b] => destruct (String.eqb key b)
         end; reflexivity.
Qed.

Lemma no_building_damages (hazard_type : string) (intensity : Q) (buildings : list (string * Z)) :
  (forall building_type, building_vulnerability fpow hazard_type building_type = None) ->
  building_damages fpow hazard_type intensity buildings = [].
Proof.
  intros H. unfold building_damages.
  apply (fold_left_invariant (fun acc => acc = [])); [reflexivity |].
  intros acc kv _ ->. rewrite H. reflexivity.
Qed.

Lemma no_infrastructure_damages (hazard_type : string) (intensity : Q)
  (infrastructure : list (string * Z)) (g : state) :
  (forall key, infrastructure_vulnerability fpow key hazard_type = None) ->
  infrastructure_damages fpow gamma_ppf hazard_type intensity infrastructure [] [] g
  = ([], [], g).
Proof.
  intros H. induction infrastructure as [| [infra_type count] rest IH];
    cbn [infrastructure_damages]; [reflexivity |].
  destruct (infrastructure_key infra_type); [rewrite H |]; exact IH.
Qed.

Lemma other_hazards_damages
  (exposed_elements : Monolith_ExposureModel.Exposed) (hazard_event : HazardModel.Event)
  (g : state) :
  has_damage_functions (HazardModel.ev_type hazard_event) = false ->
  exists damages,
    calculate_damages fpow gamma_ppf exposed_elements hazard_event g = Py.Ok (damages, g)
    /\ d_buildings damages = []
    /\ d_infrastructure damages = []
    /\ d_functional_disruption damages = []
    /\ d_casualties damages = {| deaths := 0; injuries := 0; displaced := 0 |}
    /\ d_agriculture damages
       = agriculture_damages (HazardModel.ev_type hazard_event) hazard_event
           (HazardModel.ev_intensity hazard_event)
           (Monolith_ExposureModel.x_agriculture exposed_elements).
Proof.
  intros Hother.
  destruct (no_damage_functions _ Hother) as (Hb & Hi & Hint & Hrates).
  unfold calculate_damages. rewrite Hint. cbn [event_item String.eqb Ascii.eqb Bool.eqb].
  cbn [Py.bind].
  rewrite (no_building_damages _ _ _ Hb).
  rewrite (no_infrastructure_damages _ _ _ _ Hi).
  unfold casualties_of. cbn [map Py.sumZ fold_left].
  destruct (0 <? Py.sumZ (map snd (Monolith_ExposureModel.x_buildings exposed_elements)))%Z.
  - rewrite Hrates. cbn [Py.bind].
    eexists. split; [reflexivity |].
    cbn [d_buildings d_infrastructure d_functional_disruption d_casualties d_agriculture].
    repeat split.
    assert (Z0 : forall c, Monolith_ExposureModel.x_population exposed_elements
                           * (c * HazardModel.ev_intensity hazard_event
                              * (inject_Z 0
                                 / inject_Z (Py.sumZ (map snd (Monolith_ExposureModel.x_buildings
                                                                  exposed_elements)))))
                           == 0).
    { intros c. change (inject_Z 0) with 0. unfold Qdiv. ring. }
    rewrite !(py_int_zero _ (Z0 _)). reflexivity.
  - cbn [Py.bind]. eexists. split; [reflexivity |]. repeat split.
Qed.

(** X25 ([VulnerabilityModel.calculate_damages], other hazards).  For an
    event whose type is not flood, cyclone or earthquake (a drought, a
    landslide, a 'geophysical' event) the damages are computed from the
    event's intensity and contain no building and no infrastructure damage,
    no functional disruption and no casualty; no variate is drawn. *)
Theorem other_hazards_damage_crops_only
  (exposed_elements : Monolith_ExposureModel.Exposed) (hazard_event : HazardModel.Event)
  (g : state) :
  has_damage_functions (HazardModel.ev_type hazard_event) = false ->
  exists damages,
    calculate_damages fpow gamma_ppf exposed_elements hazard_event g = Py.Ok (damages, g)
    /\ d_buildings damages = []
    /\ d_infrastructure damages = []
    /\ d_functional_disruption damages = []
    /\ d_casualties damages = {| deaths := 0; injuries := 0; displaced := 0 |}
    /\ d_agriculture damages
       = agriculture_damages (HazardModel.ev_type hazard_event) hazard_event
           (HazardModel.ev_intensity hazard_event)
           (Monolith_ExposureModel.x_agriculture exposed_elements).
Proof. apply other_hazards_damages. Qed.

End DamageTheorems.

Section EventDamages.
Import Generator HazardModel VulnerabilityModel DamageBounds.

Variable np_log : Q -> Q.
Variable fpow : Q -> Q -> Q.
Variable gamma_ppf : Q -> Q -> Q -> Q.

Lemma calculate_damages_returns (exposed_elements : Monolith_ExposureModel.Exposed)
  (hazard_event : Event) (g : state) (intensity : Q) :
  intensity_of (ev_type hazard_event) hazard_event = Py.Ok intensity ->
  (exists rates, forall ratio,
       casualty_rates fpow (ev_type hazard_event) hazard_event intensity ratio
       = Py.Ok (rates ratio)) ->
  exists damages g',
    calculate_damages fpow gamma_ppf exposed_elements hazard_event g = Py.Ok (damages, g').
Proof.
  intros Hi [rates Hr]. unfold calculate_damages. rewrite Hi. cbn [Py.bind].
  unfold casualties_of.
  destruct (0 <? _)%Z.
  - rewrite Hr. cbn [Py.bind]. destruct (rates _) as [[f i] d]. cbn [Py.bind].
    destruct (infrastructure_damages _ _ _ _ _ _ _ _) as [[infra disruption] g1]. eauto.
  - cbn [Py.bind].
    destruct (infrastructure_damages _ _ _ _ _ _ _ _) as [[infra disruption] g1]. eauto.
Qed.

Lemma flood_event_assessed (self : HazardModel.t) (e : Event) (g0 g1 : state)
  (exposed_elements : Monolith_ExposureModel.Exposed) (g : state) :
  hazard_type self = "flood" -> ev_type e = "flood" ->
  _add_hazard_specific_attributes np_log gamma_ppf self (ev_month e) (ev_intensity e) g0
  = Py.Ok (ev_attributes e, g1) ->
  exists damages g',
    calculate_damages fpow gamma_ppf exposed_elements e g = Py.Ok (damages, g').
Proof.
  intros Hs Ht Ha.
  apply (calculate_damages_returns exposed_elements e g (ev_intensity e)).
  - rewrite Ht. unfold intensity_of, event_item. cbn [String.eqb Ascii.eqb Bool.eqb].
    unfold _add_hazard_specific_attributes in Ha. rewrite Hs in Ha.
    cbn [String.eqb Ascii.eqb Bool.eqb] in Ha.
    destruct (in_monsoon (ev_month e)); cbn in Ha; injection Ha as <- _; reflexivity.
  - rewrite Ht. unfold casualty_rates. cbn [String.eqb Ascii.eqb Bool.eqb].
    eexists (fun _ => _). intros ratio. reflexivity.
Qed.

Lemma cyclone_event_assessed (self : HazardModel.t) (e : Event) (g0 g1 : state)
  (exposed_elements : Monolith_ExposureModel.Exposed) (g : state) :
  hazard_type self = "cyclone" -> ev_type e = "cyclone" ->
  _add_hazard_specific_attributes np_log gamma_ppf self (ev_month e) (ev_intensity e) g0
  = Py.Ok (ev_attributes e, g1) ->
  exists damages g',
    calculate_damages fpow gamma_ppf exposed_elements e g = Py.Ok (damages, g').
Proof.
  intros Hs Ht Ha.
  assert (Hattr : exists track duration,
             ev_attributes e
             = [("wind_speed", Num (ev_intensity e));
                ("storm_surge", Num (0.05 * ev_intensity e * surge_amplification_factor));
                ("track_direction", Str track);
                ("rainfall_intensity", Num (10 * np_log (ev_intensity e) - 40));
                ("duration", Num duration)]).
  { unfold _add_hazard_specific_attributes in Ha. rewrite Hs in Ha.
    cbn [String.eqb Ascii.eqb Bool.eqb] in Ha.
    apply bind_ok in Ha. destruct Ha as ([track g2] & _ & Ha).
    destruct (gamma_rvs gamma_ppf 2 12 g2) as [duration g3].
    injection Ha as <- _. eauto. }
  destruct Hattr as (track & duration & Hattr).
  apply (calculate_damages_returns exposed_elements e g (ev_intensity e)).
  - rewrite Ht. unfold intensity_of, event_item. cbn [String.eqb Ascii.eqb Bool.eqb].
    rewrite Hattr. reflexivity.
  - rewrite Ht. unfold casualty_rates, event_has, event_item, Py.contains.
    cbn [String.eqb Ascii.eqb Bool.eqb]. rewrite Hattr.
    cbn [Py.lookup String.eqb Ascii.eqb Bool.eqb Py.bind].
    eexists (fun _ => _). intros ratio. reflexivity.
Qed.

Lemma earthquake_event_rejected (self : HazardModel.t) (e : Event) (g0 g1 : state)
  (exposed_elements : Monolith_ExposureModel.Exposed) (g : state) :
  hazard_type self = "earthquake" -> ev_type e = "earthquake" ->
  _add_hazard_specific_attributes np_log gamma_ppf self (ev_month e) (ev_intensity e) g0
  = Py.Ok (ev_attributes e, g1) ->
  calculate_damages fpow gamma_ppf exposed_elements e g
  = Py.Raise (Py.KeyError "magnitude").
Proof.
  intros Hs Ht Ha. unfold calculate_damages. rewrite Ht.
  unfold intensity_of, event_item. cbn [String.eqb Ascii.eqb Bool.eqb].
  unfold _add_hazard_specific_attributes in Ha. rewrite Hs in Ha.
  cbn [String.eqb Ascii.eqb Bool.eqb] in Ha. injection Ha as <- _.
  cbn [Py.lookup Py.bind]. reflexivity.
Qed.

Lemma generated_events_intensity (self : HazardModel.t) (year : Z)
  (climate_effects : option (list (string * Q))) (g g' : state) (events : list Event) :
  Forall (fun rp => 0 <= _intensity_from_return_period np_log self rp) (return_periods self) ->
  0 <= intensity_multiplier climate_effects ->
  generate_events np_log gamma_ppf self year climate_effects g = Py.Ok (events, g') ->
  Forall (fun e => 0 <= ev_intensity e) events.
Proof.
  intros Hbase Hmult H.
  destruct (generate_events_facts np_log gamma_ppf _ _ _ _ _ _ H) as (_ & Hall & _).
  eapply Forall_impl; [| exact Hall]. cbv beta. intros e [_ _ Hrp _ Hi _ _].
  rewrite Hi. rewrite Forall_forall in Hbase.
  apply Qmult_le_0_compat; [exact (Hbase _ Hrp) | exact Hmult].
Qed.

(** X26 ([HazardModel.generate_events] with
    [VulnerabilityModel.calculate_damages]).  For a model whose return
    periods have non-negative base intensities and a non-negative climate
    multiplier, every event that [generate_events] returns has a
    non-negative intensity (so that the damage functions raise it to their
    fractional powers) and can be assessed by [calculate_damages], for
    every exposure, except the events of a hazard of type 'earthquake': the
    generator gives them no ['magnitude'], and [calculate_damages] raises
    KeyError for that key. *)
Theorem generated_events_damage_assessment (self : HazardModel.t) (year : Z)
  (climate_effects : option (list (string * Q))) (g g' : state) (events : list Event) :
  Forall (fun rp => 0 <= _intensity_from_return_period np_log self rp) (return_periods self) ->
  0 <= intensity_multiplier climate_effects ->
  generate_events np_log gamma_ppf self year climate_effects g = Py.Ok (events, g') ->
  Forall (fun e =>
            0 <= ev_intensity e
            /\ forall exposed_elements g0,
                 if hazard_type self =? "earthquake" then
                   calculate_damages fpow gamma_ppf exposed_elements e g0
                   = Py.Raise (Py.KeyError "magnitude")
                 else
                   exists damages g1,
                     calculate_damages fpow gamma_ppf exposed_elements e g0
                     = Py.Ok (damages, g1)) events.
Proof.
  intros Hbase Hmult H.
  pose proof (generated_events_attributes np_log gamma_ppf _ _ _ _ _ _ H) as Hall.
  pose proof (generated_events_intensity _ _ _ _ _ _ Hbase Hmult H) as Hint.
  rewrite Forall_forall in Hall, Hint. apply Forall_forall. intros e He.
  split; [exact (Hint e He) |].
  destruct (Hall e He) as (Ht & g0 & g2 & Ha). intros exposed_elements g1.
  destruct (String.eqb_spec (hazard_type self) "earthquake") as [Hq | Hq].
  - apply (earthquake_event_rejected self e g0 g2); [exact Hq | congruence | exact Ha].
  - destruct (String.eqb_spec (hazard_type self) "flood") as [Hf | Hf];
      [apply (flood_event_assessed self e g0 g2); [exact Hf | congruence | exact Ha] |].
    destruct (String.eqb_spec (hazard_type self) "cyclone") as [Hc | Hc];
      [apply (cyclone_event_assessed self e g0 g2); [exact Hc | congruence | exact Ha] |].
    destruct (other_hazards_damages fpow gamma_ppf exposed_elements e g1)
      as (damages & E & _); [| eauto].
    unfold has_damage_functions. rewrite Ht.
    apply String.eqb_neq in Hq, Hf, Hc. rewrite Hq, Hf, Hc. reflexivity.
Qed.

End EventDamages.

Lemma example_exposure_nonneg : DamageBounds.nonneg_exposure DamageExample.exposed.
Proof. constructor; repeat constructor; cbn; lia. Qed.

Lemma example_flood_assessed :
  exists damages g',
    VulnerabilityModel.calculate_damages Fixed.pow Fixed.gamma_ppf DamageExample.exposed
      (DamageExample.flood 2) DamageExample.generator = Py.Ok (damages, g').
Proof.
  apply (calculate_damages_returns Fixed.pow Fixed.gamma_ppf DamageExample.exposed
           (DamageExample.flood 2) DamageExample.generator 2).
  - reflexivity.
  - eexists (fun _ => _). intros ratio. reflexivity.
Qed.

Lemma damage_entries_within_exposure_witness :
  exists damages g',
    VulnerabilityModel.calculate_damages Fixed.pow Fixed.gamma_ppf DamageExample.exposed
      (DamageExample.flood 2) DamageExample.generator = Py.Ok (damages, g')
    /\ DamageBounds.all_within (VulnerabilityModel.d_buildings damages)
    /\ DamageBounds.all_within (VulnerabilityModel.d_infrastructure damages)
    /\ DamageBounds.all_within (VulnerabilityModel.d_agriculture damages)
    /\ (Generator.pos DamageExample.generator <= Generator.pos g')%nat.
Proof.
  destruct example_flood_assessed as (damages & g' & H).
  exists damages, g'. split; [exact H |].
  apply (damage_entries_within_exposure Fixed.pow Fixed.gamma_ppf DamageExample.exposed
           (DamageExample.flood 2) DamageExample.generator g' damages);
    [exact example_exposure_nonneg | exact H].
Defined.

Lemma indirect_losses_follow_direct_losses_witness :
  exists damages g',
    VulnerabilityModel.calculate_damages Fixed.pow Fixed.gamma_ppf DamageExample.exposed
      (DamageExample.flood 2) DamageExample.generator = Py.Ok (damages, g')
    /\ let direct := VulnerabilityModel.direct_losses (VulnerabilityModel.d_economic damages) in
       let indirect :=
         VulnerabilityModel.indirect_losses (VulnerabilityModel.d_economic damages) in
       0 <= direct /\ 0.5 * direct <= indirect /\ indirect <= 3 * direct.
Proof.
  destruct example_flood_assessed as (damages & g' & H).
  exists damages, g'. split; [exact H |].
  apply (indirect_losses_follow_direct_losses Fixed.pow Fixed.gamma_ppf DamageExample.exposed
           (DamageExample.flood 2) DamageExample.generator g' damages);
    [exact example_exposure_nonneg | exact H].
Defined.

Lemma other_hazards_damage_crops_only_witness :
  exists damages,
    VulnerabilityModel.calculate_damages Fixed.pow Fixed.gamma_ppf DamageExample.exposed
      {| HazardModel.ev_type := "drought";
         HazardModel.ev_year := 2030;
         HazardModel.ev_month := 3;
         HazardModel.ev_return_period := 10;
         HazardModel.ev_intensity := 2;
         HazardModel.ev_spatial_footprint := [];
         HazardModel.ev_attributes := [] |} DamageExample.generator
    = Py.Ok (damages, DamageExample.generator)
    /\ VulnerabilityModel.d_buildings damages = []
    /\ VulnerabilityModel.d_casualties damages
       = {| VulnerabilityModel.deaths := 0;
            VulnerabilityModel.injuries := 0;
            VulnerabilityModel.displaced := 0 |}.
Proof.
  destruct (other_hazards_damage_crops_only Fixed.pow Fixed.gamma_ppf DamageExample.exposed
              {| HazardModel.ev_type := "drought";
                 HazardModel.ev_year := 2030;
                 HazardModel.ev_month := 3;
                 HazardModel.ev_return_period := 10;
                 HazardModel.ev_intensity := 2;
                 HazardModel.ev_spatial_footprint := [];
                 HazardModel.ev_attributes := [] |} DamageExample.generator)
    as (damages & H & Hb & _ & _ & Hc & _); [reflexivity |].
  exists damages. split; [exact H |]. split; assumption.
Defined.

Lemma generated_events_damage_assessment_witness :
  exists events g',
    HazardModel.generate_events Fixed.log Fixed.gamma_ppf ExampleConfig.flood 2025 None
      (Generator.replay [0.05] 0.5) = Py.Ok (events, g')
    /\ Forall (fun e =>
                 0 <= HazardModel.ev_intensity e
                 /\ forall exposed_elements g0,
                    exists damages g1,
                      VulnerabilityModel.calculate_damages Fixed.pow Fixed.gamma_ppf
                        exposed_elements e g0 = Py.Ok (damages, g1)) events.
Proof.
  eexists _, _. split; [vm_compute; reflexivity |].
  eapply (generated_events_damage_assessment Fixed.log Fixed.pow Fixed.gamma_ppf
            ExampleConfig.flood 2025 None (Generator.replay [0.05] 0.5)).
  - repeat constructor; vm_compute; discriminate.
  - vm_compute. discriminate.
  - vm_compute. reflexivity.
Defined.

Section ResponseFacts.
Import EmergencyResponseModel ResponseSpec.

Lemma clamp_effectiveness (x : Q) :
  0.05 <= Qmin 0.95 (Qmax 0.05 x) /\ Qmin 0.95 (Qmax 0.05 x) <= 0.95.
Proof.
  split.
  - apply Q.min_glb; [vm_compute; congruence | apply Q.le_max_l].
  - apply Q.le_min_l.
Qed.

Lemma base_effectiveness_table (hazard_type : string) :
  exists table,
    base_effectiveness_of hazard_type = Py.Ok table
    /\ map fst table = operations
    /\ Forall (fun kv => 0.3 <= snd kv /\ snd kv <= 0.8) table.
Proof.
  unfold base_effectiveness_of, Py.contains, Py.item.
  destruct (Py.lookup hazard_type response_effectiveness) as [table |] eqn:E.
  - exists table. split; [reflexivity |].
    apply lookup_in in E. unfold response_effectiveness in E. cbn [In] in E.
    repeat (destruct E as [E | E]; [injection E as _ <-; split; [reflexivity | table_bounds] |]).
    contradiction.
  - eexists. split; [reflexivity |]. split; [reflexivity | table_bounds].
Qed.

Lemma regional_factor_range (region_type : string) :
  exists f, regional_factor_of region_type = Py.Ok f /\ 0.4 <= f /\ f <= 0.8.
Proof.
  unfold regional_factor_of.
  repeat match goal with
         | |- context [String.eqb region_type ?r] => destruct (String.eqb region_type r)
         end;
    (eexists; split; [reflexivity | split; vm_compute; congruence]).
Qed.

Lemma coordination_value : coordination_of = Py.Ok (0.6 * 0.2 + 0.5 * 0.2 + 0.5 * 0.2 + 0.7 * 0.2 + 0.6 * 0.2).
Proof. reflexivity. Qed.

Lemma transport_disruption_range (hazard_type : string) :
  0.2 <= Py.get transportation_disruption hazard_type 0.5
  /\ Py.get transportation_disruption hazard_type 0.5 <= 0.8.
Proof.
  apply (get_satisfies (fun v => 0.2 <= v /\ v <= 0.8)); [table_bounds |].
  split; vm_compute; congruence.
Qed.

Lemma adequacy_keys (affected_population : Q) (available_resources : list (string * Q)) :
  map fst (_calculate_resource_adequacy affected_population available_resources) = operations.
Proof. reflexivity. Qed.

Lemma adjust_returns (base : list (string * Q)) (rf co td : Q) (adequacy : list (string * Q)) :
  Forall (fun kv => Py.contains (fst kv) adequacy = true) base ->
  exists results,
    adjust base rf co td adequacy = Py.Ok results
    /\ map fst results = map fst base
    /\ Forall (fun kv => 0.05 <= snd kv /\ snd kv <= 0.95) results
    /\ Forall2 (fun b r =>
                  exists a, Py.lookup (fst b) adequacy = Some a
                            /\ snd r == Qmin 0.95 (Qmax 0.05
                                 (snd b * (0.4 + 0.2 * rf + 0.2 * a + 0.1 * co
                                           + 0.1 * (1 - td)))))
               base results.
Proof.
  induction 1 as [| [operation base_value] rest Hk _ IH]; cbn [adjust].
  - exists []. repeat split; constructor.
  - cbn [fst] in Hk. unfold Py.contains in Hk. unfold Py.item.
    destruct (Py.lookup operation adequacy) as [a |] eqn:E; [| discriminate].
    cbn [Py.bind]. destruct IH as (others & -> & Hkeys & Hrange & Hvalues). cbn [Py.bind].
    eexists. split; [reflexivity |]. cbn [map fst snd].
    split; [f_equal; exact Hkeys |].
    split; [constructor; [apply clamp_effectiveness | exact Hrange] |].
    constructor; [| exact Hvalues]. exists a. cbn [fst snd]. split; [exact E | reflexivity].
Qed.

Lemma max_one_positive (x : Q) : ~ Qmax 1 x == 0.
Proof.
  pose proof (Q.le_max_l 1 x). intros E. rewrite E in H. revert H. vm_compute. congruence.
Qed.

Lemma simulate_response_facts (disaster_impacts : Impacts)
  (available_resources : list (string * Q)) :
  exists response,
    simulate_response disaster_impacts available_resources = Py.Ok response
    /\ map fst (r_response_effectiveness response) = operations
    /\ Forall (fun kv => 0.05 <= snd kv /\ snd kv <= 0.95) (r_response_effectiveness response)
    /\ r_response_gaps response
       = map (fun kv => (fst kv, Qmax 0 (1.0 - snd kv))) (r_response_effectiveness response)
    /\ r_overall_response_score response
       == Py.sumQ (map snd (r_response_effectiveness response)) / 5
    /\ r_additional_lives_saved response
       = Py.py_int (Py.get (casualties disaster_impacts) "deaths" 0
                    * Py.get (r_response_effectiveness response) "rescue" 0.5 * 0.3)
    /\ r_shelter_access_ratio response <= 1
    /\ r_relief_provision_ratio response <= 1
    /\ r_medical_service_ratio response <= 1
    /\ exists table rf,
         let hazard :=
           match hazard_type disaster_impacts with Some h => h | None => "flood" end in
         let adequacy :=
           _calculate_resource_adequacy (affected_population_of (casualties disaster_impacts))
                                        available_resources in
         base_effectiveness_of hazard = Py.Ok table
         /\ Forall (fun kv => 0.3 <= snd kv /\ snd kv <= 0.8) table
         /\ (0.4 <= rf /\ rf <= 0.8)
         /\ Forall2 (fun b r =>
                       exists a, Py.lookup (fst b) adequacy = Some a
                                 /\ snd r == Qmin 0.95 (Qmax 0.05
                                      (snd b * (0.4 + 0.2 * rf + 0.2 * a
                                                + 0.1 * (0.6 * 0.2 + 0.5 * 0.2 + 0.5 * 0.2
                                                         + 0.7 * 0.2 + 0.6 * 0.2)
                                                + 0.1 * (1 - Py.get transportation_disruption
                                                                    hazard 0.5)))))
                     table (r_response_effectiveness response).
Proof.
  unfold simulate_response.
  set (hazard := match hazard_type disaster_impacts with Some h => h | None => "flood" end).
  set (region := match region_type disaster_impacts with Some r => r | None => "generic" end).
  destruct (base_effectiveness_table hazard) as (table & Et & Hkeys & Hbase).
  rewrite Et. cbn [Py.bind].
  destruct (regional_factor_range region) as (rf & -> & Hrf). cbn [Py.bind].
  rewrite coordination_value. cbn [Py.bind].
  set (adequacy := _calculate_resource_adequacy _ available_resources).
  destruct (adjust_returns table rf (0.6 * 0.2 + 0.5 * 0.2 + 0.5 * 0.2 + 0.7 * 0.2 + 0.6 * 0.2)
              (Py.get transportation_disruption hazard 0.5) adequacy)
    as (results & -> & Hrkeys & Hrange & Hvalues).
  { assert (Hall : Forall (fun k => Py.contains k adequacy = true) (map fst table)).
    { rewrite Hkeys. repeat constructor. }
    clear - Hall. induction table as [| kv table IH]; [constructor |].
    cbn [map] in Hall. inversion Hall; subst. constructor; [assumption | apply IH; assumption]. }
  cbn [Py.bind].
  rewrite !(div_nonzero _ _ (max_one_positive _)). cbn [Py.bind].
  assert (Hlen : List.length results = 5%nat).
  { rewrite <- (length_map fst), Hrkeys, Hkeys. reflexivity. }
  rewrite Hlen. rewrite div_nonzero by (vm_compute; congruence). cbn [Py.bind].
  eexists. split; [reflexivity |].
  cbn [r_response_effectiveness r_response_gaps r_overall_response_score
       r_additional_lives_saved r_shelter_access_ratio r_relief_provision_ratio
       r_medical_service_ratio].
  split; [congruence |]. split; [exact Hrange |]. split; [reflexivity |].
  split; [reflexivity |]. split; [reflexivity |].
  assert (Hmin : forall x, Qmin 1.0 x <= 1)
    by (intros x; apply Qle_trans with 1.0; [apply Q.le_min_l | vm_compute; congruence]).
  split; [apply Hmin |]. split; [apply Hmin |]. split; [apply Hmin |].
  exists table, rf. cbv zeta.
  split; [reflexivity |]. split; [exact Hbase |]. split; [exact Hrf | exact Hvalues].
Qed.

End ResponseFacts.

Section ResponseTheorems.
Import EmergencyResponseModel ResponseSpec.

Lemma gaps_within (results : list (string * Q)) :
  Forall (fun kv => 0.05 <= snd kv /\ snd kv <= 0.95) results ->
  Forall2 (fun r gap => fst gap = fst r /\ snd gap == 1 - snd r
                        /\ 0.05 <= snd gap /\ snd gap <= 0.95)
          results (map (fun kv => (fst kv, Qmax 0 (1.0 - snd kv))) results).
Proof.
  induction 1 as [| [k v] results [H0 H1] _ IH]; cbn [map]; constructor; [| exact IH].
  cbn [fst snd] in *. split; [reflexivity |].
  assert (E : Qmax 0 (1.0 - v) == 1 - v).
  { rewrite (proj2 (Q.max_r_iff 0 (1.0 - v))); [lra |]. lra. }
  rewrite E. repeat split; lra.
Qed.

Lemma mean_of_five (results : list (string * Q)) (lo hi : Q) :
  List.length results = 5%nat ->
  Forall (fun kv => lo <= snd kv /\ snd kv <= hi) results ->
  lo <= Py.sumQ (map snd results) / 5 /\ Py.sumQ (map snd results) / 5 <= hi.
Proof.
  intros Hlen Hall.
  destruct results as [| [k1 v1] [| [k2 v2] [| [k3 v3] [| [k4 v4] [| [k5 v5] [| ? ?]]]]]];
    try discriminate.
  repeat match goal with
         | H : Forall _ (_ :: _) |- _ => inversion H; subst; clear H
         end.
  cbn [map snd] in *. rewrite !sumQ_cons. unfold Py.sumQ. cbn [fold_left].
  split.
  - apply Qle_shift_div_l; [reflexivity | lra].
  - apply Qle_shift_div_r; [reflexivity | lra].
Qed.

(** X27 ([EmergencyResponseModel.simulate_response]).  The call returns for
    every input, never raising.  The effectiveness of the five operations
    (rescue, evacuation, relief, medical, restoration, in that order) lies
    in [0.05, 0.95], each gap is one minus the effectiveness, the overall
    score is their mean and lies in [0.05, 0.95], and the shelter, relief
    and medical ratios are at most 1. *)
Theorem response_returns_within_bounds (disaster_impacts : Impacts)
  (available_resources : list (string * Q)) :
  exists response,
    simulate_response disaster_impacts available_resources = Py.Ok response
    /\ map fst (r_response_effectiveness response) = operations
    /\ Forall (fun kv => 0.05 <= snd kv /\ snd kv <= 0.95) (r_response_effectiveness response)
    /\ Forall2 (fun r gap => fst gap = fst r /\ snd gap == 1 - snd r
                             /\ 0.05 <= snd gap /\ snd gap <= 0.95)
               (r_response_effectiveness response) (r_response_gaps response)
    /\ (0.05 <= r_overall_response_score response
        /\ r_overall_response_score response <= 0.95)
    /\ r_shelter_access_ratio response <= 1
    /\ r_relief_provision_ratio response <= 1
    /\ r_medical_service_ratio response <= 1.
Proof.
  destruct (simulate_response_facts disaster_impacts available_resources)
    as (response & E & Hkeys & Hrange & Hgaps & Hscore & _ & Hs & Hr & Hm & _).
  exists response. split; [exact E |]. split; [exact Hkeys |]. split; [exact Hrange |].
  split; [rewrite Hgaps; apply gaps_within; exact Hrange |].
  split; [| repeat split; assumption].
  rewrite Hscore. apply mean_of_five; [| exact Hrange].
  rewrite <- (length_map fst), Hkeys. reflexivity.
Qed.

(** X28 ([EmergencyResponseModel.simulate_response], lives saved).  With a
    non-negative number of deaths, the lives saved by the response are a
    whole number between 0 and 28.5 percent of the deaths. *)
Theorem lives_saved_by_response_bounded (disaster_impacts : Impacts)
  (available_resources : list (string * Q)) (response : Response) :
  0 <= Py.get (casualties disaster_impacts) "deaths" 0 ->
  simulate_response disaster_impacts available_resources = Py.Ok response ->
  (0 <= r_additional_lives_saved response)%Z
  /\ inject_Z (r_additional_lives_saved response)
     <= 0.285 * Py.get (casualties disaster_impacts) "deaths" 0.
Proof.
  intros Hdeaths H.
  destruct (simulate_response_facts disaster_impacts available_resources)
    as (response' & E & _ & Hrange & _ & _ & Hlives & _).
  rewrite E in H. injection H as <-. rewrite Hlives.
  assert (Hrescue : 0.05 <= Py.get (r_response_effectiveness response') "rescue" 0.5
                    /\ Py.get (r_response_effectiveness response') "rescue" 0.5 <= 0.95).
  { apply (get_satisfies (fun v => 0.05 <= v /\ v <= 0.95)); [exact Hrange |].
    split; vm_compute; congruence. }
  set (deaths := Py.get (casualties disaster_impacts) "deaths" 0) in *.
  set (rescue := Py.get (r_response_effectiveness response') "rescue" 0.5) in *.
  clearbody deaths rescue.
  assert (H0 : 0 <= deaths * rescue * 0.3) by nra.
  split; [apply py_int_nonneg; exact H0 |].
  apply py_int_le_bound; [exact H0 | nra].
Qed.

Lemma adequacy_lookup (affected_population : Q) (available_resources : list (string * Q))
  (operation : string) (a : Q) :
  adequacy_within_unit available_resources ->
  Py.lookup operation (_calculate_resource_adequacy affected_population available_resources)
  = Some a ->
  0 <= a /\ a <= 1.
Proof.
  intros Hunit. unfold adequacy_within_unit, operations in Hunit.
  rewrite !Forall_cons_iff in Hunit. destruct Hunit as (H1 & H2 & H3 & H4 & H5 & _).
  cbn [String.append] in H1, H2, H3, H4, H5.
  unfold _calculate_resource_adequacy. cbn [Py.lookup].
  assert (Hget : forall key,
             (forall v, Py.lookup key available_resources = Some v -> 0 <= v /\ v <= 1) ->
             0 <= Py.get available_resources key 0.6
             /\ Py.get available_resources key 0.6 <= 1).
  { intros key Hk. unfold Py.get.
    destruct (Py.lookup key available_resources) as [v |]; [apply Hk; reflexivity |].
    split; vm_compute; congruence. }
  repeat match goal with
         | |- context [String.eqb operation ?k] => destruct (String.eqb operation k)
         end; try discriminate; intros [= <-]; apply Hget; assumption.
Qed.

Lemma adjusted_within (rf td : Q) (adequacy table results : list (string * Q)) :
  0.4 <= rf /\ rf <= 0.8 ->
  0.2 <= td /\ td <= 0.8 ->
  (forall operation a, Py.lookup operation adequacy = Some a -> 0 <= a /\ a <= 1) ->
  Forall (fun kv => 0.3 <= snd kv /\ snd kv <= 0.8) table ->
  Forall2 (fun b r =>
             exists a, Py.lookup (fst b) adequacy = Some a
                       /\ snd r == Qmin 0.95 (Qmax 0.05
                            (snd b * (0.4 + 0.2 * rf + 0.2 * a
                                      + 0.1 * (0.6 * 0.2 + 0.5 * 0.2 + 0.5 * 0.2
                                               + 0.7 * 0.2 + 0.6 * 0.2)
                                      + 0.1 * (1 - td)))))
          table results ->
  Forall2 (fun b r => (0.558 * snd b <= snd r /\ snd r <= 0.898 * snd b)
                      /\ (0.1674 <= snd r /\ snd r <= 0.7184))
          table results.
Proof.
  intros Hrf Htd Hadequacy Hbase Hvalues. revert Hbase.
  induction Hvalues as [| b r table results (a & Ha & Hr) _ IH];
    intros Hbase; [constructor |].
  inversion Hbase as [| ? ? [Hb0 Hb1] Hrest]; subst.
  constructor; [| apply IH; exact Hrest].
  destruct (Hadequacy _ _ Ha) as [Ha0 Ha1].
  set (factor := 0.4 + 0.2 * rf + 0.2 * a
                 + 0.1 * (0.6 * 0.2 + 0.5 * 0.2 + 0.5 * 0.2 + 0.7 * 0.2 + 0.6 * 0.2)
                 + 0.1 * (1 - td)) in *.
  assert (Hf : 0.558 <= factor /\ factor <= 0.898) by (unfold factor; split; lra).
  clearbody factor.
  assert (Hx : 0.05 <= snd b * factor /\ snd b * factor <= 0.95) by (split; nra).
  assert (Ec : Qmin 0.95 (Qmax 0.05 (snd b * factor)) == snd b * factor).
  { rewrite (proj2 (Q.max_r_iff 0.05 (snd b * factor))) by lra.
    apply (proj2 (Q.min_r_iff 0.95 (snd b * factor))). lra. }
  rewrite Hr, Ec. repeat split; nra.
Qed.

(** X29 ([EmergencyResponseModel.simulate_response], adjustments).  When
    every adequacy the caller gives lies in [0, 1], the effectiveness of each
    operation is its base value times a factor between 0.558 and 0.898: the
    adjustments only lower the base effectiveness, and the bounds 0.05 and
    0.95 are never reached (every effectiveness lies in [0.1674, 0.7184]). *)
Theorem response_effectiveness_below_base (disaster_impacts : Impacts)
  (available_resources : list (string * Q)) (response : Response) :
  adequacy_within_unit available_resources ->
  simulate_response disaster_impacts available_resources = Py.Ok response ->
  exists base_effectiveness,
    base_effectiveness_of
      (match hazard_type disaster_impacts with Some h => h | None => "flood" end)
    = Py.Ok base_effectiveness
    /\ Forall2 (fun b r => 0.558 * snd b <= snd r /\ snd r <= 0.898 * snd b)
               base_effectiveness (r_response_effectiveness response)
    /\ Forall (fun kv => 0.1674 <= snd kv /\ snd kv <= 0.7184)
              (r_response_effectiveness response).
Proof.
  intros Hunit H.
  destruct (simulate_response_facts disaster_impacts available_resources)
    as (response' & E & _ & _ & _ & _ & _ & _ & _ & _ & table & rf & Hfacts).
  cbv zeta in Hfacts. destruct Hfacts as (Et & Hbase & Hrf & Hvalues).
  rewrite E in H. injection H as <-.
  pose proof (transport_disruption_range
                (match hazard_type disaster_impacts with Some h => h | None => "flood" end))
    as Htd.
  set (td := Py.get transportation_disruption _ 0.5) in *. clearbody td.
  set (adequacy := _calculate_resource_adequacy _ available_resources) in *.
  assert (Hadequacy : forall operation a,
             Py.lookup operation adequacy = Some a -> 0 <= a /\ a <= 1).
  { intros operation a. apply adequacy_lookup. exact Hunit. }
  clearbody adequacy.
  pose proof (adjusted_within rf td adequacy table (r_response_effectiveness response')
                Hrf Htd Hadequacy Hbase Hvalues) as Hboth.
  exists table. split; [exact Et |]. split.
  - eapply Forall2_impl; [| exact Hboth]. cbv beta. intros b r [Hx _]. exact Hx.
  - clear - Hboth. induction Hboth as [| b r t rs [_ Hy] _ IH]; constructor; assumption.
Qed.

End ResponseTheorems.

Lemma lives_saved_by_response_bounded_witness :
  exists response,
    EmergencyResponseModel.simulate_response ResponseSpec.coastal_flood [] = Py.Ok response
    /\ (0 <= EmergencyResponseModel.r_additional_lives_saved response)%Z
    /\ inject_Z (EmergencyResponseModel.r_additional_lives_saved response) <= 0.285 * 400.
Proof.
  eexists. split; [vm_compute; reflexivity |].
  apply (lives_saved_by_response_bounded ResponseSpec.coastal_flood []).
  - vm_compute. congruence.
  - vm_compute. reflexivity.
Defined.

Lemma response_effectiveness_below_base_witness :
  exists response base_effectiveness,
    EmergencyResponseModel.simulate_response ResponseSpec.coastal_flood
      [("rescue_adequacy", 0.9); ("relief_days", 40000)] = Py.Ok response
    /\ EmergencyResponseModel.base_effectiveness_of "flood" = Py.Ok base_effectiveness
    /\ Forall2 (fun b r => 0.558 * snd b <= snd r /\ snd r <= 0.898 * snd b)
         base_effectiveness (EmergencyResponseModel.r_response_effectiveness response)
    /\ Forall (fun kv => 0.1674 <= snd kv /\ snd kv <= 0.7184)
         (EmergencyResponseModel.r_response_effectiveness response).
Proof.
  assert (Hunit : ResponseSpec.adequacy_within_unit
                    [("rescue_adequacy", 0.9); ("relief_days", 40000)]).
  { unfold ResponseSpec.adequacy_within_unit, ResponseSpec.operations.
    repeat (apply Forall_cons;
            [cbn; intros v Hv; try discriminate;
             injection Hv as <-; split; vm_compute; congruence |]).
    apply Forall_nil. }
  destruct (simulate_response_facts ResponseSpec.coastal_flood
              [("rescue_adequacy", 0.9); ("relief_days", 40000)]) as (response & H & _).
  destruct (response_effectiveness_below_base ResponseSpec.coastal_flood
              [("rescue_adequacy", 0.9); ("relief_days", 40000)] response Hunit H)
    as (base & Eb & F2 & F).
  exists response, base. split; [exact H |]. split; [exact Eb |]. split; assumption.
Defined.

(** ** The trajectories [simulate_recovery] returns *)

Section ReturnedTrajectories.
Import RecoveryModel TrajectorySpec RecoveryShape.

Variable np_sqrt : Q -> Q.
Variable np_exp : Q -> Q.
Hypothesis sqrt_mono : sqrt_monotone np_sqrt.
Hypothesis exp_pos : exp_positive np_exp.
Hypothesis exp_mono : exp_monotone np_exp.

Lemma shape_first_last (horizon : Z) (trajectory : list Q) :
  trajectory_shape horizon trajectory ->
  nondecreasing trajectory
  /\ (exists final, last_item trajectory = Py.Ok final /\ final <= 1)
  /\ ((0 < horizon)%Z -> hd 1 trajectory == 0)
  /\ (horizon = 0%Z -> exists v, trajectory = [v] /\ v == 1).
Proof.
  intros (Hnn & Hzero & Hpos).
  destruct (Z.eq_dec horizon 0) as [E | E].
  - destruct (Hzero E) as (v & -> & Hv).
    split; [exact I |].
    split; [exists v; split; [reflexivity | rewrite Hv; discriminate] |].
    split; [intros; lia | intros _; exists v; split; [reflexivity | exact Hv]].
  - destruct Hpos as (Hlen & Hhd & Hunit & Hmono); [lia |].
    split; [exact Hmono |].
    assert (Hne : trajectory <> []).
    { intros ->. cbn in Hlen. lia. }
    split.
    + exists (last trajectory 0). split.
      * unfold last_item. destruct trajectory; [contradiction | reflexivity].
      * exact (proj2 (last_in_forall (fun v => 0 <= v /\ v <= 1) trajectory 0 Hunit Hne)).
    + split; [intros _; exact Hhd | intros; contradiction].
Qed.

(** C3 (corrected).  Every sector trajectory that [simulate_recovery]
    returns never decreases and ends at a value of at most 1, hence at most
    1 + bbb_improvement.  It starts at 0 when the horizon of its sector is
    positive; for a sector whose horizon is zero it is the single value 1,
    so that its first element is 1. *)
Theorem returned_trajectories_start_and_end (disaster_impacts : Impacts)
  (governance_quality : list (string * string)) (funding_availability : Funding)
  (recovery : Recovery) :
  simulate_recovery np_sqrt np_exp disaster_impacts governance_quality funding_availability
  = Py.Ok recovery ->
  Forall2 (fun h t =>
             fst t = fst h
             /\ nondecreasing (snd t)
             /\ (exists final,
                    last_item (snd t) = Py.Ok final
                    /\ final <= 1
                    /\ final <= 1 + bbb_improvement recovery)
             /\ ((0 < snd h)%Z -> hd 1 (snd t) == 0)
             /\ (snd h = 0%Z -> exists v, snd t = [v] /\ v == 1))
          (recovery_horizon_months recovery) (recovery_trajectories recovery).
Proof.
  intros Hrun.
  pose proof (simulate_recovery_shaped np_sqrt np_exp sqrt_mono exp_pos exp_mono _ _ _ _ Hrun)
    as Hshape.
  assert (Hbbb : 0 <= bbb_improvement recovery).
  { unfold simulate_recovery in Hrun.
    apply bind_ok in Hrun. destruct Hrun as (horizons & _ & H).
    apply bind_ok in H. destruct H as (ratio & _ & H).
    apply bind_ok in H. destruct H as (gm & _ & H).
    apply bind_ok in H. destruct H as (bbb & Hbbb & H).
    apply bind_ok in H. destruct H as (trajectories & _ & H).
    apply bind_ok in H. destruct H as (quality & _ & H).
    injection H as <-. cbn [bbb_improvement].
    apply bbb_improvement_range in Hbbb. lra. }
  unfold shaped_by in Hshape.
  induction Hshape as [| h t hs ts [Hkey Hs] _ IH]; constructor; [| exact IH].
  destruct (shape_first_last _ _ Hs) as (Hmono & (final & Hlast & Hfinal) & Hfirst & Hzero).
  split; [exact Hkey |]. split; [exact Hmono |].
  split; [exists final; split; [exact Hlast | split; [exact Hfinal | lra]] |].
  split; assumption.
Qed.

End ReturnedTrajectories.

Lemma returned_trajectories_start_and_end_witness :
  exists recovery,
    RecoveryModel.simulate_recovery Fixed.sqrt Fixed.exp RecoveryExample.flood_impacts []
      RecoveryExample.default_funding = Py.Ok recovery
    /\ Forall2 (fun h t =>
                  fst t = fst h
                  /\ TrajectorySpec.nondecreasing (snd t)
                  /\ (exists final,
                         RecoveryModel.last_item (snd t) = Py.Ok final
                         /\ final <= 1
                         /\ final <= 1 + RecoveryModel.bbb_improvement recovery)
                  /\ ((0 < snd h)%Z -> hd 1 (snd t) == 0)
                  /\ (snd h = 0%Z -> exists v, snd t = [v] /\ v == 1))
               (RecoveryModel.recovery_horizon_months recovery)
               (RecoveryModel.recovery_trajectories recovery).
Proof.
  destruct flood_recovery_returns as [recovery H].
  exists recovery. split; [exact H |].
  apply (returned_trajectories_start_and_end Fixed.sqrt Fixed.exp fixed_sqrt_monotone
           fixed_exp_positive fixed_exp_monotone RecoveryExample.flood_impacts []
           RecoveryExample.default_funding).
  exact H.
Defined.

(** C3, counterexample.  Economic losses only: no house is damaged, the
    housing horizon is 0 and the housing trajectory that
    [simulate_recovery] returns is the single value 1; its first element is
    not 0. *)
Lemma zero_horizon_trajectory_starts_at_one :
  exists recovery trajectory,
    RecoveryModel.simulate_recovery Fixed.sqrt Fixed.exp RecoveryExample.economic_only []
      RecoveryExample.default_funding = Py.Ok recovery
    /\ Py.lookup "housing" (RecoveryModel.recovery_horizon_months recovery) = Some 0%Z
    /\ Py.lookup "housing" (RecoveryModel.recovery_trajectories recovery) = Some trajectory
    /\ List.length trajectory = 1%nat
    /\ hd 1 trajectory == 1
    /\ ~ hd 1 trajectory == 0.
Proof.
  eexists _, _. split; [vm_compute; reflexivity |].
  split; [reflexivity |]. split; [reflexivity |].
  split; [reflexivity |]. split; [reflexivity |]. discriminate.
Qed.
